(** * Dual KPI custom visual: a shallow embedding and its checked properties

    The repository holds two near-duplicate versions of one Power BI visual:
    [src/src/visual.ts] (rebuilds every SVG node on each update) and the
    unnamed later revision [src/unnamed/part_000] (keeps a persistent node
    tree and guards empty series).  Functions whose text is the same in both
    files are embedded once; [converter], [drawChart], [drawBottomContainer]
    and [update], which differ, are embedded once per revision, in
    [Module Visual] (the [visual.ts] text) and [Module Revised] (the
    [part_000] text).

    Modelling conventions.
    - A JavaScript number is a [number]: a rational or [NaN] (no infinities,
      no negative zero).  Arithmetic on the values of a table rounds as
      doubles do: [JS.mul], [JS.fsub] and [JS.fdiv] are the product, the
      difference and the quotient rounded to the nearest double
      ([JS.double]: 53 significant bits, ties to even; the exponent range is
      not bounded, so overflow and subnormal numbers are outside the
      embedding).  Layout arithmetic ([JS.add], [JS.sub], [JS.div]) keeps the
      exact result: it runs on the sides of the viewport, on margins and on
      millisecond counts, where the double result is the exact one or is
      read through [Math.round].  [toFixed] is the ECMAScript algorithm on
      the exact value of its argument and prints positional digits
      throughout (an engine switches to exponent notation from 1e21 on,
      which is outside the embedding).
    - [undefined] is [JUndefined] where a value is kept as read; reading a
      property of [undefined] is the [TypeError] outcome of [result].
    - A [Date] is its time value ([getTime()]), [NaN] for an invalid date; a
      table cell holds a number, a date cell being read through its time value.
    - Arrays are lists read with stdpp's lookup; a JavaScript index is an
      integer, and a negative or out-of-range index reads [undefined].
    - Objects used as dictionaries (a column's [roles]) are [gmap string _].
    - What the host and the d3 library supply is either modelled in exact
      arithmetic ([d3.format], [d3.min], [d3.max]) or taken from a [Host]
      record (the clock, date parsing, [d3.time.format]).
    - SVG geometry that depends on measured text ([getBBox]), the scales'
      pixel mapping and the pointer handlers are not part of the embedding;
      what a render produces is the logical content of each panel and of the
      footer.
    - [visual.ts] removes every node at the start of an update, so an update
      is a function of its options.  The later revision draws into nodes its
      constructor creates once: [Module Revised] describes what one call
      computes and writes on the node tree the constructor has just created
      (the first update of an instance); what earlier updates left in the
      persistent nodes is not part of the embedding. *)

From Stdlib Require Import QArith Qround Qabs Qpower Qreduction ZArith Lia Lqa.
From Stdlib Require Import List Sorted.
From Stdlib Require Import Ascii String DecimalString.
From stdpp Require Import base option list strings gmap.

Local Open Scope Z_scope.

(** ** Outcomes: a value, or the [TypeError] of reading through [undefined] *)

Inductive result (A : Type) : Type :=
| Ok (a : A)
| TypeError.
Arguments Ok {A} a.
Arguments TypeError {A}.

Definition bind {A B : Type} (m : result A) (k : A -> result B) : result B :=
  match m with
  | Ok a => k a
  | TypeError => TypeError
  end.

Notation "'let*' x ':=' m 'in' k" := (bind m (fun x => k))
  (at level 10, x pattern, m at level 100, k at level 200).

(** [o.p] where [o] may be [undefined]. *)
Definition defined {A : Type} (o : option A) : result A :=
  match o with
  | Some a => Ok a
  | None => TypeError
  end.

(** ** JavaScript numbers and values *)

Inductive number : Type :=
| Num (q : Q)
| NaN.

Inductive jsval : Type :=
| JUndefined
| JNumber (n : number).

Definition ToNumber (v : jsval) : number :=
  match v with
  | JUndefined => NaN
  | JNumber n => n
  end.

(** [a[i]] on an array: [undefined] outside [0 .. length-1]. *)
Definition js_index {A : Type} (a : list A) (i : Z) : option A :=
  if i <? 0 then None else a !! Z.to_nat i.

Module JS.

Definition of_Z (z : Z) : number := Num (inject_Z z).

Definition lift2 (f : Q -> Q -> Q) (a b : number) : number :=
  match a, b with
  | Num x, Num y => Num (f x y)
  | _, _ => NaN
  end.

(** *** Doubles

    [double x] is the double nearest to the rational [x]: the significand
    [x / 2^s] of a number in the binade [[2^e, 2^(e+1))], with [s = e - 52],
    is rounded to an integer, a tie going to the even one. *)
Definition pow2 (k : Z) : Q := Qpower 2 k.

(** The integer nearest to [x], a tie going to the even one. *)
Definition Qround_half_even (x : Q) : Z :=
  let f := Qfloor x in
  match (x - inject_Z f ?= 1 # 2)%Q with
  | Lt => f
  | Gt => f + 1
  | Eq => if Z.even f then f else f + 1
  end.

(** For a positive [a], the [e] with [2^e <= a < 2^(e+1)]. *)
Definition binade (a : Q) : Z :=
  let e := Z.log2 (Qnum a) - Z.log2 (Zpos (Qden a)) in
  if Qle_bool (pow2 e) a then e else e - 1.

Definition double_pos (a : Q) : Q :=
  let s := binade a - 52 in
  (inject_Z (Qround_half_even (a / pow2 s)) * pow2 s)%Q.

Definition double (x : Q) : Q :=
  let r := Qred x in
  match (r ?= 0)%Q with
  | Eq => 0%Q
  | Gt => Qred (double_pos r)
  | Lt => (- Qred (double_pos (- r)))%Q
  end.

(** *** Arithmetic *)

(** [a + b], [a - b] in layout arithmetic: the exact sum and difference. *)
Definition add : number -> number -> number := lift2 Qplus.
Definition sub : number -> number -> number := lift2 Qminus.

(** [a * b]: the double product. *)
Definition mul : number -> number -> number :=
  lift2 (fun x y => double (x * y)).

(** [a - b] on values of a table: the double difference. *)
Definition fsub : number -> number -> number :=
  lift2 (fun x y => double (x - y)).

(** [a / b] in layout arithmetic: the exact quotient.  A zero divisor would
    give an infinity; the embedded code only divides by non-zero constants
    or behind a [=== 0] guard, and the embedding answers [NaN] there. *)
Definition div (a b : number) : number :=
  match a, b with
  | Num x, Num y => if Qeq_bool y 0 then NaN else Num (x / y)
  | _, _ => NaN
  end.

(** [a / b] on values of a table: the double quotient. *)
Definition fdiv (a b : number) : number :=
  match a, b with
  | Num x, Num y => if Qeq_bool y 0 then NaN else Num (double (x / y))
  | _, _ => NaN
  end.

(** [Math.abs]. *)
Definition abs (a : number) : number :=
  match a with
  | Num x => Num (Qabs x)
  | NaN => NaN
  end.

Definition Qltb (x y : Q) : bool := negb (Qle_bool y x).

(** [a < b], [a >= b], [a > b], [a === b]: a comparison with [NaN] is
    false. *)
Definition lt (a b : number) : bool :=
  match a, b with
  | Num x, Num y => Qltb x y
  | _, _ => false
  end.
Definition ge (a b : number) : bool :=
  match a, b with
  | Num x, Num y => Qle_bool y x
  | _, _ => false
  end.
Definition gt (a b : number) : bool := lt b a.
Definition strict_eq (a b : number) : bool :=
  match a, b with
  | Num x, Num y => Qeq_bool x y
  | _, _ => false
  end.

(** A number in a boolean position: [0] and [NaN] are falsy. *)
Definition truthy (a : number) : bool :=
  match a with
  | Num x => negb (Qeq_bool x 0)
  | NaN => false
  end.

(** [Math.round]: the nearest integer, a tie going up. *)
Definition Qround_half_up (x : Q) : Z := Qfloor (x + (1 # 2)).
Definition round (a : number) : number :=
  match a with
  | Num x => of_Z (Qround_half_up x)
  | NaN => NaN
  end.

(** Truncation towards zero (ToIntegerOrInfinity). *)
Definition Qtrunc (x : Q) : Z := if Qltb x 0 then Qceiling x else Qfloor x.

(** Decimal digits of a natural number, ["0"] for zero. *)
Definition digits (n : Z) : string :=
  NilZero.string_of_uint (N.to_uint (Z.to_N n)).

(** The last [f] decimal digits of [n], zero padded. *)
Fixpoint frac_digits (f : nat) (n : Z) : string :=
  match f with
  | O => ""
  | S f' => frac_digits f' (n / 10) +:+ digits (n mod 10)
  end.

(** [Number.prototype.toFixed(f)] on a non-negative value: [n] is the
    integer with [n / 10^f] closest to [x] (the larger on a tie), printed
    with a point before its last [f] digits. *)
Definition toFixed_abs (f : nat) (x : Q) : string :=
  let n := Qround_half_up (x * inject_Z (10 ^ Z.of_nat f)) in
  digits (n / 10 ^ Z.of_nat f) +:+
  match f with
  | O => ""
  | S _ => "." +:+ frac_digits f (n mod 10 ^ Z.of_nat f)
  end.

(** [x.toFixed(f)]: the digits are those of the exact value of [x], which is
    a double wherever the visual calls it. *)
Definition toFixed (f : nat) (a : number) : string :=
  match a with
  | NaN => "NaN"
  | Num x =>
      if Qltb x 0 then "-" +:+ toFixed_abs f (- x) else toFixed_abs f x
  end.

(** [String(n)] for an integral number, as string concatenation renders a
    day count. *)
Definition toString (a : number) : string :=
  match a with
  | NaN => "NaN"
  | Num x => (if Qltb x 0 then "-" else "") +:+ digits (Qfloor (Qabs x))
  end.

End JS.

(** ** Dates *)

Record Date : Type := mkDate { getTime : number }.

(** TimeClip: a time value is an integer of at most 8.64e15 milliseconds. *)
Definition TimeClip (t : number) : number :=
  match t with
  | NaN => NaN
  | Num x =>
      if JS.Qltb (inject_Z 8640000000000000) (Qabs x) then NaN
      else JS.of_Z (JS.Qtrunc x)
  end.

(** [new Date(v)] for a cell value. *)
Definition newDate (v : jsval) : Date := mkDate (TimeClip (ToNumber v)).

(** What the running host supplies: the clock read by [new Date()] (in the
    converter's row loop, by row, and in the footer), the parse of a date
    string by [new Date(s)] and [d3.time.format("%m/%d/%y")], which prints in
    the host's time zone. *)
Record Host : Type := mkHost {
  nowAtRow : nat -> Date;
  today : Date;
  parseDate : string -> Date;
  timeFormatter : Date -> string
}.


(** ** The d3 (version 3) helpers the visual calls, in exact arithmetic *)

Module D3.

(** [d3.min(array, accessor)] over the accessed values: values that are not
    numbers are skipped; [NaN] stands for the [undefined] of an array with
    no number in it (every later use coerces it to a number). *)
Fixpoint min_from (a : number) (l : list number) : number :=
  match l with
  | [] => a
  | b :: r => min_from (if JS.gt a b then b else a) r
  end.

Fixpoint min (l : list number) : number :=
  match l with
  | [] => NaN
  | b :: r => if JS.ge b b then min_from b r else min r
  end.

Fixpoint max_from (a : number) (l : list number) : number :=
  match l with
  | [] => a
  | b :: r => max_from (if JS.gt b a then b else a) r
  end.

Fixpoint max (l : list number) : number :=
  match l with
  | [] => NaN
  | b :: r => if JS.ge b b then max_from b r else max r
  end.

(** [d3.scale.linear().domain([d0, d1]).range([r0, r1])] at [x]: [x] is
    mapped to its fraction [t] of the way from [d0] to [d1]
    ([d3_uninterpolateNumber], which answers 0 for a domain of one point) and
    [t] to [r0 * (1 - t) + r1 * t] ([d3_interpolateNumber]). *)
Definition scale_linear (d0 d1 r0 r1 x : number) : number :=
  match d0, d1, r0, r1, x with
  | Num a, Num b, Num p, Num q, Num v =>
      let t := (if Qeq_bool (b - a) 0 then 0 else (v - a) / (b - a))%Q in
      Num (p * (1 - t) + q * t)
  | _, _, _, _, _ => NaN
  end.

(** Two numbers give the same key of a data join: the key is the number as
    a string. *)
Definition same_key (a b : number) : bool :=
  match a, b with
  | Num x, Num y => Qeq_bool x y
  | NaN, NaN => true
  | _, _ => false
  end.

(** [selection.data(values, key)] on a selection without nodes, as
    [d3.svg.axis] joins its tick values by their position on the scale: a
    value whose key repeats that of an earlier value gets no node. *)
Fixpoint join_enter (key : number -> number) (seen values : list number)
    : list number :=
  match values with
  | [] => []
  | v :: rest =>
      if existsb (same_key (key v)) seen then join_enter key seen rest
      else v :: join_enter key (key v :: seen) rest
  end.

Definition pow10 (k : Z) : Q := Qpower 10 k.

Fixpoint search_up (fuel : nat) (k : Z) (x : Q) : Z :=
  match fuel with
  | O => k
  | S fuel' => if Qle_bool x (pow10 k) then k else search_up fuel' (k + 1) x
  end.

Fixpoint search_down (fuel : nat) (k : Z) (x : Q) : Z :=
  match fuel with
  | O => k
  | S fuel' => if Qle_bool (pow10 k) x then k else search_down fuel' (k - 1) x
  end.

Definition log2_span (x : Q) : Z :=
  Z.log2 (Z.abs (Qnum x)) + Z.log2 (Zpos (Qden x)) + 3.

(** [Math.ceil(Math.log(x) / Math.LN10)] for a positive [x]: the least [k]
    with [x <= 10^k]. *)
Definition ceil_log10 (x : Q) : Z :=
  search_up (Z.to_nat (log2_span x)) (- (Z.log2 (Zpos (Qden x)) + 1)) x.

(** [Math.floor(Math.log(x) / Math.LN10)] for a positive [x]: the greatest
    [k] with [10^k <= x]. *)
Definition floor_log10 (x : Q) : Z :=
  search_down (Z.to_nat (log2_span x)) (Z.log2 (Z.abs (Qnum x)) + 1) x.

(** [d3_format_precision(x, p)]. *)
Definition format_precision (x : Q) (p : Z) : Z :=
  p - (if Qeq_bool x 0 then 1 else ceil_log10 x).

(** [d3.round(x, n)]. *)
Definition round (x : Q) (n : Z) : Q :=
  if n =? 0 then inject_Z (JS.Qround_half_up x)
  else inject_Z (JS.Qround_half_up (x * pow10 n)) / pow10 n.

Definition formatPrefixes : list string :=
  ["y"; "z"; "a"; "f"; "p"; "n"; "µ"; "m"; "";
   "k"; "M"; "G"; "T"; "P"; "E"; "Z"; "Y"].

(** The exponent [i] that [d3.formatPrefix(value, precision)] settles on
    (the library adds 1e-12 to the logarithm against floating-point error,
    which exact arithmetic does not need). *)
Definition formatPrefix_exponent (value : Q) (precision : Z) : Z :=
  if Qeq_bool value 0 then 0
  else
    let value := Qabs value in
    let value :=
      if precision =? 0 then value
      else round value (format_precision value precision) in
    let i := 1 + floor_log10 value in
    Z.max (-24) (Z.min 24 ((i - 1) / 3 * 3)).

(** The format type ["r"]: round to [p] significant digits, print fixed. *)
Definition type_r (x : Q) (p : Z) : string :=
  let x := round x (format_precision x p) in
  let f := Z.max 0 (Z.min 20 (format_precision (x * (1 + pow10 (-15))) p)) in
  JS.toFixed (Z.to_nat f) (Num x).

(** [d3.format("." + p + "s")]: an SI prefix and [p] significant digits. *)
Definition format_s (p : Z) (value : number) : string :=
  match value with
  | NaN => "NaN"
  | Num v =>
      let negative := if JS.Qltb v 0 then "-" else "" in
      let v := (if JS.Qltb v 0 then - v else v)%Q in
      let i := formatPrefix_exponent v p in
      let symbol := default "" (formatPrefixes !! Z.to_nat (8 + i / 3)) in
      negative +:+ type_r (v * pow10 (- i)) p +:+ symbol
  end.

Fixpoint group3_rev (l : list ascii) (k : nat) : list ascii :=
  match l with
  | [] => []
  | c :: r =>
      match k with
      | 3%nat => ","%char :: c :: group3_rev r 1
      | _ => c :: group3_rev r (S k)
      end
  end.

(** [formatGroup]: a comma before every third digit from the right. *)
Definition formatGroup (s : string) : string :=
  string_of_list_ascii
    (rev (group3_rev (rev (list_ascii_of_string s)) 0)).

(** [d3.format(",")] on an integral number (the visual applies it to
    [Math.round]'s result). *)
Definition format_comma (value : number) : string :=
  match value with
  | NaN => "NaN"
  | Num v =>
      (if JS.Qltb v 0 then "-" else "") +:+
      formatGroup (JS.digits (Qfloor (Qabs v)))
  end.

End D3.


(** ** Data model *)

(** [IDualKpiDataPoint]. *)
Record IDualKpiDataPoint : Type := mkPoint {
  date : Date;
  value : number
}.

(** [DualKpiSize]. *)
Inductive DualKpiSize : Type :=
| extrasmall
| small
| medium
| large.

(** A metadata column of the host's data view: its [roles] dictionary (which
    may be missing), display name and format string (which may be missing). *)
Record DataViewMetadataColumn : Type := mkColumn {
  roles : option (gmap string bool);
  displayName : string;
  format : option string
}.

(** The persisted formatting properties, by option group.  A field is [None]
    when the property is [undefined]; a nullable property adds an inner
    option for [null]. *)
Record DualKpiPropertiesObject : Type := mkPropertiesObject {
  titleText : option string;
  abbreviateValues : option bool;
  topChartToolTipText : option string;
  bottomChartToolTipText : option string;
  warningTooltipText : option string;
  showStaleDataWarning : option bool;
  staleDataTooltipText : option string;
  staleDataThreshold : option number;
  topPercentCalcDate : option (option string);
  bottomPercentCalcDate : option (option string)
}.

Record DualKpiColorsObject : Type := mkColorsObject {
  dataColor : option string;
  textColor : option string;
  opacity : option number
}.

Record DualKpiAxisObject : Type := mkAxisObject {
  topChartAxisMin : option (option number);
  topChartAxisMax : option (option number);
  bottomChartAxisMin : option (option number);
  bottomChartAxisMax : option (option number);
  topChartZeroLine : option bool;
  bottomChartZeroLine : option bool
}.

Record DualKpiChartObject : Type := mkChartObject {
  topChartType : option string;
  bottomChartType : option string
}.

Record DataViewObjects : Type := mkObjects {
  dualKpiProperties : option DualKpiPropertiesObject;
  dualKpiColors : option DualKpiColorsObject;
  dualKpiAxis : option DualKpiAxisObject;
  dualKpiChart : option DualKpiChartObject
}.

Record DataViewMetadata : Type := mkMetadata {
  columns : option (list DataViewMetadataColumn);
  objects : option DataViewObjects
}.

Record DataViewTable : Type := mkTable {
  rows : list (list number)
}.

Record DataView : Type := mkDataView {
  metadata : option DataViewMetadata;
  table : option DataViewTable
}.

Record IViewport : Type := mkViewport {
  width : number;
  height : number
}.

Record VisualUpdateOptions : Type := mkUpdateOptions {
  viewport : IViewport;
  dataViews : list DataView
}.

(** [IDualKpiData], the converter's snapshot.  The tooltip text of the
    warning icon is the field [errorTooltipText] in [visual.ts] and
    [warningTooltipText] in the later revision; it is one field here. *)
Record IDualKpiData : Type := mkData {
  d_topChartName : string;
  d_bottomChartName : string;
  d_topValues : list IDualKpiDataPoint;
  d_bottomValues : list IDualKpiDataPoint;
  d_topValueAsPercent : bool;
  d_bottomValueAsPercent : bool;
  d_warningState : jsval;

  d_title : string;
  d_abbreviateValues : bool;
  d_topChartToolTipText : string;
  d_bottomChartToolTipText : string;
  d_warningTooltipText : string;
  d_showStaleDataWarning : bool;
  d_staleDataTooltipText : string;
  d_staleDataThreshold : number;
  d_topPercentCalcDate : Date;
  d_bottomPercentCalcDate : Date;

  d_dataColor : string;
  d_textColor : string;
  d_opacity : number;

  d_topChartAxisMin : option number;
  d_topChartAxisMax : option number;
  d_bottomChartAxisMin : option number;
  d_bottomChartAxisMax : option number;
  d_topChartZeroLine : bool;
  d_bottomChartZeroLine : bool;

  d_topChartType : string;
  d_bottomChartType : string
}.

(** [IAxisConfig]: [None] is [null], which asks for the observed bound. *)
Record IAxisConfig : Type := mkAxisConfig {
  min : option number;
  max : option number
}.

(** ** Formatting-pane getters *)

(** [getValue(objects, property, defaultValue)]: a property is named by its
    option group and its field. *)
Definition getValue {G T : Type} (objects : option DataViewObjects)
    (objectName : DataViewObjects -> option G) (propertyName : G -> option T)
    (defaultValue : T) : T :=
  match objects with
  | None => defaultValue
  | Some o =>
      match objectName o with
      | None => defaultValue
      | Some object =>
          match propertyName object with
          | None => defaultValue
          | Some propertyValue => propertyValue
          end
      end
  end.

(** [DualKpi.defaultValues]; the default of the warning tooltip text differs
    between the revisions and is passed by each. *)
Module defaultValues.
Definition titleText : string := "Title".
Definition abbreviateValues : bool := false.
Definition topChartToolTipText : string := "".
Definition bottomChartToolTipText : string := "".
Definition showStaleDataWarning : bool := true.
Definition staleDataTooltipText : string := "".
Definition staleDataThreshold : number := Num 2.
Definition topPercentCalcDate : option string := None.
Definition bottomPercentCalcDate : option string := None.
Definition dataColor : string := "#01b8aa".
Definition textColor : string := "#212121".
Definition opacity : number := Num 30.
Definition topChartAxisMin : option number := None.
Definition topChartAxisMax : option number := None.
Definition bottomChartAxisMin : option number := None.
Definition bottomChartAxisMax : option number := None.
Definition topChartZeroLine : bool := false.
Definition bottomChartZeroLine : bool := false.
Definition topChartType : string := "area".
Definition bottomChartType : string := "area".
End defaultValues.

(** [new Date(p)] for a percent-calculation-date property: [null] is the
    epoch, a string is parsed by the host. *)
Definition newDate_of_property (h : Host) (p : option string) : Date :=
  match p with
  | None => mkDate (Num 0)
  | Some s => parseDate h s
  end.

(** ** Helpers shared by both revisions *)

(** [getDaysBetween(date1, date2)]. *)
Definition getDaysBetween (date1 date2 : Date) : number :=
  let oneDay := Num (24 * 60 * 60 * 1000) in
  JS.round (JS.div (JS.abs (JS.sub (getTime date1) (getTime date2))) oneDay).

(** [percentFormatter(value, showPlusMinus)]. *)
Definition percentFormatter (value : number) (showPlusMinus : bool) : string :=
  let prefix := if JS.ge value (Num 0) then "+" else "" in
  let valueString := JS.toFixed 1 (JS.mul value (Num 100)) +:+ "%" in
  if showPlusMinus then prefix +:+ valueString else valueString.

(** [getPercentChange(startValue, endValue)]. *)
Definition getPercentChange (startValue endValue : number) : string :=
  if JS.strict_eq startValue (Num 0) then "n/a"
  else
    let diff := JS.fsub endValue startValue in
    let percentChange := JS.abs (JS.fdiv diff startValue) in
    let percentChange :=
      if JS.lt endValue startValue then JS.mul percentChange (Num (-1))
      else percentChange in
    percentFormatter percentChange true.

(** The loop of [getPercentChangeStartPoint] from index [i] on, [chartData]
    being the elements not yet visited: it keeps the index of the last date
    older than the configured one and stops at an equal or a more recent
    date. *)
Fixpoint closestIndex_from (chartData : list IDualKpiDataPoint)
    (percentCalcDateTime : number) (i closestIndex : nat) : nat :=
  match chartData with
  | [] => closestIndex
  | p :: rest =>
      let currTime := getTime (date p) in
      if JS.strict_eq currTime percentCalcDateTime then i
      else if JS.lt currTime percentCalcDateTime
           then closestIndex_from rest percentCalcDateTime (S i) i
           else closestIndex
  end.

(** [getPercentChangeStartPoint(chartData, percentCalcDate)]: [None] as the
    date is [null]; [None] as the result is the [undefined] read from an
    empty array. *)
Definition getPercentChangeStartPoint (chartData : list IDualKpiDataPoint)
    (percentCalcDate : option Date) : option IDualKpiDataPoint :=
  match percentCalcDate with
  | Some d =>
      let closestIndex := closestIndex_from chartData (getTime d) 0 0 in
      chartData !! closestIndex
  | None => chartData !! 0%nat
  end.

Definition symbolPatterns : list string :=
  ["$"; "€"; "£"; "¥"; "₩"; "%"].

(** The first match of the symbol pattern in [s], scanning from the left. *)
Fixpoint firstSymbol (s : string) : option string :=
  match find (fun symbol => String.prefix symbol s) symbolPatterns with
  | Some symbol => Some symbol
  | None =>
      match s with
      | EmptyString => None
      | String _ rest => firstSymbol rest
      end
  end.

(** [getFormatSymbol(format)]: a missing format is matched as the text
    ["undefined"], which holds no symbol. *)
Definition getFormatSymbol (format : option string) : option string :=
  match format with
  | Some s => firstSymbol s
  | None => None
  end.


(** ** The converter *)

(** The column indices and names the converter's first loop collects; an
    index is [-1] until a column with the role is met. *)
Record ColumnScan : Type := mkScan {
  axisCol : Z;
  topValuesCol : Z;
  bottomValuesCol : Z;
  warningStateCol : Z;
  topPercentDateCol : Z;
  bottomPercentDateCol : Z;
  topChartName : string;
  bottomChartName : string;
  topValueFormatSymbol : option string;
  bottomValueFormatSymbol : option string
}.

Definition initialScan : ColumnScan :=
  mkScan (-1) (-1) (-1) (-1) (-1) (-1) "" "" (Some "") (Some "").

(** [col.roles[name]] in a boolean position. *)
Definition hasRole (col : DataViewMetadataColumn) (name : string) : bool :=
  match roles col with
  | Some r => bool_decide (r !! name = Some true)
  | None => false
  end.

(** The assignments of the loop's body, one per role. *)
Definition withAxis (i : Z) (s : ColumnScan) : ColumnScan :=
  mkScan i (topValuesCol s) (bottomValuesCol s) (warningStateCol s)
    (topPercentDateCol s) (bottomPercentDateCol s) (topChartName s)
    (bottomChartName s) (topValueFormatSymbol s) (bottomValueFormatSymbol s).

Definition withTopValues (i : Z) (name : string) (symbol : option string)
    (s : ColumnScan) : ColumnScan :=
  mkScan (axisCol s) i (bottomValuesCol s) (warningStateCol s)
    (topPercentDateCol s) (bottomPercentDateCol s) name
    (bottomChartName s) symbol (bottomValueFormatSymbol s).

Definition withBottomValues (i : Z) (name : string) (symbol : option string)
    (s : ColumnScan) : ColumnScan :=
  mkScan (axisCol s) (topValuesCol s) i (warningStateCol s)
    (topPercentDateCol s) (bottomPercentDateCol s) (topChartName s)
    name (topValueFormatSymbol s) symbol.

Definition withWarningState (i : Z) (s : ColumnScan) : ColumnScan :=
  mkScan (axisCol s) (topValuesCol s) (bottomValuesCol s) i
    (topPercentDateCol s) (bottomPercentDateCol s) (topChartName s)
    (bottomChartName s) (topValueFormatSymbol s) (bottomValueFormatSymbol s).

Definition withTopPercentDate (i : Z) (s : ColumnScan) : ColumnScan :=
  mkScan (axisCol s) (topValuesCol s) (bottomValuesCol s) (warningStateCol s)
    i (bottomPercentDateCol s) (topChartName s)
    (bottomChartName s) (topValueFormatSymbol s) (bottomValueFormatSymbol s).

Definition withBottomPercentDate (i : Z) (s : ColumnScan) : ColumnScan :=
  mkScan (axisCol s) (topValuesCol s) (bottomValuesCol s) (warningStateCol s)
    (topPercentDateCol s) i (topChartName s)
    (bottomChartName s) (topValueFormatSymbol s) (bottomValueFormatSymbol s).

(** One pass of the loop over [metadataColumns], at index [i]: the tests are
    independent because a column can carry several roles. *)
Definition scanColumn (s : ColumnScan) (i : Z) (col : DataViewMetadataColumn)
    : ColumnScan :=
  let s := if hasRole col "axis" then withAxis i s else s in
  let s :=
    if hasRole col "topvalues"
    then withTopValues i (displayName col) (getFormatSymbol (format col)) s
    else s in
  let s :=
    if hasRole col "bottomvalues"
    then withBottomValues i (displayName col) (getFormatSymbol (format col)) s
    else s in
  let s := if hasRole col "warningstate" then withWarningState i s else s in
  let s :=
    if hasRole col "toppercentdate" then withTopPercentDate i s else s in
  if hasRole col "bottompercentdate" then withBottomPercentDate i s else s.

Fixpoint scanColumns (metadataColumns : list DataViewMetadataColumn) (i : Z)
    (s : ColumnScan) : ColumnScan :=
  match metadataColumns with
  | [] => s
  | col :: rest => scanColumns rest (i + 1) (scanColumn s i col)
  end.

(** [row[col]]. *)
Definition cell (row : list number) (col : Z) : jsval :=
  match js_index row col with
  | Some n => JNumber n
  | None => JUndefined
  end.

(** [dataView.table ? dataView.table.rows : []]. *)
Definition tableRows (dataView : DataView) : list (list number) :=
  match table dataView with
  | Some t => rows t
  | None => []
  end.

(** The loop over the rows, from row [i] on: one point per row and per
    series, both built on the row's one [date].  A value is stored as the
    number it is read as ([undefined], which only an index past the row's end
    yields, reads as [NaN] in every later use). *)
Fixpoint convertRows (h : Host) (c : ColumnScan)
    (topValueAsPercent bottomValueAsPercent : bool) (i : nat)
    (rows : list (list number))
    : list IDualKpiDataPoint * list IDualKpiDataPoint :=
  match rows with
  | [] => ([], [])
  | row :: rest =>
      let date :=
        if axisCol c >? -1 then newDate (cell row (axisCol c))
        else nowAtRow h i in
      let topValue :=
        if topValuesCol c >? -1 then cell row (topValuesCol c)
        else JNumber (Num 0) in
      let bottomValue :=
        if bottomValuesCol c >? -1 then cell row (bottomValuesCol c)
        else JNumber (Num 0) in
      let topValue :=
        if topValueAsPercent then JS.mul (ToNumber topValue) (Num 100)
        else ToNumber topValue in
      let bottomValue :=
        if bottomValueAsPercent then JS.mul (ToNumber bottomValue) (Num 100)
        else ToNumber bottomValue in
      let '(topValues, bottomValues) :=
        convertRows h c topValueAsPercent bottomValueAsPercent (S i) rest in
      (mkPoint date topValue :: topValues,
       mkPoint date bottomValue :: bottomValues)
  end.

(** The percent-calculation date: the first row's cell when the role is
    bound and a first row exists, the formatting pane's value otherwise. *)
Definition percentCalcDate (h : Host) (col : Z) (rows : list (list number))
    (property : option string) : Date :=
  match rows !! 0%nat with
  | Some row0 =>
      if col >? -1 then newDate (cell row0 col)
      else newDate_of_property h property
  | None => newDate_of_property h property
  end.

(** The text of [converter] that both revisions share.  They differ in two
    places, which are the parameters: the test that guards the read of the
    warning state ([warningStateBound], applied to [warningStateCol]) and the
    default text of the warning tooltip. *)
Definition convert (warningStateBound : Z -> bool)
    (defaultWarningTooltipText : string) (h : Host) (dataView : DataView)
    : result IDualKpiData :=
  (* the getters answer [undefined] without metadata, and
     [getDataColor(dataView).solid] then throws *)
  let* md := defined (metadata dataView) in
  let o := objects md in
  let* metadataColumns := defined (columns md) in
  let c := scanColumns metadataColumns 0 initialScan in
  let rows := tableRows dataView in
  let topValueAsPercent :=
    bool_decide (topValueFormatSymbol c = Some "%") in
  let bottomValueAsPercent :=
    bool_decide (bottomValueFormatSymbol c = Some "%") in
  let '(topValues, bottomValues) :=
    convertRows h c topValueAsPercent bottomValueAsPercent 0 rows in
  let* warningState :=
    if warningStateBound (warningStateCol c)
    then
      let* lastRow := defined (js_index rows (Z.of_nat (length rows) - 1)) in
      Ok (cell lastRow (warningStateCol c))
    else Ok (JNumber (Num 0)) in
  Ok {|
    d_topChartName := topChartName c;
    d_bottomChartName := bottomChartName c;
    d_topValues := topValues;
    d_bottomValues := bottomValues;
    d_topValueAsPercent := topValueAsPercent;
    d_bottomValueAsPercent := bottomValueAsPercent;
    d_warningState := warningState;
    d_title :=
      getValue o dualKpiProperties titleText defaultValues.titleText;
    d_abbreviateValues :=
      getValue o dualKpiProperties abbreviateValues
        defaultValues.abbreviateValues;
    d_topChartToolTipText :=
      getValue o dualKpiProperties topChartToolTipText
        defaultValues.topChartToolTipText;
    d_bottomChartToolTipText :=
      getValue o dualKpiProperties bottomChartToolTipText
        defaultValues.bottomChartToolTipText;
    d_warningTooltipText :=
      getValue o dualKpiProperties warningTooltipText
        defaultWarningTooltipText;
    d_showStaleDataWarning :=
      getValue o dualKpiProperties showStaleDataWarning
        defaultValues.showStaleDataWarning;
    d_staleDataTooltipText :=
      getValue o dualKpiProperties staleDataTooltipText
        defaultValues.staleDataTooltipText;
    d_staleDataThreshold :=
      getValue o dualKpiProperties staleDataThreshold
        defaultValues.staleDataThreshold;
    d_topPercentCalcDate :=
      percentCalcDate h (topPercentDateCol c) rows
        (getValue o dualKpiProperties topPercentCalcDate
           defaultValues.topPercentCalcDate);
    d_bottomPercentCalcDate :=
      percentCalcDate h (bottomPercentDateCol c) rows
        (getValue o dualKpiProperties bottomPercentCalcDate
           defaultValues.bottomPercentCalcDate);
    d_dataColor := getValue o dualKpiColors dataColor defaultValues.dataColor;
    d_textColor := getValue o dualKpiColors textColor defaultValues.textColor;
    d_opacity := getValue o dualKpiColors opacity defaultValues.opacity;
    d_topChartAxisMin :=
      getValue o dualKpiAxis topChartAxisMin defaultValues.topChartAxisMin;
    d_topChartAxisMax :=
      getValue o dualKpiAxis topChartAxisMax defaultValues.topChartAxisMax;
    d_bottomChartAxisMin :=
      getValue o dualKpiAxis bottomChartAxisMin
        defaultValues.bottomChartAxisMin;
    d_bottomChartAxisMax :=
      getValue o dualKpiAxis bottomChartAxisMax
        defaultValues.bottomChartAxisMax;
    d_topChartZeroLine :=
      getValue o dualKpiAxis topChartZeroLine defaultValues.topChartZeroLine;
    d_bottomChartZeroLine :=
      getValue o dualKpiAxis bottomChartZeroLine
        defaultValues.bottomChartZeroLine;
    d_topChartType :=
      getValue o dualKpiChart topChartType defaultValues.topChartType;
    d_bottomChartType :=
      getValue o dualKpiChart bottomChartType defaultValues.bottomChartType
  |}.


(** ** Layout *)

(** What [update] derives from the viewport before it draws. *)
Record Layout : Type := mkLayout {
  availableHeight : number;
  availableWidth : number;
  chartWidth : number;
  size : DualKpiSize;
  sizeCssClass : string;
  iconOffset : number;
  chartSpaceBetween : number;
  chartTitleSpace : number;
  chartHeight : number
}.

(** The layout block of [update] (the same text in both revisions). *)
Definition layout (viewport : IViewport) : Layout :=
  let availableHeight :=
    if JS.lt (height viewport) (Num 90) then Num 90 else height viewport in
  let availableWidth :=
    if JS.lt (width viewport) (Num 220) then Num 220 else width viewport in
  let chartWidth := availableWidth in
  let '(size, sizeCssClass, iconOffset, chartSpaceBetween, chartTitleSpace) :=
    if JS.ge availableHeight (Num 450)
    then (large, "large", Num (-1), Num 25, Num 46)
    else if JS.ge availableHeight (Num 280)
    then (medium, "medium", Num (-8), Num 20, Num 30)
    else if JS.ge availableHeight (Num 120)
    then (small, "small", Num (-6), Num 15, Num 22)
    else (extrasmall, "extra-small", Num (-8), Num 6, Num 18) in
  let chartHeight :=
    JS.div (JS.sub availableHeight (JS.add chartSpaceBetween chartTitleSpace))
      (Num 2) in
  mkLayout availableHeight availableWidth chartWidth size sizeCssClass
    iconOffset chartSpaceBetween chartTitleSpace chartHeight.

(** ** Drawing one panel *)

(** The formatters the constructor creates. *)
Definition axisNumberFormatter : number -> string := D3.format_s 2.
Definition valueFormatter : number -> string := D3.format_s 3.
Definition commaNumberFormatter : number -> string := D3.format_comma.

(** The logical content of a drawn panel: the group's offset, the drawable
    area, the Y axis as configured ([tickValues], the array handed to
    [d3.svg.axis], and the label [tickFormat] gives each of its values), the
    ticks the axis draws into its fresh group ([axisTicks]: value and
    label), the series path's paint, whether the zero line is drawn, and the
    overlay texts. *)
Record ChartView : Type := mkChartView {
  groupLeft : number;
  groupTop : number;
  calcWidth : number;
  calcHeight : number;
  axisMinValue : number;
  axisMaxValue : number;
  tickValues : list number;
  tickLabels : list string;
  axisTicks : list (number * string);
  fill : string;
  stroke : string;
  strokeWidth : number;
  pathOpacity : number;
  zeroLine : bool;
  dataTitle : string;
  dataValue : string;
  overlayTooltipText : string
}.

(** [tickFormat]'s function. *)
Definition tickFormat (valueAsPercent : bool) (d : number) : string :=
  let axisTickLabel := axisNumberFormatter d in
  if valueAsPercent then axisTickLabel +:+ "%" else axisTickLabel.

(** The text of [drawChart] (with [addOverlayText], which the later revision
    splits off) that both revisions share.  [observed] is what each revision
    makes of [d3.min] and [d3.max]: [visual.ts] takes them as they are, the
    later revision writes [d3.min(...) || 0].  [size] and [data] are the
    instance's fields the method reads. *)
Definition drawChartWith (observed : number -> number) (h : Host)
    (size : DualKpiSize) (data : IDualKpiData)
    (top width height : number) (chartData : list IDualKpiDataPoint)
    (chartTitle : string) (valueAsPercent : bool) (tooltipText : string)
    (axisConfig : IAxisConfig)
    (percentChangeStartPoint : option IDualKpiDataPoint)
    (abbreviateValue : bool) (chartType : string) (showZeroLine : bool)
    : result ChartView :=
  let* lastPoint :=
    defined (js_index chartData (Z.of_nat (length chartData) - 1)) in
  let latestValue := value lastPoint in
  let chartLeftMargin := Num 30 in
  let marginTop := Num 5 in
  let marginLeft :=
    match size with
    | medium | large => Num 40
    | _ => chartLeftMargin
    end in
  let calcWidth := JS.sub (JS.sub width (Num 0)) marginLeft in
  let calcHeight := JS.sub (JS.sub height marginTop) (Num 0) in
  let minValue := observed (D3.min (map value chartData)) in
  let maxValue := observed (D3.max (map value chartData)) in
  let axisMinValue :=
    match min axisConfig with
    | Some m => m
    | None => minValue
    end in
  let axisMaxValue :=
    match max axisConfig with
    | Some m => m
    | None => maxValue
    end in
  let tickValues := [axisMinValue; axisMaxValue] in
  let '(fill, stroke, strokeWidth) :=
    if bool_decide (chartType = "area")
    then (d_dataColor data, "none", Num 0)
    else ("none", d_dataColor data, Num 2) in
  (* the overlay text *)
  let* startPoint := defined percentChangeStartPoint in
  let percentChange := getPercentChange (value startPoint) (value lastPoint) in
  let formattedValue :=
    if abbreviateValue then valueFormatter latestValue
    else commaNumberFormatter (JS.round latestValue) in
  let '(formattedValue, percentChange) :=
    if valueAsPercent
    then (percentFormatter (JS.fdiv latestValue (Num 100)) false,
          (* only the difference, not a percent of a percent *)
          percentFormatter
            (JS.fdiv (JS.fsub (value lastPoint) (value startPoint)) (Num 100))
            true)
    else (formattedValue, percentChange) in
  let percentChangeDesc :=
    percentChange +:+ " change since " +:+ timeFormatter h (date startPoint) in
  Ok {|
    groupLeft := marginLeft;
    groupTop := JS.add top marginTop;
    calcWidth := calcWidth;
    calcHeight := calcHeight;
    axisMinValue := axisMinValue;
    axisMaxValue := axisMaxValue;
    tickValues := tickValues;
    tickLabels := map (tickFormat valueAsPercent) tickValues;
    axisTicks :=
      map (fun d => (d, tickFormat valueAsPercent d))
        (D3.join_enter
           (D3.scale_linear axisMinValue axisMaxValue calcHeight (Num 0))
           [] tickValues);
    fill := fill;
    stroke := stroke;
    strokeWidth := strokeWidth;
    pathOpacity := JS.fdiv (d_opacity data) (Num 100);
    zeroLine := showZeroLine;
    dataTitle := chartTitle +:+ " (" +:+ percentChange +:+ ")";
    dataValue := formattedValue;
    overlayTooltipText := tooltipText +:+ " " +:+ percentChangeDesc
  |}.

(** ** The footer *)

Record BottomView : Type := mkBottomView {
  title : string;
  iconWidth : number;
  iconScaleTransform : string;
  iconY : number;
  (** the warning icon's tooltip, when the icon is drawn *)
  warningIcon : option string;
  (** the info icon's message, when the icon is drawn *)
  infoIcon : option string;
  (** the "last N days" label and its offset from the left, when drawn *)
  dayRange : option (string * number)
}.

(** The head of [drawBottomContainer], the same in both revisions: the icon
    metrics and the warning icon. *)
Definition iconMetrics (size : DualKpiSize) (chartTitleSpace iconOffset : number)
    : number * string * number :=
  let iconY :=
    JS.add (JS.add (JS.mul chartTitleSpace (Num (-1)))
              (JS.div chartTitleSpace (Num 2))) iconOffset in
  match size with
  | small | extrasmall => (Num 16, "scale(0.75)", iconY)
  | _ => (Num 22, "", iconY)
  end.

Definition warningIconOf (data : IDualKpiData) : option string :=
  if JS.lt (ToNumber (d_warningState data)) (Num 0)
  then Some (d_warningTooltipText data)
  else None.

(** The info icon and the day-range label, given the first and last points
    of the top series. *)
Definition staleAndRange (h : Host) (data : IDualKpiData)
    (chartWidth iconWidth : number) (first last : IDualKpiDataPoint)
    : option string * (string * number) :=
  let dataDaysOld := getDaysBetween (date last) (today h) in
  let infoIconShowing :=
    JS.ge dataDaysOld (d_staleDataThreshold data)
    && d_showStaleDataWarning data in
  let infoMessage :=
    "Data is " +:+ JS.toString dataDaysOld +:+ " days old. "
    +:+ d_staleDataTooltipText data in
  let dayRange := getDaysBetween (date first) (date last) in
  let dayRangeLeft := JS.sub chartWidth (Num 8) in
  let dayRangeLeft :=
    if infoIconShowing then JS.sub dayRangeLeft iconWidth else dayRangeLeft in
  (if infoIconShowing then Some infoMessage else None,
   ("last " +:+ JS.toString dayRange +:+ " days", dayRangeLeft)).


(** ** The revision of [src/src/visual.ts] *)

Inductive Rendering : Type :=
| Cleared
| Rendered (l : Layout) (topChart bottomChart : option ChartView)
    (bottomContainer : BottomView).

Module Visual.

(** [converter]: the warning state is read under [if (warningStateCol)]. *)
Definition converter : Host -> DataView -> result IDualKpiData :=
  convert (fun warningStateCol => negb (warningStateCol =? 0)) "Error".

(** [drawChart]. *)
Definition drawChart := drawChartWith (fun observed => observed).

(** [drawBottomContainer]: the last and first points of the top series are
    read without a test. *)
Definition drawBottomContainer (h : Host) (size : DualKpiSize)
    (data : IDualKpiData)
    (chartWidth chartHeight chartTitleSpace chartSpaceBetween
       iconOffset : number) : result BottomView :=
  let '(iconWidth, iconScaleTransform, iconY) :=
    iconMetrics size chartTitleSpace iconOffset in
  let topValues := d_topValues data in
  let* last :=
    defined (js_index topValues (Z.of_nat (length topValues) - 1)) in
  let* first := defined (js_index topValues 0) in
  let '(info, range) :=
    staleAndRange h data chartWidth iconWidth first last in
  Ok (mkBottomView (d_title data) iconWidth iconScaleTransform iconY
        (warningIconOf data) info (Some range)).

(** [update]. *)
Definition update (h : Host) (options : VisualUpdateOptions)
    : result Rendering :=
  match dataViews options !! 0%nat with
  | None => Ok Cleared
  | Some dataView =>
      match metadata dataView with
      | None => Ok Cleared
      | Some md =>
          match columns md with
          | None => Ok Cleared
          | Some _ =>
              let* data := converter h dataView in
              let l := layout (viewport options) in
              let topChartAxisConfig :=
                mkAxisConfig (d_topChartAxisMin data)
                  (d_topChartAxisMax data) in
              let bottomChartAxisConfig :=
                mkAxisConfig (d_bottomChartAxisMin data)
                  (d_bottomChartAxisMax data) in
              let topChartPercentChangeStartPoint :=
                getPercentChangeStartPoint (d_topValues data)
                  (Some (d_topPercentCalcDate data)) in
              let bottomChartPercentChangeStartPoint :=
                getPercentChangeStartPoint (d_bottomValues data)
                  (Some (d_bottomPercentCalcDate data)) in
              let* topChart :=
                drawChart h (size l) data (Num 0) (chartWidth l)
                  (chartHeight l) (d_topValues data) (d_topChartName data)
                  (d_topValueAsPercent data) (d_topChartToolTipText data)
                  topChartAxisConfig topChartPercentChangeStartPoint
                  (d_abbreviateValues data) (d_topChartType data)
                  (d_topChartZeroLine data) in
              let* bottomChart :=
                drawChart h (size l) data
                  (JS.add (chartHeight l) (chartSpaceBetween l))
                  (chartWidth l) (chartHeight l) (d_bottomValues data)
                  (d_bottomChartName data) (d_bottomValueAsPercent data)
                  (d_bottomChartToolTipText data) bottomChartAxisConfig
                  bottomChartPercentChangeStartPoint
                  (d_abbreviateValues data) (d_bottomChartType data)
                  (d_bottomChartZeroLine data) in
              let* bottomContainer :=
                drawBottomContainer h (size l) data (chartWidth l)
                  (chartHeight l) (chartTitleSpace l) (chartSpaceBetween l)
                  (iconOffset l) in
              Ok (Rendered l (Some topChart) (Some bottomChart)
                    bottomContainer)
          end
      end
  end.

End Visual.

(** ** The later revision, [src/unnamed/part_000]

    The methods of this revision select the nodes the constructor created
    and write to them.  Each is embedded as what one call computes and
    writes on the node tree the constructor has just created, that is, for
    the first update of an instance.  A later update does not hide a warning
    icon once it is shown, appends a further info icon and day-range label,
    does not find the axis and overlay nodes again (the first draw renames
    their classes) and finds no node at all after [clear]: these effects on
    the persistent tree are not embedded. *)

Module Revised.

(** [converter]: the warning state is read under
    [if (warningStateCol > -1)]. *)
Definition converter : Host -> DataView -> result IDualKpiData :=
  convert (fun warningStateCol => warningStateCol >? -1) "Warning message".

(** [drawChart] with [addOverlayText], on the nodes of a fresh chart group:
    [d3.min(...) || 0]. *)
Definition drawChart :=
  drawChartWith (fun observed => if JS.truthy observed then observed else Num 0).

(** [drawBottomContainer], on the nodes of a fresh footer: the info icon and
    the day range are drawn only for a top series that is not empty. *)
Definition drawBottomContainer (h : Host) (size : DualKpiSize)
    (data : IDualKpiData)
    (chartWidth chartHeight chartTitleSpace chartSpaceBetween
       iconOffset : number) : result BottomView :=
  let '(iconWidth, iconScaleTransform, iconY) :=
    iconMetrics size chartTitleSpace iconOffset in
  let topValues := d_topValues data in
  if (0 <? length topValues)%nat
  then
    let* last :=
      defined (js_index topValues (Z.of_nat (length topValues) - 1)) in
    let* first := defined (js_index topValues 0) in
    let '(info, range) :=
      staleAndRange h data chartWidth iconWidth first last in
    Ok (mkBottomView (d_title data) iconWidth iconScaleTransform iconY
          (warningIconOf data) info (Some range))
  else
    Ok (mkBottomView (d_title data) iconWidth iconScaleTransform iconY
          (warningIconOf data) None None).

(** [update], as the first update of an instance: each panel is drawn only
    for a series that is not empty. *)
Definition update (h : Host) (options : VisualUpdateOptions)
    : result Rendering :=
  match dataViews options !! 0%nat with
  | None => Ok Cleared
  | Some dataView =>
      match metadata dataView with
      | None => Ok Cleared
      | Some md =>
          match columns md with
          | None => Ok Cleared
          | Some _ =>
              let* data := converter h dataView in
              let l := layout (viewport options) in
              let topChartAxisConfig :=
                mkAxisConfig (d_topChartAxisMin data)
                  (d_topChartAxisMax data) in
              let bottomChartAxisConfig :=
                mkAxisConfig (d_bottomChartAxisMin data)
                  (d_bottomChartAxisMax data) in
              let topChartPercentChangeStartPoint :=
                getPercentChangeStartPoint (d_topValues data)
                  (Some (d_topPercentCalcDate data)) in
              let bottomChartPercentChangeStartPoint :=
                getPercentChangeStartPoint (d_bottomValues data)
                  (Some (d_bottomPercentCalcDate data)) in
              let* topChart :=
                if (0 <? length (d_topValues data))%nat
                then
                  let* chart :=
                    drawChart h (size l) data (Num 0) (chartWidth l)
                      (chartHeight l) (d_topValues data)
                      (d_topChartName data) (d_topValueAsPercent data)
                      (d_topChartToolTipText data) topChartAxisConfig
                      topChartPercentChangeStartPoint
                      (d_abbreviateValues data) (d_topChartType data)
                      (d_topChartZeroLine data) in
                  Ok (Some chart)
                else Ok None in
              let* bottomChart :=
                if (0 <? length (d_bottomValues data))%nat
                then
                  let* chart :=
                    drawChart h (size l) data
                      (JS.add (chartHeight l) (chartSpaceBetween l))
                      (chartWidth l) (chartHeight l) (d_bottomValues data)
                      (d_bottomChartName data)
                      (d_bottomValueAsPercent data)
                      (d_bottomChartToolTipText data) bottomChartAxisConfig
                      bottomChartPercentChangeStartPoint
                      (d_abbreviateValues data) (d_bottomChartType data)
                      (d_bottomChartZeroLine data) in
                  Ok (Some chart)
                else Ok None in
              let* bottomContainer :=
                drawBottomContainer h (size l) data (chartWidth l)
                  (chartHeight l) (chartTitleSpace l) (chartSpaceBetween l)
                  (iconOffset l) in
              Ok (Rendered l topChart bottomChart bottomContainer)
          end
      end
  end.

End Revised.


(** ** Statements taken from the specification, for comparison *)

(** The percent change as the specification words it: a minus sign exactly
    when the end value is below the start value (a plus sign otherwise), then
    [|E - S| / S] scaled by 100 and printed with one decimal, then "%". *)
Definition percentChange_as_specified (S E : Q) : string :=
  (if JS.Qltb E S then "-" else "+") +:+
  JS.toFixed 1 (Num (Qabs (E - S) / S * 100)) +:+ "%".

(** The magnitude [getPercentChange] prints, before it is rounded to one
    decimal: the unsigned quotient [|(E - S) / S|] times 100 as doubles
    compute it, the difference, the quotient and the product each rounded
    to the nearest double. *)
Definition percentChange_magnitude (S E : Q) : Q :=
  JS.double (Qabs (JS.double (JS.double (E - S) / S)) * 100).

(** What is shown for the raw value [k / 1000], a whole number of tenths
    of a percent: the double nearest to it is stored times 100, and the
    stored value is divided by 100 and formatted. *)
Definition shown_tenths (k : Z) : string :=
  percentFormatter
    (JS.fdiv (JS.mul (Num (JS.double (inject_Z k / 1000))) (Num 100))
       (Num 100)) false.

(** The dates of a series are strictly ascending: each point's time value is
    below that of every later point. *)
Definition date_lt (p q : IDualKpiDataPoint) : Prop :=
  JS.lt (getTime (date p)) (getTime (date q)) = true.

Definition strictly_ascending (S : list IDualKpiDataPoint) : Prop :=
  StronglySorted date_lt S.

(** [D] is exactly the date [d]: their time values are [===]. *)
Definition same_date (d D : Date) : Prop :=
  JS.strict_eq (getTime d) (getTime D) = true.

(** ** Sample inputs *)

(** A series of three daily points. *)
Definition sampleSeries : list IDualKpiDataPoint :=
  [mkPoint (mkDate (Num 0)) (Num 10);
   mkPoint (mkDate (Num 86400000)) (Num 20);
   mkPoint (mkDate (Num 172800000)) (Num 15)].

(** A column that carries one role and is named after it. *)
Definition columnWithRole (role : string) (format : option string)
    : DataViewMetadataColumn :=
  mkColumn (Some {[ role := true ]}) role format.

(** A data view with the given columns and rows and no persisted
    formatting. *)
Definition dataViewOf (columns : list DataViewMetadataColumn)
    (rows : list (list number)) : DataView :=
  mkDataView (Some (mkMetadata (Some columns) None)) (Some (mkTable rows)).

(** The warning state bound to the first column of a one-row table. *)
Definition warningFirstView : DataView :=
  dataViewOf
    [columnWithRole "warningstate" None; columnWithRole "axis" None;
     columnWithRole "topvalues" None]
    [[Num (-1); Num 0; Num 5]].

(** A one-row table with no warning-state column. *)
Definition noWarningView : DataView :=
  dataViewOf [columnWithRole "axis" None; columnWithRole "topvalues" None]
    [[Num 0; Num 5]].

(** A bound warning-state column and no row. *)
Definition warningNoRowsView : DataView :=
  dataViewOf [columnWithRole "axis" None; columnWithRole "warningstate" None]
    [].

(** No warning-state column and no row. *)
Definition noRowsView : DataView :=
  dataViewOf [columnWithRole "axis" None; columnWithRole "topvalues" None] [].

(** Two daily rows whose top values are fractions shown as percentages and
    whose bottom values are plain numbers. *)
Definition percentView : DataView :=
  dataViewOf
    [columnWithRole "axis" None;
     columnWithRole "topvalues" (Some "0.00 %;-0.00 %;0.00 %");
     columnWithRole "bottomvalues" (Some "#,0")]
    [[Num 0; Num (1 # 10); Num 1234];
     [Num 86400000; Num (1 # 4); Num 5678]].

Definition sampleHost : Host :=
  mkHost (fun _ => mkDate (Num 0)) (mkDate (Num 950400000))
    (fun _ => mkDate NaN) (fun _ => "").

Definition optionsOf (width height : Q) (dataView : DataView)
    : VisualUpdateOptions :=
  mkUpdateOptions (mkViewport (Num width) (Num height)) [dataView].





(** Two daily points in the thousands. *)
Definition thousandsSeries : list IDualKpiDataPoint :=
  [mkPoint (mkDate (Num 0)) (Num 1234);
   mkPoint (mkDate (Num 86400000)) (Num 5678)].

(** A snapshot with the default formatting and no series, for the fields
    [drawChart] reads off the instance. *)
Definition defaultData : IDualKpiData :=
  {| d_topChartName := ""; d_bottomChartName := "";
     d_topValues := []; d_bottomValues := [];
     d_topValueAsPercent := false; d_bottomValueAsPercent := false;
     d_warningState := JNumber (Num 0);
     d_title := defaultValues.titleText;
     d_abbreviateValues := defaultValues.abbreviateValues;
     d_topChartToolTipText := defaultValues.topChartToolTipText;
     d_bottomChartToolTipText := defaultValues.bottomChartToolTipText;
     d_warningTooltipText := "Error";
     d_showStaleDataWarning := defaultValues.showStaleDataWarning;
     d_staleDataTooltipText := defaultValues.staleDataTooltipText;
     d_staleDataThreshold := defaultValues.staleDataThreshold;
     d_topPercentCalcDate := mkDate (Num 0);
     d_bottomPercentCalcDate := mkDate (Num 0);
     d_dataColor := defaultValues.dataColor;
     d_textColor := defaultValues.textColor;
     d_opacity := defaultValues.opacity;
     d_topChartAxisMin := None; d_topChartAxisMax := None;
     d_bottomChartAxisMin := None; d_bottomChartAxisMax := None;
     d_topChartZeroLine := false; d_bottomChartZeroLine := false;
     d_topChartType := "area"; d_bottomChartType := "area" |}.

(** [visual.ts]'s [drawChart] on [thousandsSeries], as [update] calls it for
    the top panel of a 300 by 500 viewport with the axis bounds left to the
    data. *)
Definition thousandsChart : result ChartView :=
  Visual.drawChart sampleHost large defaultData (Num 0) (Num 300)
    (Num (429 # 2)) thousandsSeries "Sales" false ""
    (mkAxisConfig None None) (thousandsSeries !! 0%nat) false "area" false.

(** ** Further definitions used by the properties below *)

(** No symbol starts at any position of [s]. *)
Definition symbol_free (s : string) : Prop :=
  forall a b symbol,
    s = a +:+ b -> symbol ∈ symbolPatterns -> String.prefix symbol b = false.

(** The type of [drawChart], in either revision. *)
Definition DrawChart : Type :=
  Host -> DualKpiSize -> IDualKpiData -> number -> number -> number ->
  list IDualKpiDataPoint -> string -> bool -> string -> IAxisConfig ->
  option IDualKpiDataPoint -> bool -> string -> bool -> result ChartView.

(** The call by which [update] draws the top panel. *)
Definition drawTop (drawChart : DrawChart) (h : Host) (l : Layout)
    (data : IDualKpiData) : result ChartView :=
  drawChart h (size l) data (Num 0) (chartWidth l) (chartHeight l)
    (d_topValues data) (d_topChartName data) (d_topValueAsPercent data)
    (d_topChartToolTipText data)
    (mkAxisConfig (d_topChartAxisMin data) (d_topChartAxisMax data))
    (getPercentChangeStartPoint (d_topValues data)
       (Some (d_topPercentCalcDate data)))
    (d_abbreviateValues data) (d_topChartType data) (d_topChartZeroLine data).

(** The call by which [update] draws the bottom panel. *)
Definition drawBottom (drawChart : DrawChart) (h : Host) (l : Layout)
    (data : IDualKpiData) : result ChartView :=
  drawChart h (size l) data (JS.add (chartHeight l) (chartSpaceBetween l))
    (chartWidth l) (chartHeight l) (d_bottomValues data)
    (d_bottomChartName data) (d_bottomValueAsPercent data)
    (d_bottomChartToolTipText data)
    (mkAxisConfig (d_bottomChartAxisMin data) (d_bottomChartAxisMax data))
    (getPercentChangeStartPoint (d_bottomValues data)
       (Some (d_bottomPercentCalcDate data)))
    (d_abbreviateValues data) (d_bottomChartType data)
    (d_bottomChartZeroLine data).

(** The call by which [update] draws the footer. *)
Definition drawFooter
    (drawBottomContainer :
       Host -> DualKpiSize -> IDualKpiData -> number -> number -> number ->
       number -> number -> result BottomView)
    (h : Host) (l : Layout) (data : IDualKpiData) : result BottomView :=
  drawBottomContainer h (size l) data (chartWidth l) (chartHeight l)
    (chartTitleSpace l) (chartSpaceBetween l) (iconOffset l).

(** Two numbers are the same value: equal rationals, or both [NaN]. *)
Definition same_number (a b : number) : Prop :=
  match a, b with
  | Num x, Num y => (x == y)%Q
  | NaN, NaN => True
  | _, _ => False
  end.

(** *** [updateViewport] of the later revision

    The instance keeps the viewport of the last call ([this.viewport],
    missing before the first call); the svg root keeps the [width] and
    [height] attributes last written to it.  [a !== b] is
    [negb (JS.strict_eq a b)]. *)
Record ViewportState : Type := mkViewportState {
  storedViewport : option IViewport;
  svgAttributes : option (number * number)
}.

Definition initialViewportState : ViewportState := mkViewportState None None.

Definition updateViewport (st : ViewportState) (viewport : IViewport)
    : ViewportState :=
  let write :=
    match storedViewport st with
    | None => true
    | Some stored =>
        negb (JS.strict_eq (width stored) (width viewport))
        || negb (JS.strict_eq (height stored) (height viewport))
    end in
  mkViewportState (Some viewport)
    (if write then Some (width viewport, height viewport)
     else svgAttributes st).

(** *** Sample inputs *)

(** One row under a date column and two columns bound to the top series,
    the later one formatted as a percentage. *)
Definition twoTopColumnsView : DataView :=
  dataViewOf
    [columnWithRole "axis" None;
     mkColumn (Some {[ "topvalues" := true ]}) "Plan" None;
     mkColumn (Some {[ "topvalues" := true ]}) "Actual" (Some "0 %")]
    [[Num 0; Num 7; Num (1 # 2)]].

(** Two rows under a single column, bound to the bottom series. *)
Definition bottomOnlyView : DataView :=
  dataViewOf [columnWithRole "bottomvalues" None] [[Num 3]; [Num 4]].

(** One row whose last column holds a negative warning state. *)
Definition warningLastView : DataView :=
  dataViewOf
    [columnWithRole "axis" None; columnWithRole "topvalues" None;
     columnWithRole "warningstate" None]
    [[Num 0; Num 5; Num (-1)]].

(** The snapshot [visual.ts] takes of [percentView]. *)
Definition percentSnapshot : IDualKpiData :=
  match Visual.converter sampleHost percentView with
  | Ok data => data
  | TypeError => defaultData
  end.

(** A series of one point whose value is not a number, as read from a row
    that is shorter than the bound column's index. *)
Definition valuelessSeries : list IDualKpiDataPoint :=
  [mkPoint (mkDate (Num 0)) NaN].

(** What [updateViewport] maintains: once a viewport is stored, the svg
    root carries its sides. *)
Definition viewport_in_step (st : ViewportState) : Prop :=
  match storedViewport st with
  | None => svgAttributes st = None
  | Some v =>
      exists w h,
        svgAttributes st = Some (w, h) /\
        same_number w (width v) /\ same_number h (height v)
  end.


(** * Properties *)

(** ** Numbers and fixed-point printing *)

Section NumberFacts.

Local Open Scope Q_scope.

Lemma Qltb_lt (x y : Q) : JS.Qltb x y = true <-> x < y.
Proof.
  unfold JS.Qltb. rewrite negb_true_iff.
  destruct (Qle_bool y x) eqn:Hle; split; intros H; try discriminate.
  - apply Qle_bool_iff in Hle. exfalso. exact (Qlt_not_le _ _ H Hle).
  - apply Qnot_le_lt. intros Hyx. apply Qle_bool_iff in Hyx. congruence.
  - reflexivity.
Qed.

Lemma Qltb_ge (x y : Q) : JS.Qltb x y = false <-> y <= x.
Proof.
  unfold JS.Qltb. rewrite negb_false_iff. apply Qle_bool_iff.
Qed.

Lemma Qeq_bool_false (x y : Q) : ~ x == y -> Qeq_bool x y = false.
Proof.
  intros H. destruct (Qeq_bool x y) eqn:E; [|reflexivity].
  apply Qeq_bool_iff in E. contradiction.
Qed.

Lemma toFixed_abs_comp (f : nat) (x y : Q) :
  x == y -> JS.toFixed_abs f x = JS.toFixed_abs f y.
Proof.
  intros H. unfold JS.toFixed_abs, JS.Qround_half_up.
  assert (Hn : Qfloor (x * inject_Z (10 ^ Z.of_nat f) + (1 # 2)) =
               Qfloor (y * inject_Z (10 ^ Z.of_nat f) + (1 # 2)))
    by (apply Qfloor_comp; rewrite H; reflexivity).
  now rewrite Hn.
Qed.

Lemma Qltb_comp (x y z : Q) : x == y -> JS.Qltb x z = JS.Qltb y z.
Proof.
  intros H. destruct (JS.Qltb y z) eqn:E.
  - apply Qltb_lt. apply Qltb_lt in E. now rewrite H.
  - apply Qltb_ge. apply Qltb_ge in E. now rewrite H.
Qed.

Lemma toFixed_comp (f : nat) (x y : Q) :
  x == y -> JS.toFixed f (Num x) = JS.toFixed f (Num y).
Proof.
  intros H. unfold JS.toFixed. rewrite (Qltb_comp x y 0 H).
  destruct (JS.Qltb y 0).
  - f_equal. apply toFixed_abs_comp. now rewrite H.
  - now apply toFixed_abs_comp.
Qed.

(** With one decimal the printed text is [N.N]: the digits of the rounded
    count of tenths, a point before the last one. *)
Lemma toFixed_abs_1 (x : Q) :
  JS.toFixed_abs 1 x =
  JS.digits (JS.Qround_half_up (x * 10) / 10) +:+ "." +:+
  JS.digits (JS.Qround_half_up (x * 10) mod 10).
Proof.
  unfold JS.toFixed_abs, JS.frac_digits.
  change (10 ^ Z.of_nat 1)%Z with 10%Z.
  change (inject_Z 10) with 10.
  now rewrite Zmod_mod.
Qed.

End NumberFacts.

(** ** Doubles *)

Section Doubles.

Local Open Scope Q_scope.

Lemma pow2_pos (k : Z) : 0 < JS.pow2 k.
Proof. apply Qpower_0_lt. reflexivity. Qed.

Lemma pow2_plus (a b : Z) : JS.pow2 (a + b) == JS.pow2 a * JS.pow2 b.
Proof. apply Qpower_plus. discriminate. Qed.

Lemma pow2_succ (k : Z) : JS.pow2 (k + 1) == 2 * JS.pow2 k.
Proof. rewrite pow2_plus. change (JS.pow2 1) with 2. ring. Qed.

Lemma pow2_le (a b : Z) : (a <= b)%Z -> JS.pow2 a <= JS.pow2 b.
Proof. intros H. apply Qpower_le_compat_l; [exact H | discriminate]. Qed.

Lemma pow2_lt_inv (a b : Z) : JS.pow2 a < JS.pow2 b -> (a < b)%Z.
Proof. intros H. apply (Qpower_lt_compat_l_inv 2); [exact H | reflexivity]. Qed.

Lemma pow2_Z (k : Z) : (0 <= k)%Z -> JS.pow2 k == inject_Z (2 ^ k).
Proof. intros H. unfold JS.pow2. now rewrite Zpower_Qpower. Qed.

(** [binade a] is the exponent of the binade that holds a positive [a]. *)
Lemma binade_spec (a : Q) :
  0 < a -> JS.pow2 (JS.binade a) <= a /\ a < JS.pow2 (JS.binade a + 1).
Proof.
  intros Ha. unfold JS.binade.
  set (ln := Z.log2 (Qnum a)). set (ld := Z.log2 (Z.pos (Qden a))).
  assert (Hn : (0 < Qnum a)%Z).
  { destruct a as [n d]. unfold Qlt in Ha. cbn in *. lia. }
  destruct (Z.log2_spec (Qnum a) Hn) as [Hn1 Hn2].
  destruct (Z.log2_spec (Z.pos (Qden a)) (Pos2Z.is_pos _)) as [Hd1 Hd2].
  fold ln in Hn1, Hn2. fold ld in Hd1, Hd2.
  assert (Hln : (0 <= ln)%Z) by apply Z.log2_nonneg.
  assert (Hld : (0 <= ld)%Z) by apply Z.log2_nonneg.
  set (N := inject_Z (Qnum a)). set (D := inject_Z (Z.pos (Qden a))).
  assert (HaND : a * D == N).
  { unfold N, D. destruct a as [n d]. unfold Qeq, Qmult, inject_Z.
    cbn [Qnum Qden]. rewrite Pos.mul_1_r. lia. }
  assert (HL1 : JS.pow2 ln <= N).
  { rewrite (pow2_Z ln Hln). unfold N. rewrite <- Zle_Qle. exact Hn1. }
  assert (HL2 : N < 2 * JS.pow2 ln).
  { rewrite <- pow2_succ, (pow2_Z (ln + 1)) by lia. unfold N.
    rewrite <- Zlt_Qlt. exact Hn2. }
  assert (HM1 : JS.pow2 ld <= D).
  { rewrite (pow2_Z ld Hld). unfold D. rewrite <- Zle_Qle. exact Hd1. }
  assert (HM2 : D < 2 * JS.pow2 ld).
  { rewrite <- pow2_succ, (pow2_Z (ld + 1)) by lia. unfold D.
    rewrite <- Zlt_Qlt. exact Hd2. }
  assert (HP : JS.pow2 (ln - ld) * JS.pow2 ld == JS.pow2 ln).
  { rewrite <- pow2_plus. now replace (ln - ld + ld)%Z with ln by lia. }
  pose proof (pow2_pos (ln - ld)) as HPpos.
  pose proof (pow2_pos ld) as HMpos.
  pose proof (pow2_pos ln) as HLpos.
  assert (HDpos : 0 < D) by lra.
  clearbody N D. 
  set (P := JS.pow2 (ln - ld)) in *. set (M := JS.pow2 ld) in *.
  set (L := JS.pow2 ln) in *.
  destruct (Qle_bool P a) eqn:Htest.
  - apply Qle_bool_iff in Htest. split; [exact Htest|].
    rewrite pow2_succ. fold P.
    destruct (Qlt_le_dec a (2 * P)) as [H|H]; [exact H|exfalso].
    assert (H1 : 2 * P * D <= a * D)
      by (apply Qmult_le_compat_r; lra).
    assert (H2 : 2 * P * M <= 2 * P * D)
      by (apply Qmult_le_l; lra).
    lra.
  - assert (Hlt : a < P).
    { apply Qnot_le_lt. intros H. apply Qle_bool_iff in H. congruence. }
    replace (ln - ld - 1 + 1)%Z with (ln - ld)%Z by lia. fold P.
    split; [|exact Hlt].
    assert (E : JS.pow2 (ln - ld - 1) * 2 == P).
    { unfold P. replace (ln - ld)%Z with (ln - ld - 1 + 1)%Z at 2 by lia.
      rewrite pow2_succ. ring. }
    pose proof (pow2_pos (ln - ld - 1)) as HQpos.
    set (Q2 := JS.pow2 (ln - ld - 1)) in *.
    destruct (Qlt_le_dec a Q2) as [H|H]; [exfalso|exact H].
    assert (H1 : a * D <= Q2 * D)
      by (apply Qmult_le_compat_r; lra).
    assert (H2 : Q2 * D < Q2 * (2 * M))
      by (apply Qmult_lt_l; lra).
    assert (H3 : Q2 * (2 * M) == P * M) by (rewrite <- E; ring).
    lra.
Qed.

Lemma binade_unique (a : Q) (e : Z) :
  0 < a -> JS.pow2 e <= a -> a < JS.pow2 (e + 1) -> JS.binade a = e.
Proof.
  intros Ha H1 H2. destruct (binade_spec a Ha) as [B1 B2].
  assert (L1 : (JS.binade a < e + 1)%Z)
    by (apply pow2_lt_inv; eapply Qle_lt_trans; eassumption).
  assert (L2 : (e < JS.binade a + 1)%Z)
    by (apply pow2_lt_inv; eapply Qle_lt_trans; eassumption).
  lia.
Qed.

Lemma binade_comp (a b : Q) : a == b -> 0 < a -> JS.binade a = JS.binade b.
Proof.
  intros E Ha. apply binade_unique; [exact Ha | |];
    rewrite E; apply binade_spec; now rewrite <- E.
Qed.

Lemma Qround_half_even_comp (x y : Q) :
  x == y -> JS.Qround_half_even x = JS.Qround_half_even y.
Proof.
  intros E. unfold JS.Qround_half_even. rewrite (Qfloor_comp _ _ E).
  assert (C : (x - inject_Z (Qfloor y) ?= 1 # 2) =
              (y - inject_Z (Qfloor y) ?= 1 # 2))
    by (apply Qcompare_comp; [rewrite E|]; reflexivity).
  now rewrite C.
Qed.

Lemma Qround_half_even_Z (m : Z) : JS.Qround_half_even (inject_Z m) = m.
Proof.
  unfold JS.Qround_half_even. rewrite Qfloor_Z.
  assert (C : (inject_Z m - inject_Z m ?= 1 # 2) = Lt).
  { apply Qlt_alt. assert (E : inject_Z m - inject_Z m == 0) by ring.
    rewrite E. reflexivity. }
  now rewrite C.
Qed.

Lemma Qround_half_even_floor (x : Q) :
  (Qfloor x <= JS.Qround_half_even x <= Qfloor x + 1)%Z.
Proof.
  unfold JS.Qround_half_even.
  destruct (x - inject_Z (Qfloor x) ?= 1 # 2); [destruct (Z.even _)| |]; lia.
Qed.

Lemma Qround_half_even_ge (x : Q) (lo : Z) :
  inject_Z lo <= x -> (lo <= JS.Qround_half_even x)%Z.
Proof.
  intros H. pose proof (Qround_half_even_floor x).
  pose proof (Qfloor_resp_le _ _ H) as F. rewrite Qfloor_Z in F. lia.
Qed.

Lemma Qround_half_even_le (x : Q) (hi : Z) :
  x <= inject_Z hi -> (JS.Qround_half_even x <= hi)%Z.
Proof.
  intros H. unfold JS.Qround_half_even.
  pose proof (Qfloor_le x) as F1.
  assert (F : (Qfloor x <= hi)%Z).
  { rewrite Zle_Qle. eapply Qle_trans; eassumption. }
  assert (G : inject_Z (Qfloor x) < x -> (Qfloor x + 1 <= hi)%Z).
  { intros L. assert (L' : inject_Z (Qfloor x) < inject_Z hi) by lra.
    rewrite <- Zlt_Qlt in L'. lia. }
  destruct (x - inject_Z (Qfloor x) ?= 1 # 2) eqn:C.
  - destruct (Z.even _); [exact F|]. apply G.
    apply Qeq_alt in C. lra.
  - exact F.
  - apply G. apply Qgt_alt in C. lra.
Qed.

(** Rounding moves a number by at most one half. *)
Lemma Qround_half_even_near (x : Q) :
  Qabs (inject_Z (JS.Qround_half_even x) - x) <= 1 # 2.
Proof.
  unfold JS.Qround_half_even.
  pose proof (Qfloor_le x) as F1. pose proof (Qlt_floor x) as F2.
  rewrite inject_Z_plus in F2. change (inject_Z 1) with 1 in F2.
  apply Qabs_Qle_condition.
  destruct (x - inject_Z (Qfloor x) ?= 1 # 2) eqn:C.
  - apply Qeq_alt in C.
    destruct (Z.even _); rewrite ?inject_Z_plus;
      change (inject_Z 1) with 1; split; lra.
  - apply Qlt_alt in C. split; lra.
  - apply Qgt_alt in C. rewrite inject_Z_plus.
    change (inject_Z 1) with 1. split; lra.
Qed.

(** The significand of a positive number lies in [[2^52, 2^53)], and so
    does its rounding, up to [2^53]. *)
Lemma significand_bounds (a : Q) :
  0 < a ->
  inject_Z (2 ^ 52) <= a / JS.pow2 (JS.binade a - 52) /\
  a / JS.pow2 (JS.binade a - 52) < inject_Z (2 ^ 53).
Proof.
  intros Ha. destruct (binade_spec a Ha) as [B1 B2].
  pose proof (pow2_pos (JS.binade a - 52)) as Hs.
  assert (E1 : JS.pow2 (JS.binade a) ==
               inject_Z (2 ^ 52) * JS.pow2 (JS.binade a - 52)).
  { rewrite <- (pow2_Z 52) by lia. rewrite <- pow2_plus.
    now replace (52 + (JS.binade a - 52))%Z with (JS.binade a) by lia. }
  assert (E2 : JS.pow2 (JS.binade a + 1) ==
               inject_Z (2 ^ 53) * JS.pow2 (JS.binade a - 52)).
  { rewrite <- (pow2_Z 53) by lia. rewrite <- pow2_plus.
    now replace (53 + (JS.binade a - 52))%Z with (JS.binade a + 1)%Z by lia. }
  split.
  - apply Qle_shift_div_l; [exact Hs|]. now rewrite <- E1.
  - apply Qlt_shift_div_r; [exact Hs|]. now rewrite <- E2.
Qed.

Lemma double_pos_comp (a b : Q) :
  a == b -> 0 < a -> JS.double_pos a == JS.double_pos b.
Proof.
  intros E Ha. unfold JS.double_pos. rewrite <- (binade_comp a b E Ha).
  set (s := (JS.binade a - 52)%Z).
  assert (Et : a / JS.pow2 s == b / JS.pow2 s) by (now rewrite E).
  now rewrite (Qround_half_even_comp _ _ Et).
Qed.

(** The double of a positive number stays in its binade, closed above. *)
Lemma double_pos_bounds (a : Q) :
  0 < a ->
  JS.pow2 (JS.binade a) <= JS.double_pos a /\
  JS.double_pos a <= JS.pow2 (JS.binade a + 1).
Proof.
  intros Ha. destruct (significand_bounds a Ha) as [T1 T2].
  pose proof (pow2_pos (JS.binade a - 52)) as Hs.
  unfold JS.double_pos.
  set (s := (JS.binade a - 52)%Z) in *.
  set (m := JS.Qround_half_even (a / JS.pow2 s)).
  assert (M1 : (2 ^ 52 <= m)%Z) by (apply Qround_half_even_ge; exact T1).
  assert (M2 : (m <= 2 ^ 53)%Z)
    by (apply Qround_half_even_le, Qlt_le_weak; exact T2).
  assert (E1 : JS.pow2 (JS.binade a) == inject_Z (2 ^ 52) * JS.pow2 s).
  { rewrite <- (pow2_Z 52) by lia. rewrite <- pow2_plus. unfold s.
    now replace (52 + (JS.binade a - 52))%Z with (JS.binade a) by lia. }
  assert (E2 : JS.pow2 (JS.binade a + 1) == inject_Z (2 ^ 53) * JS.pow2 s).
  { rewrite <- (pow2_Z 53) by lia. rewrite <- pow2_plus. unfold s.
    now replace (53 + (JS.binade a - 52))%Z with (JS.binade a + 1)%Z by lia. }
  rewrite E1, E2. rewrite Zle_Qle in M1, M2.
  split; apply Qmult_le_compat_r; lra.
Qed.

Lemma double_pos_pos (a : Q) : 0 < a -> 0 < JS.double_pos a.
Proof.
  intros Ha. destruct (double_pos_bounds a Ha) as [B _].
  pose proof (pow2_pos (JS.binade a)). lra.
Qed.

Lemma Qdiv_eq (y p c : Q) : ~ p == 0 -> y == c * p -> y / p == c.
Proof. intros Hp E. rewrite E. field. exact Hp. Qed.

(** A double is its own double. *)
Lemma double_pos_idem (a : Q) :
  0 < a -> JS.double_pos (JS.double_pos a) == JS.double_pos a.
Proof.
  intros Ha. destruct (significand_bounds a Ha) as [T1 T2].
  pose proof (double_pos_pos a Ha) as Hy.
  pose proof (double_pos_bounds a Ha) as [Y1 Y2].
  set (e := JS.binade a) in *.
  pose proof (pow2_pos (e - 52)) as Hs.
  assert (Hm : JS.double_pos a ==
               inject_Z (JS.Qround_half_even (a / JS.pow2 (e - 52)))
               * JS.pow2 (e - 52)) by reflexivity.
  set (m := JS.Qround_half_even (a / JS.pow2 (e - 52))) in *.
  set (y := JS.double_pos a) in *.
  assert (M1 : (2 ^ 52 <= m)%Z) by (apply Qround_half_even_ge; exact T1).
  assert (M2 : (m <= 2 ^ 53)%Z)
    by (apply Qround_half_even_le, Qlt_le_weak; exact T2).
  destruct (Z.eq_dec m (2 ^ 53)%Z) as [Etop|Ntop].
  - (* the significand rounded up to [2^53]: the next binade *)
    assert (Ey : y == JS.pow2 (e + 1)).
    { rewrite Hm, Etop, <- (pow2_Z 53), <- pow2_plus by lia.
      now replace (53 + (e - 52))%Z with (e + 1)%Z by lia. }
    assert (Eb : JS.binade y = (e + 1)%Z).
    { apply binade_unique; [exact Hy | rewrite Ey; apply Qle_refl|].
      rewrite Ey, (pow2_succ (e + 1)). pose proof (pow2_pos (e + 1)). lra. }
    unfold JS.double_pos at 1. rewrite Eb.
    replace (e + 1 - 52)%Z with (52 - 52 + (e + 1 - 52))%Z at 2 by lia.
    assert (Et : y / JS.pow2 (e + 1 - 52) == inject_Z (2 ^ 52)).
    { rewrite Ey. rewrite <- (pow2_Z 52) by lia.
      pose proof (pow2_pos (e + 1 - 52)).
      apply Qdiv_eq; [lra|]. rewrite <- pow2_plus.
      now replace (52 + (e + 1 - 52))%Z with (e + 1)%Z by lia. }
    rewrite (Qround_half_even_comp _ _ Et), Qround_half_even_Z.
    rewrite Ey, <- (pow2_Z 52), <- pow2_plus by lia.
    now replace (52 + (52 - 52 + (e + 1 - 52)))%Z with (e + 1)%Z by lia.
  - assert (M3 : (m < 2 ^ 53)%Z) by lia.
    assert (Eb : JS.binade y = e).
    { apply binade_unique; [exact Hy | exact Y1 |].
      rewrite Hm.
      assert (E2 : JS.pow2 (e + 1) == inject_Z (2 ^ 53) * JS.pow2 (e - 52)).
      { rewrite <- (pow2_Z 53) by lia. rewrite <- pow2_plus.
        now replace (53 + (e - 52))%Z with (e + 1)%Z by lia. }
      rewrite E2. apply Qmult_lt_compat_r; [exact Hs|].
      now rewrite <- Zlt_Qlt. }
    unfold JS.double_pos at 1. rewrite Eb.
    assert (Et : y / JS.pow2 (e - 52) == inject_Z m).
    { apply Qdiv_eq; [lra|]. exact Hm. }
    rewrite (Qround_half_even_comp _ _ Et), Qround_half_even_Z.
    symmetry. exact Hm.
Qed.

(** Rounding to a double moves a positive number by at most the fraction
    [2^-53] of it. *)
Lemma double_pos_near (a : Q) :
  0 < a -> Qabs (JS.double_pos a - a) <= a * JS.pow2 (-53).
Proof.
  intros Ha. destruct (significand_bounds a Ha) as [T1 T2].
  pose proof (pow2_pos (JS.binade a - 52)) as Hs.
  unfold JS.double_pos. set (s := (JS.binade a - 52)%Z) in *.
  set (t := a / JS.pow2 s) in *.
  pose proof (Qround_half_even_near t) as Hn.
  assert (Ea : a == t * JS.pow2 s).
  { unfold t. field. lra. }
  assert (E : inject_Z (JS.Qround_half_even t) * JS.pow2 s - a ==
              (inject_Z (JS.Qround_half_even t) - t) * JS.pow2 s)
    by (rewrite Ea at 1; ring).
  rewrite E, Qabs_Qmult, (Qabs_pos (JS.pow2 s)) by lra.
  assert (Eh : JS.pow2 (-53) * inject_Z (2 ^ 52) == 1 # 2) by reflexivity.
  assert (H1 : (1 # 2) * JS.pow2 s <= t * JS.pow2 (-53) * JS.pow2 s).
  { apply Qmult_le_compat_r; [|lra].
    rewrite <- Eh. rewrite (Qmult_comm t).
    apply Qmult_le_l; [apply pow2_pos | exact T1]. }
  assert (H2 : Qabs (inject_Z (JS.Qround_half_even t) - t) * JS.pow2 s
               <= (1 # 2) * JS.pow2 s)
    by (apply Qmult_le_compat_r; [exact Hn | lra]).
  assert (E3 : a * JS.pow2 (-53) == t * JS.pow2 (-53) * JS.pow2 s)
    by (rewrite Ea at 1; ring).
  rewrite E3. eapply Qle_trans; eassumption.
Qed.

(** *** [double] on any rational *)

Lemma double_comp (x y : Q) : x == y -> JS.double x = JS.double y.
Proof.
  intros E. unfold JS.double. now rewrite (Qred_complete x y E).
Qed.

Lemma double_0 : JS.double 0 = 0.
Proof. reflexivity. Qed.

Lemma double_of_pos (x : Q) : 0 < x -> JS.double x == JS.double_pos x.
Proof.
  intros Hx. unfold JS.double.
  assert (C : (Qred x ?= 0) = Gt).
  { apply Qgt_alt. now rewrite Qred_correct. }
  rewrite C, Qred_correct.
  apply double_pos_comp; [apply Qred_correct | now rewrite Qred_correct].
Qed.

Lemma double_of_neg (x : Q) : x < 0 -> JS.double x == - JS.double_pos (- x).
Proof.
  intros Hx. unfold JS.double.
  assert (C : (Qred x ?= 0) = Lt).
  { apply Qlt_alt. now rewrite Qred_correct. }
  rewrite C, Qred_correct.
  assert (E : JS.double_pos (- Qred x) == JS.double_pos (- x)).
  { apply double_pos_comp; rewrite Qred_correct; [reflexivity | lra]. }
  now rewrite E.
Qed.

Lemma double_pos_lt (x : Q) : 0 < x -> 0 < JS.double x.
Proof.
  intros Hx. rewrite (double_of_pos x Hx). now apply double_pos_pos.
Qed.

Lemma double_neg_lt (x : Q) : x < 0 -> JS.double x < 0.
Proof.
  intros Hx. rewrite (double_of_neg x Hx).
  assert (H : 0 < JS.double_pos (- x)) by (apply double_pos_pos; lra). lra.
Qed.

Lemma double_nonneg (x : Q) : 0 <= x -> 0 <= JS.double x.
Proof.
  intros Hx. destruct (Qlt_le_dec 0 x) as [H|H].
  - apply Qlt_le_weak. now apply double_pos_lt.
  - assert (E : x == 0) by lra. rewrite (double_comp x 0 E). apply Qle_refl.
Qed.

Lemma double_opp (x : Q) : JS.double (- x) == - JS.double x.
Proof.
  destruct (Q_dec x 0) as [[H|H]|H].
  - rewrite (double_of_neg x H), (double_of_pos (- x)) by lra. ring.
  - rewrite (double_of_pos x H), (double_of_neg (- x)) by lra.
    assert (E : JS.double_pos (- - x) == JS.double_pos x)
      by (apply double_pos_comp; [ring | lra]).
    now rewrite E.
  - assert (E : - x == 0) by lra.
    rewrite (double_comp _ _ E), (double_comp _ _ H). reflexivity.
Qed.

Lemma double_Qabs (x : Q) : Qabs (JS.double x) == JS.double (Qabs x).
Proof.
  destruct (Qlt_le_dec x 0) as [H|H].
  - rewrite (double_comp (Qabs x) (- x)) by (apply Qabs_neg; lra).
    rewrite double_opp.
    apply Qabs_neg. apply Qlt_le_weak. now apply double_neg_lt.
  - rewrite (double_comp (Qabs x) x) by (apply Qabs_pos; exact H).
    apply Qabs_pos. now apply double_nonneg.
Qed.

Lemma double_idem (x : Q) : JS.double (JS.double x) == JS.double x.
Proof.
  destruct (Q_dec x 0) as [[H|H]|H].
  - pose proof (double_neg_lt x H) as Hd.
    rewrite (double_of_neg (JS.double x) Hd).
    assert (E : - JS.double x == JS.double_pos (- x))
      by (rewrite (double_of_neg x H); ring).
    rewrite (double_pos_comp _ _ E) by lra.
    rewrite double_pos_idem by lra. rewrite <- E. ring.
  - pose proof (double_pos_lt x H) as Hd.
    rewrite (double_of_pos (JS.double x) Hd).
    rewrite (double_pos_comp _ _ (double_of_pos x H)) by exact Hd.
    rewrite double_pos_idem by exact H. symmetry. now apply double_of_pos.
  - rewrite (double_comp _ _ H). reflexivity.
Qed.

(** Rounding to a double moves a number by at most the fraction [2^-53] of
    its magnitude. *)
Lemma double_near (x : Q) :
  Qabs (JS.double x - x) <= Qabs x * JS.pow2 (-53).
Proof.
  destruct (Q_dec x 0) as [[H|H]|H].
  - rewrite (double_of_neg x H), (Qabs_neg x) by lra.
    assert (E : - JS.double_pos (- x) - x == - (JS.double_pos (- x) - - x))
      by ring.
    rewrite E, Qabs_opp. apply double_pos_near. lra.
  - rewrite (double_of_pos x H), (Qabs_pos x) by lra.
    now apply double_pos_near.
  - rewrite (double_comp _ _ H), H. discriminate.
Qed.

End Doubles.

(** ** Percent change *)

Section PercentChange.

Local Open Scope Q_scope.

Lemma prefix_minus (s : string) : String.prefix "-" ("-" +:+ s) = true.
Proof. destruct s; reflexivity. Qed.

Lemma prefix_minus_plus (s : string) : String.prefix "-" ("+" +:+ s) = false.
Proof. destruct s; reflexivity. Qed.

(** The value [getPercentChange] hands to the formatter, for a start value
    that is not zero. *)
Lemma getPercentChange_nonzero (S E : Q) :
  ~ S == 0 ->
  getPercentChange (Num S) (Num E) =
  percentFormatter
    (if JS.Qltb E S
     then Num (JS.double
                 (Qabs (JS.double (JS.double (E - S) / S)) * (-1)))
     else Num (Qabs (JS.double (JS.double (E - S) / S)))) true.
Proof.
  intros HS. unfold getPercentChange.
  cbn [JS.strict_eq JS.fsub JS.fdiv JS.lift2 JS.abs JS.lt JS.mul].
  rewrite (Qeq_bool_false _ _ HS).
  now destruct (JS.Qltb E S).
Qed.

(** What the formatter prints for a value that is not negative. *)
Lemma percentFormatter_nonneg (v : Q) (showPlusMinus : bool) :
  0 <= v ->
  percentFormatter (Num v) showPlusMinus =
  (if showPlusMinus then "+" else "") +:+
  JS.toFixed_abs 1 (JS.double (v * 100)) +:+ "%".
Proof.
  intros Hv. unfold percentFormatter.
  cbn [JS.ge JS.mul JS.lift2 JS.toFixed].
  assert (Hge : Qle_bool 0 v = true) by now apply Qle_bool_iff.
  assert (Hnl : JS.Qltb (JS.double (v * 100)) 0 = false).
  { apply Qltb_ge, double_nonneg. lra. }
  rewrite Hge, Hnl. now destruct showPlusMinus.
Qed.

(** What the formatter prints for a negative value: a minus sign, and no
    plus sign. *)
Lemma percentFormatter_neg (v : Q) (showPlusMinus : bool) :
  v < 0 ->
  percentFormatter (Num v) showPlusMinus =
  "-" +:+ JS.toFixed_abs 1 (- JS.double (v * 100)) +:+ "%".
Proof.
  intros Hv. unfold percentFormatter.
  cbn [JS.ge JS.mul JS.lift2 JS.toFixed].
  assert (Hge : Qle_bool 0 v = false).
  { destruct (Qle_bool 0 v) eqn:Hb; [|reflexivity].
    apply Qle_bool_iff in Hb. lra. }
  assert (Hneg : JS.Qltb (JS.double (v * 100)) 0 = true).
  { apply Qltb_lt, double_neg_lt. lra. }
  rewrite Hge, Hneg. now destruct showPlusMinus.
Qed.

(** The quotient [getPercentChange] computes is not zero when the two
    values differ. *)
Lemma double_quotient_pos (S E : Q) :
  ~ S == 0 -> ~ E == S ->
  0 < Qabs (JS.double (JS.double (E - S) / S)).
Proof.
  intros HS HE.
  assert (Hd : ~ JS.double (E - S) == 0).
  { destruct (Q_dec (E - S) 0) as [[H|H]|H].
    - pose proof (double_neg_lt _ H). lra.
    - pose proof (double_pos_lt _ H). lra.
    - exfalso. apply HE. lra. }
  assert (Hq : ~ JS.double (E - S) / S == 0).
  { intros H0. apply Hd.
    rewrite <- (Qmult_div_r (JS.double (E - S)) S HS), H0. ring. }
  set (y := JS.double (E - S) / S) in *.
  destruct (Q_dec y 0) as [[H|H]|H]; [| |contradiction].
  - pose proof (double_neg_lt _ H). rewrite Qabs_neg; lra.
  - pose proof (double_pos_lt _ H). rewrite Qabs_pos; lra.
Qed.

(** Each of the three roundings moves the magnitude by at most the fraction
    [2^-53]: the printed magnitude is within the fraction [2^-51] of the
    exact [|(E - S) / S| * 100]. *)
Lemma percentChange_magnitude_near (S E : Q) :
  ~ S == 0 ->
  Qabs (percentChange_magnitude S E - Qabs ((E - S) / S) * 100)
  <= Qabs ((E - S) / S) * 100 * JS.pow2 (-51).
Proof.
  intros HS. unfold percentChange_magnitude.
  set (x0 := E - S). set (x1 := JS.double x0).
  set (y := x1 / S). set (x2 := JS.double y).
  set (x3 := JS.double (Qabs x2 * 100)).
  pose proof (double_near x0) as N1. fold x1 in N1.
  pose proof (double_near y) as N2. fold x2 in N2.
  pose proof (double_near (Qabs x2 * 100)) as N3. fold x3 in N3.
  assert (Hy : Qabs (y - x0 / S) <= Qabs (x0 / S) * JS.pow2 (-53)).
  { assert (E1 : y - x0 / S == (x1 - x0) * / S) by (unfold y; field; exact HS).
    assert (E2 : Qabs (x0 / S) * JS.pow2 (-53) ==
                 Qabs x0 * JS.pow2 (-53) * Qabs (/ S)).
    { unfold Qdiv. rewrite Qabs_Qmult. ring. }
    rewrite E1, E2, Qabs_Qmult.
    apply Qmult_le_compat_r; [exact N1 | apply Qabs_nonneg]. }
  assert (E3 : Qabs (Qabs x2 * 100) == Qabs x2 * 100).
  { apply Qabs_pos. pose proof (Qabs_nonneg x2). lra. }
  rewrite E3 in N3.
  change (JS.pow2 (-53)) with (1 # 9007199254740992) in *.
  change (JS.pow2 (-51)) with (1 # 2251799813685248).
  set (q0 := x0 / S) in *.
  clearbody x3 x2 y q0. clear N1 E3 x1 x0.
  apply Qabs_Qle_condition in N2, N3, Hy. apply Qabs_Qle_condition.
  destruct (Qlt_le_dec x2 0) as [H2|H2];
    [rewrite (Qabs_neg x2) in * by lra | rewrite (Qabs_pos x2) in * by lra];
    (destruct (Qlt_le_dec y 0) as [H1|H1];
     [rewrite (Qabs_neg y) in * by lra | rewrite (Qabs_pos y) in * by lra]);
    (destruct (Qlt_le_dec q0 0) as [H0|H0];
     [rewrite (Qabs_neg q0) in * by lra | rewrite (Qabs_pos q0) in * by lra]);
    split; lra.
Qed.

(** C4.  Whatever the end value (a number or [NaN]), a start value of zero
    makes [getPercentChange] return the text "n/a"; the division is not
    evaluated. *)
Theorem getPercentChange_zero_start (endValue : number) :
  getPercentChange (Num 0) endValue = "n/a".
Proof. reflexivity. Qed.

(** C10.  A value that did not change and is not zero is reported as
    "+0.0%": signed with a plus, neither "n/a" nor unsigned. *)
Theorem getPercentChange_unchanged (S : Q) :
  ~ S == 0 -> getPercentChange (Num S) (Num S) = "+0.0%".
Proof.
  intros HS. rewrite (getPercentChange_nonzero S S HS).
  assert (Hlt : JS.Qltb S S = false) by (apply Qltb_ge, Qle_refl).
  rewrite Hlt.
  assert (Hz : Qabs (JS.double (JS.double (S - S) / S)) = 0).
  { rewrite (double_comp (S - S) 0) by ring. rewrite double_0.
    rewrite (double_comp (0 / S) 0) by (field; exact HS). reflexivity. }
  rewrite Hz. vm_compute. reflexivity.
Qed.

Lemma getPercentChange_unchanged_witness :
  ~ 7 == 0 /\ getPercentChange (Num 7) (Num 7) = "+0.0%".
Proof.
  split.
  - intros H; discriminate H.
  - apply (getPercentChange_unchanged 7). intros H; discriminate H.
Defined.

(** C5, as amended.  For a start value [S] that is not zero, the text
    [getPercentChange] returns begins with a minus sign exactly when the end
    value is below the start value and with a plus sign otherwise, followed
    by [N.N%], where [N.N] is the magnitude rounded to one decimal.  The
    magnitude is the unsigned quotient [|(E - S) / S|] (that is
    [|E - S| / |S|]) times 100 as doubles compute it, which is within the
    fraction [2^-51] of the exact value. *)
Theorem getPercentChange_sign_and_magnitude (S E : Q) :
  ~ S == 0 ->
  (String.prefix "-" (getPercentChange (Num S) (Num E)) = true <-> E < S) /\
  getPercentChange (Num S) (Num E) =
    (if JS.Qltb E S then "-" else "+") +:+
    JS.toFixed_abs 1 (percentChange_magnitude S E) +:+ "%" /\
  Qabs (percentChange_magnitude S E - Qabs ((E - S) / S) * 100)
  <= Qabs ((E - S) / S) * 100 * JS.pow2 (-51).
Proof.
  intros HS.
  assert (Heq : getPercentChange (Num S) (Num E) =
    (if JS.Qltb E S then "-" else "+") +:+
    JS.toFixed_abs 1 (percentChange_magnitude S E) +:+ "%").
  { rewrite (getPercentChange_nonzero S E HS). unfold percentChange_magnitude.
    set (z := JS.double (E - S) / S).
    set (A := Qabs (JS.double z)).
    destruct (JS.Qltb E S) eqn:Hlt.
    - apply Qltb_lt in Hlt.
      assert (Hpos : 0 < A).
      { apply double_quotient_pos; [exact HS|].
        intros Heq. rewrite Heq in Hlt. exact (Qlt_irrefl _ Hlt). }
      assert (HA : JS.double A == A).
      { unfold A. rewrite (double_comp _ _ (double_Qabs z)).
        rewrite double_idem. symmetry. apply double_Qabs. }
      assert (Hflip : JS.double (A * -1) == - A).
      { rewrite (double_comp (A * -1) (- A)) by ring.
        rewrite double_opp, HA. reflexivity. }
      assert (Hneg : JS.double (A * -1) < 0) by (rewrite Hflip; lra).
      rewrite (percentFormatter_neg _ true Hneg).
      assert (Hm : - JS.double (JS.double (A * -1) * 100) ==
                   JS.double (A * 100)).
      { rewrite (double_comp (JS.double (A * -1) * 100) (- (A * 100)))
          by (rewrite Hflip; ring).
        rewrite double_opp. ring. }
      now rewrite (toFixed_abs_comp 1 _ _ Hm).
    - apply (percentFormatter_nonneg A true). apply Qabs_nonneg. }
  split; [|split; [exact Heq | now apply percentChange_magnitude_near]].
  rewrite Heq. destruct (JS.Qltb E S) eqn:Hlt.
  - split; [intros _; now apply Qltb_lt | intros _; apply prefix_minus].
  - split; [intros Hp; rewrite prefix_minus_plus in Hp; discriminate Hp|].
    intros Hlt'. apply Qltb_lt in Hlt'. congruence.
Qed.

Lemma getPercentChange_sign_and_magnitude_witness :
  ~ 80 == 0 /\
  (String.prefix "-" (getPercentChange (Num 80) (Num 103)) = true
   <-> 103 < 80) /\
  getPercentChange (Num 80) (Num 103) =
    "+" +:+ JS.toFixed_abs 1 (percentChange_magnitude 80 103) +:+ "%" /\
  Qabs (percentChange_magnitude 80 103 - Qabs ((103 - 80) / 80) * 100)
  <= Qabs ((103 - 80) / 80) * 100 * JS.pow2 (-51).
Proof.
  split; [intros H; discriminate H|].
  apply (getPercentChange_sign_and_magnitude 80 103).
  intros H; discriminate H.
Defined.

(** From 80 to 103 the quotient 0.2875 is not a double, and the product of
    its double with 100 is the double just below 28.75: the visual prints
    "+28.7%", where the exact 28.75 would round to 28.8. *)
Example getPercentChange_rounds_as_doubles :
  getPercentChange (Num 80) (Num 103) = "+28.7%" /\
  percentChange_magnitude 80 103 < 2875 # 100 /\
  JS.toFixed_abs 1 (Qabs ((103 - 80) / 80) * 100) = "28.8" /\
  getPercentChange (Num 80) (Num 60) = "-25.0%".
Proof. repeat split; vm_compute; reflexivity. Qed.

(** C5 as the specification words it fails for a negative start value:
    from -10 to -20 the visual prints "-100.0%", while [|E - S| / S] is
    -100, which is no magnitude (its rendering carries a sign of its
    own). *)
Lemma getPercentChange_negative_start_differs :
  getPercentChange (Num (-10)) (Num (-20)) = "-100.0%" /\
  (Qabs (-20 - -10) / -10 * 100 == -100) /\
  getPercentChange (Num (-10)) (Num (-20)) <>
  percentChange_as_specified (-10) (-20).
Proof.
  split; [vm_compute; reflexivity|]. split; [reflexivity|].
  intros H. vm_compute in H. discriminate H.
Qed.

End PercentChange.


(** ** Layout: clamping and size classes *)

Section LayoutFacts.

Local Open Scope Q_scope.

Lemma Qle_bool_false (x y : Q) : Qle_bool x y = false <-> y < x.
Proof. rewrite <- Qltb_lt. unfold JS.Qltb. now rewrite negb_true_iff. Qed.


(** The clamped viewport, whatever the size class. *)
Lemma layout_available (vp : IViewport) :
  availableHeight (layout vp) =
    (if JS.lt (height vp) (Num 90) then Num 90 else height vp) /\
  availableWidth (layout vp) =
    (if JS.lt (width vp) (Num 220) then Num 220 else width vp).
Proof.
  unfold layout.
  destruct (JS.ge _ (Num 450)); [split; reflexivity|].
  destruct (JS.ge _ (Num 280)); [split; reflexivity|].
  destruct (JS.ge _ (Num 120)); split; reflexivity.
Qed.

(** The size class as a function of the clamped height. *)
Lemma layout_size_of_height (w H : Q) :
  90 <= H ->
  (450 <= H -> size (layout (mkViewport (Num w) (Num H))) = large) /\
  (280 <= H -> H < 450 ->
   size (layout (mkViewport (Num w) (Num H))) = medium) /\
  (120 <= H -> H < 280 ->
   size (layout (mkViewport (Num w) (Num H))) = small) /\
  (H < 120 -> size (layout (mkViewport (Num w) (Num H))) = extrasmall).
Proof.
  intros H90. unfold layout. cbn -[Qle_bool JS.Qltb].
  assert (Hc : JS.Qltb H 90 = false) by (now apply Qltb_ge).
  rewrite Hc.
  unfold JS.ge.
  repeat split; intros;
    repeat match goal with
    | |- context [Qle_bool ?a ?b] =>
        let E := fresh "E" in
        destruct (Qle_bool a b) eqn:E;
        [apply Qle_bool_iff in E | apply Qle_bool_false in E]
    end; cbn; try reflexivity; lra.
Qed.

(** C7.  [update] clamps the viewport height to at least 90 and the width
    to at least 220, and picks the size class from the clamped height:
    large from 450 on, medium from 280 to below 450, small from 120 to
    below 280, extra-small below 120; in particular 450 is large, 449
    medium, 280 medium, 279 small, 120 small and 119 extra-small.  Both
    revisions of [update] render with this layout. *)
Theorem layout_clamps_and_classifies (w h : Q) :
  (h < 90 -> availableHeight (layout (mkViewport (Num w) (Num h))) = Num 90)
  /\ (90 <= h ->
      availableHeight (layout (mkViewport (Num w) (Num h))) = Num h)
  /\ (w < 220 ->
      availableWidth (layout (mkViewport (Num w) (Num h))) = Num 220)
  /\ (220 <= w ->
      availableWidth (layout (mkViewport (Num w) (Num h))) = Num w)
  /\ (exists H : Q,
        availableHeight (layout (mkViewport (Num w) (Num h))) = Num H /\
        90 <= H /\
        (450 <= H -> size (layout (mkViewport (Num w) (Num h))) = large) /\
        (280 <= H -> H < 450 ->
         size (layout (mkViewport (Num w) (Num h))) = medium) /\
        (120 <= H -> H < 280 ->
         size (layout (mkViewport (Num w) (Num h))) = small) /\
        (H < 120 ->
         size (layout (mkViewport (Num w) (Num h))) = extrasmall))
  /\ map (fun H => size (layout (mkViewport (Num w) (Num H))))
       [450; 449; 280; 279; 120; 119]
     = [large; medium; medium; small; small; extrasmall]
  /\ (forall (host : Host) (dataViews : list DataView) (l : Layout)
             (topChart bottomChart : option ChartView)
             (bottomContainer : BottomView),
        Visual.update host
          (mkUpdateOptions (mkViewport (Num w) (Num h)) dataViews)
        = Ok (Rendered l topChart bottomChart bottomContainer) \/
        Revised.update host
          (mkUpdateOptions (mkViewport (Num w) (Num h)) dataViews)
        = Ok (Rendered l topChart bottomChart bottomContainer) ->
        l = layout (mkViewport (Num w) (Num h))).
Proof.
  destruct (layout_available (mkViewport (Num w) (Num h))) as [HH HW].
  cbn [height width JS.lt] in HH, HW.
  assert (Hh : h < 90 ->
            availableHeight (layout (mkViewport (Num w) (Num h))) = Num 90).
  { intros Hlt. apply Qltb_lt in Hlt. now rewrite HH, Hlt. }
  assert (Hh' : 90 <= h ->
            availableHeight (layout (mkViewport (Num w) (Num h))) = Num h).
  { intros Hge. apply Qltb_ge in Hge. now rewrite HH, Hge. }
  split; [exact Hh|]. split; [exact Hh'|].
  split.
  { intros Hlt. apply Qltb_lt in Hlt. now rewrite HW, Hlt. }
  split.
  { intros Hge. apply Qltb_ge in Hge. now rewrite HW, Hge. }
  split.
  { destruct (Qlt_le_dec h 90) as [Hlt|Hge].
    - exists 90. split; [now apply Hh|]. split; [lra|].
      assert (Hs : size (layout (mkViewport (Num w) (Num h))) = extrasmall).
      { unfold layout. cbn -[Qle_bool JS.Qltb].
        apply Qltb_lt in Hlt. now rewrite Hlt. }
      rewrite Hs. repeat split; intros; try reflexivity; lra.
    - exists h. split; [now apply Hh'|]. split; [exact Hge|].
      now apply layout_size_of_height. }
  split; [reflexivity|].
  intros host dvs l t b f [Hu|Hu].
  - unfold Visual.update in Hu. cbn [dataViews viewport] in Hu.
    destruct (dvs !! 0%nat) as [dv|]; [|discriminate Hu].
    destruct (metadata dv) as [md|]; [|discriminate Hu].
    destruct (columns md); [|discriminate Hu].
    destruct (Visual.converter host dv) as [data|]; [|discriminate Hu].
    cbn [bind] in Hu.
    repeat match type of Hu with
           | bind ?m _ = _ => destruct m; cbn [bind] in Hu;
                              [|discriminate Hu]
           end.
    now inversion Hu.
  - unfold Revised.update in Hu. cbn [dataViews viewport] in Hu.
    destruct (dvs !! 0%nat) as [dv|]; [|discriminate Hu].
    destruct (metadata dv) as [md|]; [|discriminate Hu].
    destruct (columns md); [|discriminate Hu].
    destruct (Revised.converter host dv) as [data|]; [|discriminate Hu].
    cbn [bind] in Hu.
    repeat match type of Hu with
           | bind ?m _ = _ => destruct m; cbn [bind] in Hu;
                              [|discriminate Hu]
           end.
    now inversion Hu.
Qed.

End LayoutFacts.


(** ** The percent-change reference point *)

Section StartPoint.

Local Open Scope Q_scope.

(** A time value below one that is [===] the configured time is below the
    configured time, and is not [===] to it. *)
Lemma lt_then_eq (a b t : number) :
  JS.lt a b = true -> JS.strict_eq b t = true ->
  JS.lt a t = true /\ JS.strict_eq a t = false.
Proof.
  destruct a as [x|], b as [y|], t as [z|]; cbn; try discriminate.
  intros Hlt Heq. apply Qltb_lt in Hlt. apply Qeq_bool_iff in Heq.
  split.
  - apply Qltb_lt. now rewrite <- Heq.
  - apply Qeq_bool_false. intros Hxz. rewrite Hxz, <- Heq in Hlt.
    exact (Qlt_irrefl _ Hlt).
Qed.

(** Over strictly ascending dates the loop stops exactly on the point whose
    date is the configured one. *)
Lemma closestIndex_from_exact (t : number) (l : list IDualKpiDataPoint) :
  forall (i closestIndex k : nat) (p : IDualKpiDataPoint),
    strictly_ascending l ->
    l !! k = Some p ->
    JS.strict_eq (getTime (date p)) t = true ->
    closestIndex_from l t i closestIndex = (i + k)%nat.
Proof.
  induction l as [|q rest IH]; intros i c k p Hsorted Hk Heq.
  - discriminate Hk.
  - apply StronglySorted_inv in Hsorted. destruct Hsorted as [Hrest Hall].
    destruct k as [|k']; cbn in Hk.
    + injection Hk as ->. cbn. rewrite Heq. lia.
    + assert (Hqp : date_lt q p).
      { rewrite Forall_forall in Hall. apply Hall.
        eapply list_elem_of_lookup_2. exact Hk. }
      destruct (lt_then_eq _ _ _ Hqp Heq) as [Hlt Hne].
      cbn. rewrite Hne, Hlt.
      rewrite (IH (S i) i k' p Hrest Hk Heq). lia.
Qed.

(** C8.  For a series that is not empty and whose dates are strictly
    ascending, [getPercentChangeStartPoint] with a [null] date returns the
    first point, and with a date that is exactly the date of the point at
    some index it returns that point. *)
Theorem getPercentChangeStartPoint_reference
    (S : list IDualKpiDataPoint) :
  S <> [] ->
  strictly_ascending S ->
  (exists first, S !! 0%nat = Some first /\
                 getPercentChangeStartPoint S None = Some first) /\
  (forall (i : nat) (p : IDualKpiDataPoint) (D : Date),
     S !! i = Some p -> same_date (date p) D ->
     getPercentChangeStartPoint S (Some D) = Some p).
Proof.
  intros Hne Hsorted. split.
  - destruct S as [|first rest]; [contradiction|].
    exists first. split; reflexivity.
  - intros i p D Hi HD. unfold getPercentChangeStartPoint.
    rewrite (closestIndex_from_exact (getTime D) S 0 0 i p Hsorted Hi HD).
    exact Hi.
Qed.

End StartPoint.

Lemma getPercentChangeStartPoint_reference_witness :
  sampleSeries <> [] /\
  strictly_ascending sampleSeries /\
  (exists first, sampleSeries !! 0%nat = Some first /\
                 getPercentChangeStartPoint sampleSeries None = Some first) /\
  (forall (i : nat) (p : IDualKpiDataPoint) (D : Date),
     sampleSeries !! i = Some p -> same_date (date p) D ->
     getPercentChangeStartPoint sampleSeries (Some D) = Some p).
Proof.
  assert (Hne : sampleSeries <> []) by discriminate.
  assert (Hs : strictly_ascending sampleSeries).
  { unfold strictly_ascending, sampleSeries.
    repeat (constructor; [|repeat constructor]); constructor. }
  split; [exact Hne|]. split; [exact Hs|].
  exact (getPercentChangeStartPoint_reference sampleSeries Hne Hs).
Defined.

Example getPercentChangeStartPoint_second_day :
  getPercentChangeStartPoint sampleSeries (Some (mkDate (Num 86400000)))
  = Some (mkPoint (mkDate (Num 86400000)) (Num 20)).
Proof. reflexivity. Qed.


(** ** The converter *)

Section ConverterFacts.

(** *** Reading the last row *)

Lemma js_index_last {A : Type} (a : list A) :
  js_index a (Z.of_nat (length a) - 1) = last a.
Proof.
  unfold js_index. rewrite last_lookup.
  destruct a as [|x a']; [reflexivity|].
  cbn [length]. destruct (Z.ltb_spec (Z.of_nat (S (length a')) - 1) 0); [lia|].
  f_equal. lia.
Qed.

Lemma js_index_nat {A : Type} (a : list A) (i : nat) :
  js_index a (Z.of_nat i) = a !! i.
Proof.
  unfold js_index. destruct (Z.ltb_spec (Z.of_nat i) 0); [lia|].
  now rewrite Nat2Z.id.
Qed.

Lemma last_is_Some {A : Type} (a : list A) :
  a <> [] -> exists x, last a = Some x.
Proof.
  intros Hne. destruct (last a) as [x|] eqn:E; [now exists x|].
  apply last_None in E. contradiction.
Qed.

(** *** The loop over the columns *)

Lemma scanColumns_app (pre post : list DataViewMetadataColumn) :
  forall (i : Z) (s : ColumnScan),
    scanColumns (pre ++ post) i s =
    scanColumns post (i + Z.of_nat (length pre)) (scanColumns pre i s).
Proof.
  induction pre as [|col pre IH]; intros i s; cbn [app scanColumns length].
  - f_equal. lia.
  - rewrite IH. f_equal. lia.
Qed.

Local Opaque hasRole getFormatSymbol.

Lemma scanColumn_warningStateCol (s : ColumnScan) (i : Z)
    (col : DataViewMetadataColumn) :
  warningStateCol (scanColumn s i col) =
  if hasRole col "warningstate" then i else warningStateCol s.
Proof.
  unfold scanColumn.
  destruct (hasRole col "axis"), (hasRole col "topvalues"),
    (hasRole col "bottomvalues"), (hasRole col "warningstate"),
    (hasRole col "toppercentdate"), (hasRole col "bottompercentdate");
    reflexivity.
Qed.

Lemma scanColumn_topValues (s : ColumnScan) (i : Z)
    (col : DataViewMetadataColumn) :
  (topValuesCol (scanColumn s i col),
   topValueFormatSymbol (scanColumn s i col)) =
  if hasRole col "topvalues" then (i, getFormatSymbol (format col))
  else (topValuesCol s, topValueFormatSymbol s).
Proof.
  unfold scanColumn.
  destruct (hasRole col "axis"), (hasRole col "topvalues"),
    (hasRole col "bottomvalues"), (hasRole col "warningstate"),
    (hasRole col "toppercentdate"), (hasRole col "bottompercentdate");
    reflexivity.
Qed.


Local Transparent hasRole getFormatSymbol.


(** No column carries the role: the index keeps its initial value. *)
Lemma scanColumns_warning_absent (cols : list DataViewMetadataColumn) :
  forall (i : Z) (s : ColumnScan),
    Forall (fun col => hasRole col "warningstate" = false) cols ->
    warningStateCol (scanColumns cols i s) = warningStateCol s.
Proof.
  induction cols as [|col cols IH]; intros i s Hall; [reflexivity|].
  apply Forall_cons in Hall. destruct Hall as [Hcol Hall].
  cbn [scanColumns]. rewrite (IH _ _ Hall), scanColumn_warningStateCol.
  now rewrite Hcol.
Qed.

(** The last column that carries the role wins. *)
Lemma scanColumns_warning_last
    (pre post : list DataViewMetadataColumn) (col : DataViewMetadataColumn)
    (s : ColumnScan) :
  hasRole col "warningstate" = true ->
  Forall (fun col => hasRole col "warningstate" = false) post ->
  warningStateCol (scanColumns (pre ++ col :: post) 0 s) =
  Z.of_nat (length pre).
Proof.
  intros Hcol Hpost. rewrite scanColumns_app. cbn [scanColumns].
  rewrite (scanColumns_warning_absent _ _ _ Hpost).
  rewrite scanColumn_warningStateCol, Hcol. lia.
Qed.

Lemma scanColumns_top_absent (cols : list DataViewMetadataColumn) :
  forall (i : Z) (s : ColumnScan),
    Forall (fun col => hasRole col "topvalues" = false) cols ->
    topValuesCol (scanColumns cols i s) = topValuesCol s /\
    topValueFormatSymbol (scanColumns cols i s) = topValueFormatSymbol s.
Proof.
  induction cols as [|col cols IH]; intros i s Hall; [now split|].
  apply Forall_cons in Hall. destruct Hall as [Hcol Hall].
  cbn [scanColumns]. destruct (IH (i + 1) (scanColumn s i col) Hall) as [-> ->].
  pose proof (scanColumn_topValues s i col) as E. rewrite Hcol in E.
  now injection E.
Qed.

(** The percent flag of the top series is read off the format of the last
    column that carries the [topvalues] role. *)
Lemma scanColumns_top_last
    (pre post : list DataViewMetadataColumn) (col : DataViewMetadataColumn)
    (s : ColumnScan) :
  hasRole col "topvalues" = true ->
  Forall (fun col => hasRole col "topvalues" = false) post ->
  topValuesCol (scanColumns (pre ++ col :: post) 0 s) =
    Z.of_nat (length pre) /\
  topValueFormatSymbol (scanColumns (pre ++ col :: post) 0 s) =
    getFormatSymbol (format col).
Proof.
  intros Hcol Hpost. rewrite scanColumns_app. cbn [scanColumns].
  destruct (scanColumns_top_absent post
              (0 + Z.of_nat (length pre) + 1)
              (scanColumn (scanColumns pre 0 s) (0 + Z.of_nat (length pre)) col)
              Hpost) as [-> ->].
  pose proof (scanColumn_topValues (scanColumns pre 0 s)
                (0 + Z.of_nat (length pre)) col) as E.
  rewrite Hcol in E. injection E as -> ->. split; [lia|reflexivity].
Qed.

(** *** The loop over the rows *)

Lemma convertRows_length (h : Host) (c : ColumnScan) (tp bp : bool)
    (rows : list (list number)) :
  forall i : nat,
    length (convertRows h c tp bp i rows).1 = length rows /\
    length (convertRows h c tp bp i rows).2 = length rows.
Proof.
  induction rows as [|row rest IH]; intros i; [now split|].
  cbn [convertRows]. specialize (IH (S i)).
  destruct (convertRows h c tp bp (S i) rest) as [tops bottoms].
  cbn [fst snd length] in *. lia.
Qed.

(** Row by row, the two series hold points built on one date. *)
Lemma convertRows_same_date (h : Host) (c : ColumnScan) (tp bp : bool)
    (rows : list (list number)) :
  forall i : nat,
    map date (convertRows h c tp bp i rows).1 =
    map date (convertRows h c tp bp i rows).2.
Proof.
  induction rows as [|row rest IH]; intros i; [reflexivity|].
  cbn [convertRows]. specialize (IH (S i)).
  destruct (convertRows h c tp bp (S i) rest) as [tops bottoms].
  cbn [fst snd map date] in *. now rewrite IH.
Qed.



(** *** What a returned snapshot holds *)

Lemma convert_Ok (warningStateBound : Z -> bool) (text : string) (h : Host)
    (dataView : DataView) (data : IDualKpiData) :
  convert warningStateBound text h dataView = Ok data ->
  exists md cols,
    metadata dataView = Some md /\ columns md = Some cols /\
    d_topValueAsPercent data =
      bool_decide
        (topValueFormatSymbol (scanColumns cols 0 initialScan) = Some "%") /\
    d_bottomValueAsPercent data =
      bool_decide
        (bottomValueFormatSymbol (scanColumns cols 0 initialScan)
         = Some "%") /\
    d_topValues data =
      (convertRows h (scanColumns cols 0 initialScan)
         (d_topValueAsPercent data) (d_bottomValueAsPercent data) 0
         (tableRows dataView)).1 /\
    d_bottomValues data =
      (convertRows h (scanColumns cols 0 initialScan)
         (d_topValueAsPercent data) (d_bottomValueAsPercent data) 0
         (tableRows dataView)).2 /\
    (if warningStateBound
          (warningStateCol (scanColumns cols 0 initialScan))
     then exists lastRow,
            last (tableRows dataView) = Some lastRow /\
            d_warningState data =
              cell lastRow (warningStateCol (scanColumns cols 0 initialScan))
     else d_warningState data = JNumber (Num 0)).
Proof.
  unfold convert. intros Hc.
  destruct (metadata dataView) as [md|] eqn:Emd;
    cbn [defined bind] in Hc; [|discriminate Hc].
  destruct (columns md) as [cols|] eqn:Ecols;
    cbn [defined bind] in Hc; [|discriminate Hc].
  exists md, cols.
  destruct (convertRows h (scanColumns cols 0 initialScan) _ _ 0
              (tableRows dataView)) as [tops bottoms] eqn:Erows.
  destruct (warningStateBound (warningStateCol _)) eqn:Eguard.
  - rewrite js_index_last in Hc.
    destruct (last (tableRows dataView)) as [lastRow|];
      cbn [defined bind] in Hc; [|discriminate Hc].
    injection Hc as <-.
    cbn -[convertRows scanColumns bool_decide tableRows]. rewrite Erows.
    do 2 (split; [assumption || reflexivity|]).
    do 4 (split; [reflexivity|]). now exists lastRow.
  - cbn [bind] in Hc. injection Hc as <-.
    cbn -[convertRows scanColumns bool_decide tableRows]. rewrite Erows.
    do 2 (split; [assumption || reflexivity|]).
    do 4 (split; [reflexivity|]). reflexivity.
Qed.

(** The converter returns a snapshot as soon as the metadata and its
    columns are there and the read of the warning state, when it is made,
    finds a last row. *)
Lemma convert_returns (warningStateBound : Z -> bool) (text : string)
    (h : Host) (dataView : DataView) (md : DataViewMetadata)
    (cols : list DataViewMetadataColumn) :
  metadata dataView = Some md -> columns md = Some cols ->
  tableRows dataView <> [] \/
  warningStateBound (warningStateCol (scanColumns cols 0 initialScan))
  = false ->
  exists data, convert warningStateBound text h dataView = Ok data.
Proof.
  intros Hmd Hcols Hor. unfold convert. rewrite Hmd. cbn [defined bind].
  rewrite Hcols. cbn [defined bind].
  destruct (convertRows h _ _ _ 0 (tableRows dataView)) as [tops bottoms].
  destruct (warningStateBound (warningStateCol _)) eqn:Eguard.
  - destruct Hor as [Hne|Hf]; [|discriminate Hf].
    rewrite js_index_last. destruct (last_is_Some _ Hne) as [lastRow ->].
    cbn [defined bind]. eauto.
  - cbn [bind]. eauto.
Qed.

(** With no row, the read of the warning state throws. *)
Lemma convert_throws_without_rows (warningStateBound : Z -> bool)
    (text : string) (h : Host) (dataView : DataView)
    (md : DataViewMetadata) (cols : list DataViewMetadataColumn) :
  metadata dataView = Some md -> columns md = Some cols ->
  tableRows dataView = [] ->
  warningStateBound (warningStateCol (scanColumns cols 0 initialScan))
  = true ->
  convert warningStateBound text h dataView = TypeError.
Proof.
  intros Hmd Hcols Hrows Hguard. unfold convert.
  rewrite Hmd. cbn [defined bind]. rewrite Hcols. cbn [defined bind].
  rewrite Hrows. cbn [convertRows]. now rewrite Hguard.
Qed.

End ConverterFacts.


(** ** How [update] composes *)

Section UpdateComposition.

(** [visual.ts]'s footer is drawn for every top series that is not empty. *)
Lemma Visual_drawBottomContainer_returns (h : Host) (size : DualKpiSize)
    (data : IDualKpiData)
    (chartWidth chartHeight chartTitleSpace chartSpaceBetween
       iconOffset : number) :
  d_topValues data <> [] ->
  exists bottomContainer,
    Visual.drawBottomContainer h size data chartWidth chartHeight
      chartTitleSpace chartSpaceBetween iconOffset = Ok bottomContainer.
Proof.
  intros Hne. unfold Visual.drawBottomContainer.
  destruct (iconMetrics _ _ _) as [[iconWidth iconScale] iconY].
  rewrite js_index_last. destruct (last_is_Some _ Hne) as [lastPoint ->].
  cbn [defined bind].
  destruct (d_topValues data) as [|first rest]; [contradiction|].
  cbn [js_index Z.ltb Z.compare Z.to_nat lookup list_lookup defined bind].
  unfold staleAndRange. eauto.
Qed.

(** [visual.ts]'s [update] returns the rendering made of what the converter,
    the two [drawChart] calls and [drawBottomContainer] return. *)
Lemma Visual_update_Ok (h : Host) (options : VisualUpdateOptions)
    (dataView : DataView) (md : DataViewMetadata)
    (cols : list DataViewMetadataColumn) (data : IDualKpiData)
    (topChart bottomChart : ChartView) (bottomContainer : BottomView) :
  dataViews options !! 0%nat = Some dataView ->
  metadata dataView = Some md -> columns md = Some cols ->
  Visual.converter h dataView = Ok data ->
  Visual.drawChart h (size (layout (viewport options))) data (Num 0)
    (chartWidth (layout (viewport options)))
    (chartHeight (layout (viewport options))) (d_topValues data)
    (d_topChartName data) (d_topValueAsPercent data)
    (d_topChartToolTipText data)
    (mkAxisConfig (d_topChartAxisMin data) (d_topChartAxisMax data))
    (getPercentChangeStartPoint (d_topValues data)
       (Some (d_topPercentCalcDate data)))
    (d_abbreviateValues data) (d_topChartType data) (d_topChartZeroLine data)
  = Ok topChart ->
  Visual.drawChart h (size (layout (viewport options))) data
    (JS.add (chartHeight (layout (viewport options)))
       (chartSpaceBetween (layout (viewport options))))
    (chartWidth (layout (viewport options)))
    (chartHeight (layout (viewport options))) (d_bottomValues data)
    (d_bottomChartName data) (d_bottomValueAsPercent data)
    (d_bottomChartToolTipText data)
    (mkAxisConfig (d_bottomChartAxisMin data) (d_bottomChartAxisMax data))
    (getPercentChangeStartPoint (d_bottomValues data)
       (Some (d_bottomPercentCalcDate data)))
    (d_abbreviateValues data) (d_bottomChartType data)
    (d_bottomChartZeroLine data)
  = Ok bottomChart ->
  Visual.drawBottomContainer h (size (layout (viewport options))) data
    (chartWidth (layout (viewport options)))
    (chartHeight (layout (viewport options)))
    (chartTitleSpace (layout (viewport options)))
    (chartSpaceBetween (layout (viewport options)))
    (iconOffset (layout (viewport options))) = Ok bottomContainer ->
  Visual.update h options =
    Ok (Rendered (layout (viewport options)) (Some topChart)
          (Some bottomChart) bottomContainer).
Proof.
  intros Hdv Hmd Hcols Hc Ht Hb Hf. unfold Visual.update.
  rewrite Hdv, Hmd, Hcols, Hc. cbn [bind].
  rewrite Ht. cbn [bind]. rewrite Hb. cbn [bind]. rewrite Hf. reflexivity.
Qed.

End UpdateComposition.


(** ** The converter: warning state, alignment of the series, percentages *)

Section ConverterClaims.

(** In the later revision the warning state is the cell of the last row in
    the last column that carries the role, and 0 when no column does; a
    table with no row makes the read throw when the role is bound. *)
Lemma Revised_converter_warningState (h : Host) (dataView : DataView)
    (md : DataViewMetadata) (cols : list DataViewMetadataColumn) :
  metadata dataView = Some md -> columns md = Some cols ->
  (forall pre col post lastRow,
      cols = pre ++ col :: post ->
      hasRole col "warningstate" = true ->
      Forall (fun col => hasRole col "warningstate" = false) post ->
      last (tableRows dataView) = Some lastRow ->
      exists data,
        Revised.converter h dataView = Ok data /\
        d_warningState data = cell lastRow (Z.of_nat (length pre))) /\
  (Forall (fun col => hasRole col "warningstate" = false) cols ->
   exists data,
     Revised.converter h dataView = Ok data /\
     d_warningState data = JNumber (Num 0)).
Proof.
  intros Hmd Hcols. split.
  - intros pre col post lastRow -> Hcol Hpost Hlast.
    pose proof (scanColumns_warning_last pre post col initialScan Hcol Hpost)
      as Hidx.
    assert (Hne : tableRows dataView <> []).
    { intros E. rewrite E in Hlast. discriminate Hlast. }
    destruct (convert_returns (fun c => c >? -1) "Warning message" h
                dataView md _ Hmd Hcols (or_introl Hne)) as [data Hdata].
    exists data. split; [exact Hdata|].
    apply convert_Ok in Hdata.
    destruct Hdata as (md' & cols' & Hmd' & Hcols' & _ & _ & _ & _ & Hw).
    rewrite Hmd in Hmd'. injection Hmd' as <-.
    rewrite Hcols in Hcols'. injection Hcols' as <-.
    rewrite Hidx in Hw.
    destruct (Z.of_nat (length pre) >? -1) eqn:Hgt; [|lia].
    destruct Hw as (lastRow' & Hlast' & Hw).
    rewrite Hlast in Hlast'. injection Hlast' as <-. exact Hw.
  - intros Hnone.
    pose proof (scanColumns_warning_absent cols 0 initialScan Hnone) as Hidx.
    cbn [warningStateCol initialScan] in Hidx.
    destruct (convert_returns (fun c => c >? -1) "Warning message" h
                dataView md _ Hmd Hcols) as [data Hdata].
    { right. now rewrite Hidx. }
    exists data. split; [exact Hdata|].
    apply convert_Ok in Hdata.
    destruct Hdata as (md' & cols' & Hmd' & Hcols' & _ & _ & _ & _ & Hw).
    rewrite Hmd in Hmd'. injection Hmd' as <-.
    rewrite Hcols in Hcols'. injection Hcols' as <-.
    now rewrite Hidx in Hw.
Qed.

(** C1, at the inputs where [visual.ts] departs from it.  With the
    warning-state role on column 0 and -1 in the last row, [visual.ts]
    leaves the warning state at 0 (the later revision reads -1); with no
    warning-state column, [visual.ts] reads index -1 of the last row and
    stores [undefined] (the later revision keeps 0). *)
Theorem Visual_converter_warningState_slip (h : Host) :
  (exists data, Visual.converter h warningFirstView = Ok data /\
                d_warningState data = JNumber (Num 0)) /\
  (exists data, Revised.converter h warningFirstView = Ok data /\
                d_warningState data = JNumber (Num (-1))) /\
  (exists data, Visual.converter h noWarningView = Ok data /\
                d_warningState data = JUndefined) /\
  (exists data, Revised.converter h noWarningView = Ok data /\
                d_warningState data = JNumber (Num 0)).
Proof.
  repeat split; eexists;
    (split; [vm_compute; reflexivity | vm_compute; reflexivity]).
Qed.

(** C9.  Whatever the table, the two series a converter returns have one
    point per row, and at every index the top and the bottom point carry
    the same date. *)
Theorem converter_series_aligned (h : Host) (dataView : DataView)
    (data : IDualKpiData) :
  Visual.converter h dataView = Ok data \/
  Revised.converter h dataView = Ok data ->
  length (d_topValues data) = length (tableRows dataView) /\
  length (d_bottomValues data) = length (tableRows dataView) /\
  (forall (i : nat) (p q : IDualKpiDataPoint),
      d_topValues data !! i = Some p -> d_bottomValues data !! i = Some q ->
      date p = date q).
Proof.
  intros Hor.
  assert (Hex : exists cols tp bp,
             d_topValues data =
               (convertRows h (scanColumns cols 0 initialScan) tp bp 0
                  (tableRows dataView)).1 /\
             d_bottomValues data =
               (convertRows h (scanColumns cols 0 initialScan) tp bp 0
                  (tableRows dataView)).2).
  { destruct Hor as [Hc|Hc]; apply convert_Ok in Hc;
      destruct Hc as (md & cols & _ & _ & _ & _ & Ht & Hb & _);
      eauto. }
  destruct Hex as (cols & tp & bp & -> & ->).
  destruct (convertRows_length h (scanColumns cols 0 initialScan) tp bp
              (tableRows dataView) 0) as [Hlt Hlb].
  split; [exact Hlt|]. split; [exact Hlb|].
  intros i p q Hp Hq.
  pose proof (convertRows_same_date h (scanColumns cols 0 initialScan) tp bp
                (tableRows dataView) 0) as Hdates.
  assert (Hpd : map date (convertRows h (scanColumns cols 0 initialScan)
                            tp bp 0 (tableRows dataView)).1 !! i
                = Some (date p))
    by (rewrite list_lookup_fmap, Hp; reflexivity).
  assert (Hqd : map date (convertRows h (scanColumns cols 0 initialScan)
                            tp bp 0 (tableRows dataView)).2 !! i
                = Some (date q))
    by (rewrite list_lookup_fmap, Hq; reflexivity).
  rewrite Hdates in Hpd. congruence.
Qed.

Lemma converter_series_aligned_witness :
  exists data,
    (Visual.converter sampleHost percentView = Ok data \/
     Revised.converter sampleHost percentView = Ok data) /\
    length (d_topValues data) = length (tableRows percentView) /\
    length (d_bottomValues data) = length (tableRows percentView) /\
    (forall (i : nat) (p q : IDualKpiDataPoint),
        d_topValues data !! i = Some p ->
        d_bottomValues data !! i = Some q ->
        date p = date q).
Proof.
  destruct (Visual.converter sampleHost percentView) as [data|] eqn:E;
    [|vm_compute in E; discriminate E].
  exists data. split; [left; reflexivity|].
  apply (converter_series_aligned sampleHost percentView data).
  left. exact E.
Defined.

End ConverterClaims.


(** ** Values shown as percentages *)

Section PercentValues.

Local Open Scope Q_scope.




(** The round trip is one of doubles, not of exact fractions: the raw value
    0.0015 is stored as the double just below 0.15 and shown as "0.1%",
    where the exact 0.15 would round to "0.2%". *)
Example percent_round_trip_in_doubles :
  percentFormatter
    (JS.fdiv (JS.mul (Num (JS.double (15 # 10000))) (Num 100)) (Num 100))
    false = "0.1%" /\
  JS.toFixed 1 (Num (15 # 100)) = "0.2" /\
  shown_tenths 1 = "0.1%" /\ shown_tenths 287 = "28.7%".
Proof. repeat split; vm_compute; reflexivity. Qed.

End PercentValues.


(** ** The Y axis of a panel *)

Section AxisTicks.

Local Open Scope Q_scope.






(** With no number in the array, [d3.min] and [d3.max] answer no number. *)
Lemma d3_min_no_number (l : list number) :
  Forall (fun v => v = NaN) l -> D3.min l = NaN.
Proof.
  induction 1 as [|v l -> _ IH]; [reflexivity|]. cbn [D3.min JS.ge]. exact IH.
Qed.

Lemma d3_max_no_number (l : list number) :
  Forall (fun v => v = NaN) l -> D3.max l = NaN.
Proof.
  induction 1 as [|v l -> _ IH]; [reflexivity|]. cbn [D3.max JS.ge]. exact IH.
Qed.


(** What [drawChart] returns: it needs a last point and a reference point,
    and the axis it configures is read off the arguments. *)
Lemma drawChartWith_Ok (observed : number -> number) (h : Host)
    (size : DualKpiSize) (data : IDualKpiData) (top width height : number)
    (chartData : list IDualKpiDataPoint) (chartTitle : string)
    (valueAsPercent : bool) (tooltipText : string)
    (axisConfig : IAxisConfig)
    (percentChangeStartPoint : option IDualKpiDataPoint)
    (abbreviateValue : bool) (chartType : string) (showZeroLine : bool)
    (view : ChartView) :
  drawChartWith observed h size data top width height chartData chartTitle
    valueAsPercent tooltipText axisConfig percentChangeStartPoint
    abbreviateValue chartType showZeroLine = Ok view ->
  chartData <> [] /\
  axisMinValue view =
    match min axisConfig with
    | Some m => m
    | None => observed (D3.min (map value chartData))
    end /\
  axisMaxValue view =
    match max axisConfig with
    | Some m => m
    | None => observed (D3.max (map value chartData))
    end /\
  tickValues view = [axisMinValue view; axisMaxValue view] /\
  tickLabels view = map (tickFormat valueAsPercent) (tickValues view).
Proof.
  unfold drawChartWith. rewrite js_index_last. intros Hd.
  destruct (last chartData) as [lastPoint|] eqn:Elast;
    cbn [defined bind] in Hd; [|discriminate Hd].
  assert (Hne : chartData <> [])
    by (intros ->; discriminate Elast).
  destruct (bool_decide (chartType = "area"));
    (destruct percentChangeStartPoint as [startPoint|];
     cbn [defined bind] in Hd; [|discriminate Hd]);
    destruct valueAsPercent; injection Hd as <-;
    (split; [exact Hne|]); repeat split; reflexivity.
Qed.

(** [drawChart] returns a view for a series that is not empty, given its
    reference point. *)
Lemma drawChartWith_returns (observed : number -> number) (h : Host)
    (size : DualKpiSize) (data : IDualKpiData) (top width height : number)
    (chartData : list IDualKpiDataPoint) (chartTitle : string)
    (valueAsPercent : bool) (tooltipText : string)
    (axisConfig : IAxisConfig) (startPoint : IDualKpiDataPoint)
    (abbreviateValue : bool) (chartType : string) (showZeroLine : bool) :
  chartData <> [] ->
  exists view,
    drawChartWith observed h size data top width height chartData
      chartTitle valueAsPercent tooltipText axisConfig (Some startPoint)
      abbreviateValue chartType showZeroLine = Ok view.
Proof.
  intros Hne. unfold drawChartWith. rewrite js_index_last.
  destruct (last_is_Some _ Hne) as [lastPoint ->]. cbn [defined bind].
  destruct (bool_decide (chartType = "area")), valueAsPercent; eauto.
Qed.



End AxisTicks.


(** A series that stays at 1234 gets one tick, and a series from 1234 to
    5678 two. *)
Example drawChart_flat_series_one_tick :
  (exists view,
      Visual.drawChart sampleHost large defaultData (Num 0) (Num 300)
        (Num (429 # 2))
        [mkPoint (mkDate (Num 0)) (Num 1234);
         mkPoint (mkDate (Num 86400000)) (Num 1234)] "Sales" false ""
        (mkAxisConfig None None)
        (Some (mkPoint (mkDate (Num 0)) (Num 1234))) false "area" false
      = Ok view /\
      tickValues view = [Num 1234; Num 1234] /\
      axisTicks view = [(Num 1234, "1.2k")]) /\
  (exists view,
      thousandsChart = Ok view /\
      axisTicks view = [(Num 1234, "1.2k"); (Num 5678, "5.7k")]).
Proof.
  split; eexists; repeat split; vm_compute; reflexivity.
Qed.


Example spec_scenario_ticks :
  exists l topChart bottomChart bottomContainer,
    Visual.update sampleHost
      (optionsOf 300 500
         (dataViewOf
            [columnWithRole "axis" None; columnWithRole "topvalues" None]
            [[Num 0; Num 10]; [Num 86400000; Num 20]]))
    = Ok (Rendered l (Some topChart) bottomChart bottomContainer) /\
    size l = large /\
    tickValues topChart = [Num 10; Num 20] /\
    tickLabels topChart = ["10"; "20"].
Proof.
  do 4 eexists. do 3 (split; [vm_compute; reflexivity|]).
  vm_compute; reflexivity.
Qed.


(** ** [update] on a table with no row *)

Section EmptySeries.

Lemma convertRows_nil (h : Host) (c : ColumnScan) (tp bp : bool) (i : nat) :
  convertRows h c tp bp i [] = ([], []).
Proof. reflexivity. Qed.

Lemma convert_Ok_without_rows (warningStateBound : Z -> bool)
    (text : string) (h : Host) (dataView : DataView)
    (data : IDualKpiData) :
  tableRows dataView = [] ->
  convert warningStateBound text h dataView = Ok data ->
  d_topValues data = [] /\ d_bottomValues data = [].
Proof.
  intros Hrows Hc. apply convert_Ok in Hc.
  destruct Hc as (md & cols & _ & _ & _ & _ & Ht & Hb & _).
  rewrite Hrows in Ht, Hb. now split.
Qed.

(** [drawChart] reads the latest value first, and throws on an empty
    series. *)
Lemma drawChartWith_empty (observed : number -> number) (h : Host)
    (size : DualKpiSize) (data : IDualKpiData) (top width height : number)
    (chartTitle : string) (valueAsPercent : bool) (tooltipText : string)
    (axisConfig : IAxisConfig)
    (percentChangeStartPoint : option IDualKpiDataPoint)
    (abbreviateValue : bool) (chartType : string) (showZeroLine : bool) :
  drawChartWith observed h size data top width height [] chartTitle
    valueAsPercent tooltipText axisConfig percentChangeStartPoint
    abbreviateValue chartType showZeroLine = TypeError.
Proof. reflexivity. Qed.

(** [visual.ts] has no test for an empty series: on a table with no row
    [update] throws, in the converter or else in [drawChart]. *)
Lemma Visual_update_throws_without_rows (h : Host)
    (options : VisualUpdateOptions) (dataView : DataView)
    (md : DataViewMetadata) (cols : list DataViewMetadataColumn) :
  dataViews options !! 0%nat = Some dataView ->
  metadata dataView = Some md -> columns md = Some cols ->
  tableRows dataView = [] ->
  Visual.update h options = TypeError.
Proof.
  intros Hdv Hmd Hcols Hrows. unfold Visual.update.
  rewrite Hdv, Hmd, Hcols.
  destruct (Visual.converter h dataView) as [data|] eqn:Hc;
    cbn [bind]; [|reflexivity].
  destruct (convert_Ok_without_rows (fun c => negb (c =? 0)) "Error"
              h dataView data Hrows Hc) as [Ht Hb].
  rewrite Ht. unfold Visual.drawChart. now rewrite drawChartWith_empty.
Qed.

(** The later revision throws on a table with no row when a column is
    bound to the warning state: the converter reads the last row before
    any test for an empty series is made. *)
Lemma Revised_update_throws_without_rows (h : Host)
    (options : VisualUpdateOptions) (dataView : DataView)
    (md : DataViewMetadata)
    (pre post : list DataViewMetadataColumn)
    (col : DataViewMetadataColumn) :
  dataViews options !! 0%nat = Some dataView ->
  metadata dataView = Some md ->
  columns md = Some (pre ++ col :: post) ->
  hasRole col "warningstate" = true ->
  Forall (fun col => hasRole col "warningstate" = false) post ->
  tableRows dataView = [] ->
  Revised.update h options = TypeError.
Proof.
  intros Hdv Hmd Hcols Hcol Hpost Hrows. unfold Revised.update.
  rewrite Hdv, Hmd, Hcols. unfold Revised.converter.
  rewrite (convert_throws_without_rows _ _ h dataView md _ Hmd Hcols Hrows).
  - reflexivity.
  - rewrite (scanColumns_warning_last pre post col initialScan Hcol Hpost).
    destruct (Z.gtb_spec (Z.of_nat (length pre)) (-1)); [reflexivity|lia].
Qed.

(** With no column bound to the warning state, the later revision
    completes on a table with no row: no panel is drawn, and the footer
    has neither the info icon nor the day range. *)
Lemma Revised_update_without_rows (h : Host)
    (options : VisualUpdateOptions) (dataView : DataView)
    (md : DataViewMetadata) (cols : list DataViewMetadataColumn) :
  dataViews options !! 0%nat = Some dataView ->
  metadata dataView = Some md -> columns md = Some cols ->
  Forall (fun col => hasRole col "warningstate" = false) cols ->
  tableRows dataView = [] ->
  exists bottomContainer,
    Revised.update h options =
      Ok (Rendered (layout (viewport options)) None None bottomContainer) /\
    infoIcon bottomContainer = None /\
    dayRange bottomContainer = None.
Proof.
  intros Hdv Hmd Hcols Hnone Hrows. unfold Revised.update.
  rewrite Hdv, Hmd, Hcols.
  destruct (convert_returns (fun c => c >? -1) "Warning message" h
              dataView md cols Hmd Hcols) as [data Hc].
  { right. now rewrite (scanColumns_warning_absent cols 0 initialScan Hnone). }
  unfold Revised.converter. rewrite Hc. cbn [bind].
  destruct (convert_Ok_without_rows (fun c => c >? -1) "Warning message"
              h dataView data Hrows Hc) as [Ht Hb].
  rewrite Ht, Hb. cbn [length Nat.ltb Nat.leb bind].
  unfold Revised.drawBottomContainer. rewrite Ht.
  destruct (iconMetrics _ _ _) as [[iconWidth iconScale] iconY].
  cbn [length Nat.ltb Nat.leb bind].
  eexists. split; [reflexivity|]. split; reflexivity.
Qed.

Lemma columnWithRole_hasRole (role other : string) (f : option string) :
  hasRole (columnWithRole role f) other = bool_decide (role = other).
Proof.
  unfold hasRole, columnWithRole. cbn [roles].
  destruct (decide (role = other)) as [->|Hne].
  - rewrite lookup_singleton_eq. now rewrite !bool_decide_eq_true_2.
  - rewrite lookup_singleton_ne by exact Hne.
    now rewrite !bool_decide_eq_false_2.
Qed.

(** C2, at the inputs where the code departs from it.  On a table with no
    row and a column bound to the warning state, [update] of the later
    revision throws (in the converter), and so does [update] of
    [visual.ts]; [visual.ts] also throws when no column is bound to the
    warning state, where the later revision completes with no panel drawn
    and neither info icon nor day range in the footer. *)
Theorem update_without_rows (h : Host) (width height : Q) :
  Revised.update h (optionsOf width height warningNoRowsView) = TypeError /\
  Visual.update h (optionsOf width height warningNoRowsView) = TypeError /\
  Visual.update h (optionsOf width height noRowsView) = TypeError /\
  (exists bottomContainer,
      Revised.update h (optionsOf width height noRowsView) =
        Ok (Rendered (layout (mkViewport (Num width) (Num height)))
              None None bottomContainer) /\
      infoIcon bottomContainer = None /\
      dayRange bottomContainer = None).
Proof.
  split; [|split; [|split]].
  - eapply (Revised_update_throws_without_rows h _ warningNoRowsView _
              [columnWithRole "axis" None] []
              (columnWithRole "warningstate" None));
      [reflexivity | reflexivity | reflexivity | vm_compute; reflexivity
      | constructor | reflexivity].
  - eapply (Visual_update_throws_without_rows h _ warningNoRowsView);
      reflexivity.
  - eapply (Visual_update_throws_without_rows h _ noRowsView); reflexivity.
  - eapply (Revised_update_without_rows h
              (optionsOf width height noRowsView) noRowsView);
      [reflexivity | reflexivity | reflexivity | | reflexivity].
    repeat (constructor; [vm_compute; reflexivity|]). constructor.
Qed.

End EmptySeries.

(** ** Format symbols *)

Section FormatSymbol.

Lemma append_nil_l (b : string) : "" +:+ b = b.
Proof. reflexivity. Qed.

Lemma append_cons (c : ascii) (a b : string) :
  String c a +:+ b = String c (a +:+ b).
Proof. reflexivity. Qed.

Lemma prefix_app (a b : string) : String.prefix a (a +:+ b) = true.
Proof.
  induction a as [|c a IH]; [now destruct b|].
  rewrite append_cons. simpl.
  destruct (ascii_dec c c) as [_|Hne]; [exact IH | contradiction].
Qed.

Lemma prefix_split (a s : string) :
  String.prefix a s = true -> exists b, s = a +:+ b.
Proof.
  revert s. induction a as [|c a IH]; intros s H.
  - now exists s.
  - destruct s as [|c' s]; [discriminate H|]. simpl in H.
    destruct (ascii_dec c c') as [<-|_]; [|discriminate H].
    destruct (IH s H) as [b ->]. now exists b.
Qed.

Lemma find_symbol_None (s : string) :
  find (fun symbol => String.prefix symbol s) symbolPatterns = None ->
  forall symbol, symbol ∈ symbolPatterns -> String.prefix symbol s = false.
Proof.
  intros Hfind symbol Hin. apply list_elem_of_In in Hin.
  exact (find_none _ _ Hfind symbol Hin).
Qed.

Lemma firstSymbol_unfold (s : string) :
  firstSymbol s =
  match find (fun symbol => String.prefix symbol s) symbolPatterns with
  | Some symbol => Some symbol
  | None =>
      match s with
      | EmptyString => None
      | String _ rest => firstSymbol rest
      end
  end.
Proof. destruct s; reflexivity. Qed.

(** X1.  [getFormatSymbol] returns the leftmost symbol of the format: the text
    before it holds no symbol, and a format with no symbol at all gives
    [undefined]. *)
Theorem getFormatSymbol_leftmost (format : string) :
  match getFormatSymbol (Some format) with
  | Some symbol =>
      symbol ∈ symbolPatterns /\
      exists before after,
        format = before +:+ symbol +:+ after /\
        (forall a b sym,
            before = a +:+ b -> b <> "" -> sym ∈ symbolPatterns ->
            String.prefix sym (b +:+ symbol +:+ after) = false)
  | None => symbol_free format
  end.
Proof.
  cbn [getFormatSymbol].
  induction format as [|c rest IH]; rewrite firstSymbol_unfold.
  - simpl. intros a b symbol Hs Hin.
    destruct a; [|discriminate Hs]. rewrite append_nil_l in Hs. subst b.
    apply (find_symbol_None ""); [reflexivity | exact Hin].
  - destruct (find _ symbolPatterns) as [symbol|] eqn:Hfind.
    + apply find_some in Hfind. destruct Hfind as [Hin Hpre].
      split; [now apply list_elem_of_In|].
      destruct (prefix_split _ _ Hpre) as [after Hafter].
      exists "", after. split; [exact Hafter|].
      intros a b sym Hab Hb.
      destruct a; [rewrite append_nil_l in Hab; congruence | discriminate].
    + pose proof (find_symbol_None _ Hfind) as Hhere.
      destruct (firstSymbol rest) as [symbol|].
      * destruct IH as (Hin & before & after & Hsplit & Hfree).
        split; [exact Hin|].
        exists (String c before), after.
        split; [rewrite append_cons; now rewrite Hsplit|].
        intros a b sym Hab Hb Hsym.
        destruct a as [|c' a'].
        -- rewrite append_nil_l in Hab. subst b.
           rewrite append_cons, <- Hsplit. now apply Hhere.
        -- rewrite append_cons in Hab. injection Hab as _ Hab.
           now apply (Hfree a' b sym).
      * intros a b symbol Hab Hin.
        destruct a as [|c' a'].
        -- rewrite append_nil_l in Hab. subst b. now apply Hhere.
        -- rewrite append_cons in Hab. injection Hab as _ Hab.
           now apply (IH a' b symbol).
Qed.

(** A currency symbol ahead of the percent sign wins: such a column is not
    taken as a percentage. *)
Example getFormatSymbol_currency_first :
  getFormatSymbol (Some "$#,0.00;($#,0.00) %") = Some "$" /\
  getFormatSymbol (Some "0.00 %;-0.00 %") = Some "%" /\
  getFormatSymbol (Some "#,0") = None /\
  getFormatSymbol None = None.
Proof. repeat split; vm_compute; reflexivity. Qed.

End FormatSymbol.

(** ** Days between two dates *)

Section DaysBetween.

Local Open Scope Q_scope.

Lemma getDaysBetween_Num (x y : Q) :
  getDaysBetween (mkDate (Num x)) (mkDate (Num y)) =
  JS.of_Z (Qfloor (Qabs (x - y) / (24 * 60 * 60 * 1000) + (1 # 2))).
Proof.
  unfold getDaysBetween, JS.round, JS.div, JS.abs, JS.sub, JS.lift2.
  cbn [getTime].
  change (Qeq_bool (24 * 60 * 60 * 1000) 0) with false.
  reflexivity.
Qed.

(** X2.  [getDaysBetween] does not depend on the order of its arguments. *)
Theorem getDaysBetween_sym (date1 date2 : Date) :
  getDaysBetween date1 date2 = getDaysBetween date2 date1.
Proof.
  destruct date1 as [[x|]], date2 as [[y|]]; try reflexivity.
  rewrite !getDaysBetween_Num. f_equal. apply Qfloor_comp.
  assert (E : Qabs (x - y) == Qabs (y - x)).
  { rewrite <- (Qabs_opp (y - x)).
    assert (E' : - (y - x) == x - y) by ring. now rewrite E'. }
  now rewrite E.
Qed.

(** For dates given by whole milliseconds, the count is the distance in
    milliseconds plus half a day, divided by one day (integer division). *)
Lemma getDaysBetween_of_Z (t1 t2 : Z) :
  getDaysBetween (mkDate (JS.of_Z t1)) (mkDate (JS.of_Z t2)) =
  JS.of_Z ((Z.abs (t1 - t2) + 43200000) / 86400000).
Proof.
  unfold JS.of_Z at 1 2. rewrite getDaysBetween_Num. f_equal.
  assert (E : Qabs (inject_Z t1 - inject_Z t2) / (24 * 60 * 60 * 1000)
              + (1 # 2)
              == (Z.abs (t1 - t2) + 43200000) # 86400000).
  { assert (Ed : inject_Z t1 - inject_Z t2 == inject_Z (t1 - t2)).
    { unfold Z.sub. rewrite inject_Z_plus, inject_Z_opp. reflexivity. }
    rewrite Ed.
    change (Qabs (inject_Z (t1 - t2))) with (inject_Z (Z.abs (t1 - t2))).
    assert (Ec : 24 * 60 * 60 * 1000 == inject_Z 86400000) by reflexivity.
    rewrite Ec.
    unfold Qeq, Qdiv, Qplus, Qmult, Qinv, inject_Z; cbn [Qnum Qden].
    lia. }
  rewrite (Qfloor_comp _ _ E). reflexivity.
Qed.

(** X3.  For dates given by whole milliseconds, the count is the whole number
    of days nearest to their distance, half a day counting as a full one:
    dates less than half a day apart are 0 days apart. *)
Theorem getDaysBetween_whole (t1 t2 : Z) :
  exists n : Z,
    getDaysBetween (mkDate (JS.of_Z t1)) (mkDate (JS.of_Z t2)) = JS.of_Z n /\
    (0 <= n)%Z /\
    (n * 86400000 - 43200000 <= Z.abs (t1 - t2) < n * 86400000 + 43200000)%Z.
Proof.
  exists ((Z.abs (t1 - t2) + 43200000) / 86400000)%Z.
  split; [apply getDaysBetween_of_Z|].
  pose proof (Z.div_mod (Z.abs (t1 - t2) + 43200000) 86400000 ltac:(lia)).
  pose proof (Z.mod_pos_bound (Z.abs (t1 - t2) + 43200000) 86400000
                ltac:(lia)).
  split; [apply Z.div_pos; lia | lia].
Qed.

Example getDaysBetween_ten_days :
  getDaysBetween (mkDate (Num 86400000)) (mkDate (Num 950400000)) = Num 10 /\
  getDaysBetween (mkDate (Num 0)) (mkDate (Num 43199999)) = Num 0 /\
  getDaysBetween (mkDate (Num 0)) (mkDate (Num 43200000)) = Num 1 /\
  getDaysBetween (mkDate NaN) (mkDate (Num 0)) = NaN.
Proof. repeat split; vm_compute; reflexivity. Qed.

End DaysBetween.

(** ** The sign of a formatted percentage *)

Section PercentFormatter.

Local Open Scope Q_scope.

(** X4.  With [showPlusMinus] a value that is not negative is printed with a
    plus sign and a negative value with a minus sign only; without it no
    plus sign is printed.  The digits are those of the unsigned double
    product of the value and 100, with one decimal. *)
Theorem percentFormatter_sign (v : Q) :
  (0 <= v ->
   percentFormatter (Num v) true =
     "+" +:+ JS.toFixed_abs 1 (JS.double (v * 100)) +:+ "%" /\
   percentFormatter (Num v) false =
     JS.toFixed_abs 1 (JS.double (v * 100)) +:+ "%") /\
  (v < 0 ->
   percentFormatter (Num v) true =
     "-" +:+ JS.toFixed_abs 1 (- JS.double (v * 100)) +:+ "%" /\
   percentFormatter (Num v) false =
     "-" +:+ JS.toFixed_abs 1 (- JS.double (v * 100)) +:+ "%").
Proof.
  split; intros Hv.
  - split.
    + exact (percentFormatter_nonneg v true Hv).
    + exact (percentFormatter_nonneg v false Hv).
  - split.
    + exact (percentFormatter_neg v true Hv).
    + exact (percentFormatter_neg v false Hv).
Qed.

(** The raw value 0.0015 (its double) times 100 is the double just below
    0.15 and is printed as "0.1%". *)
Example percentFormatter_rounds_as_doubles :
  percentFormatter (Num (JS.double (15 # 10000))) true = "+0.1%" /\
  percentFormatter (Num (-1 # 4)) true = "-25.0%" /\
  percentFormatter (Num (1 # 4)) false = "25.0%".
Proof. repeat split; vm_compute; reflexivity. Qed.

End PercentFormatter.

(** ** The reference point, for any date *)

Section StartPointGeneral.

Local Open Scope Q_scope.

(** The loop's index is the one it was given or an index it visited. *)
Lemma closestIndex_from_range (t : number) (l : list IDualKpiDataPoint) :
  forall i closestIndex : nat,
    closestIndex_from l t i closestIndex = closestIndex \/
    (i <= closestIndex_from l t i closestIndex < i + length l)%nat.
Proof.
  induction l as [|p rest IH]; intros i c; [now left|].
  cbn [closestIndex_from length].
  destruct (JS.strict_eq (getTime (date p)) t); [right; lia|].
  destruct (JS.lt (getTime (date p)) t); [|now left].
  destruct (IH (S i) i) as [->|Hr]; right; lia.
Qed.

(** A series that is not empty has a reference point, which is one of its
    points. *)
Lemma getPercentChangeStartPoint_Some (chartData : list IDualKpiDataPoint)
    (percentCalcDate : option Date) :
  chartData <> [] ->
  exists p, getPercentChangeStartPoint chartData percentCalcDate = Some p /\
            p ∈ chartData.
Proof.
  intros Hne. destruct chartData as [|first rest]; [contradiction|].
  destruct percentCalcDate as [d|]; cbn [getPercentChangeStartPoint].
  - destruct (closestIndex_from_range (getTime d) (first :: rest) 0 0)
      as [E|Hr].
    + rewrite E. exists first. split; [reflexivity | left].
    + destruct (lookup_lt_is_Some_2 (first :: rest)
                  (closestIndex_from (first :: rest) (getTime d) 0 0))
        as [p Hp]; [lia|].
      exists p. split; [exact Hp|]. eapply list_elem_of_lookup_2, Hp.
  - exists first. split; [reflexivity | left].
Qed.

(** X5.  Whatever the configured date (a date, an invalid date or [null]) and
    whatever the order of the series, the reference point of a series that
    is not empty is one of its points; only the empty series has none. *)
Theorem getPercentChangeStartPoint_in_series
    (chartData : list IDualKpiDataPoint) (percentCalcDate : option Date) :
  (chartData = [] ->
   getPercentChangeStartPoint chartData percentCalcDate = None) /\
  (chartData <> [] ->
   exists p, getPercentChangeStartPoint chartData percentCalcDate = Some p /\
             p ∈ chartData).
Proof.
  split.
  - intros ->. now destruct percentCalcDate.
  - apply getPercentChangeStartPoint_Some.
Qed.

Lemma lt_not_strict_eq (a b : number) :
  JS.lt a b = true -> JS.strict_eq a b = false /\ JS.lt b a = false.
Proof.
  destruct a as [x|], b as [y|]; cbn; try discriminate.
  intros H. apply Qltb_lt in H. split.
  - apply Qeq_bool_false. intros E. rewrite E in H. exact (Qlt_irrefl _ H).
  - apply Qltb_ge. now apply Qlt_le_weak.
Qed.

Lemma lt_trans_number (a b c : number) :
  JS.lt a b = true -> JS.lt b c = true -> JS.lt a c = true.
Proof.
  destruct a as [x|], b as [y|], c as [z|]; cbn; try discriminate.
  intros H1 H2. apply Qltb_lt in H1, H2. apply Qltb_lt.
  now apply Qlt_trans with y.
Qed.

(** Over strictly ascending dates the loop stops on the last point older
    than the configured time, when the next point (if any) is more
    recent. *)
Lemma closestIndex_from_older (t : number) (l : list IDualKpiDataPoint) :
  forall (i closestIndex k : nat) (p : IDualKpiDataPoint),
    strictly_ascending l ->
    l !! k = Some p ->
    JS.lt (getTime (date p)) t = true ->
    (forall q, l !! S k = Some q -> JS.lt t (getTime (date q)) = true) ->
    closestIndex_from l t i closestIndex = (i + k)%nat.
Proof.
  induction l as [|q0 rest IH]; intros i c k p Hsorted Hk Hlt Hnext.
  - discriminate Hk.
  - apply StronglySorted_inv in Hsorted. destruct Hsorted as [Hrest Hall].
    destruct k as [|k']; cbn in Hk.
    + injection Hk as ->.
      destruct (lt_not_strict_eq _ _ Hlt) as [Hne _].
      cbn [closestIndex_from]. rewrite Hne, Hlt.
      destruct rest as [|q rest']; [cbn; lia|].
      specialize (Hnext q eq_refl).
      destruct (lt_not_strict_eq _ _ Hnext) as [Hne' Hnlt].
      cbn [closestIndex_from].
      assert (Hne'' : JS.strict_eq (getTime (date q)) t = false).
      { destruct (getTime (date q)) as [x|], t as [y|]; cbn in *;
          try reflexivity.
        apply Qeq_bool_false. intros E. apply Qltb_lt in Hnext.
        rewrite E in Hnext. exact (Qlt_irrefl _ Hnext). }
      rewrite Hne'', Hnlt. lia.
    + assert (Hq0 : date_lt q0 p).
      { rewrite Forall_forall in Hall. apply Hall.
        eapply list_elem_of_lookup_2. exact Hk. }
      pose proof (lt_trans_number _ _ _ Hq0 Hlt) as Hq0t.
      destruct (lt_not_strict_eq _ _ Hq0t) as [Hne _].
      cbn [closestIndex_from]. rewrite Hne, Hq0t.
      rewrite (IH (S i) i k' p Hrest Hk Hlt Hnext). lia.
Qed.

(** X6.  For a series with strictly ascending dates: a configured date that
    falls after the point at index [i] and before the next point (or after
    the last point) selects the point at index [i], the last one older than
    the date; a date before the first point selects the first point. *)
Theorem getPercentChangeStartPoint_closest_older
    (S : list IDualKpiDataPoint) (D : Date) :
  strictly_ascending S ->
  (forall (i : nat) (p : IDualKpiDataPoint),
      S !! i = Some p ->
      JS.lt (getTime (date p)) (getTime D) = true ->
      (forall q, S !! (i + 1)%nat = Some q ->
                 JS.lt (getTime D) (getTime (date q)) = true) ->
      getPercentChangeStartPoint S (Some D) = Some p) /\
  (forall first : IDualKpiDataPoint,
      S !! 0%nat = Some first ->
      JS.lt (getTime D) (getTime (date first)) = true ->
      getPercentChangeStartPoint S (Some D) = Some first).
Proof.
  intros Hsorted. split.
  - intros i p Hi Hlt Hnext. unfold getPercentChangeStartPoint.
    rewrite (closestIndex_from_older (getTime D) S 0 0 i p Hsorted Hi Hlt).
    + exact Hi.
    + intros q Hq. apply Hnext. now rewrite Nat.add_1_r.
  - intros first Hfirst Hlt. unfold getPercentChangeStartPoint.
    destruct S as [|p rest]; [discriminate Hfirst|].
    cbn in Hfirst. injection Hfirst as ->.
    destruct (lt_not_strict_eq _ _ Hlt) as [_ Hnlt].
    assert (Hne : JS.strict_eq (getTime (date first)) (getTime D) = false).
    { destruct (getTime (date first)) as [x|], (getTime D) as [y|];
        cbn in *; try reflexivity.
      apply Qeq_bool_false. intros E. apply Qltb_lt in Hlt.
      rewrite E in Hlt. exact (Qlt_irrefl _ Hlt). }
    cbn [closestIndex_from]. now rewrite Hne, Hnlt.
Qed.

Lemma getPercentChangeStartPoint_closest_older_witness :
  strictly_ascending sampleSeries /\
  getPercentChangeStartPoint sampleSeries (Some (mkDate (Num 100000000)))
  = Some (mkPoint (mkDate (Num 86400000)) (Num 20)).
Proof.
  assert (Hs : strictly_ascending sampleSeries).
  { unfold strictly_ascending, sampleSeries.
    repeat (constructor; [|repeat constructor]); constructor. }
  split; [exact Hs|].
  apply (proj1 (getPercentChangeStartPoint_closest_older sampleSeries
                  (mkDate (Num 100000000)) Hs) 1%nat).
  - reflexivity.
  - reflexivity.
  - intros q Hq. cbn in Hq. injection Hq as <-. reflexivity.
Defined.

End StartPointGeneral.

(** ** The heights of the layout *)

Section LayoutHeights.

Local Open Scope Q_scope.

Lemma layout_chartWidth (vp : IViewport) :
  chartWidth (layout vp) = availableWidth (layout vp).
Proof.
  unfold layout.
  destruct (JS.ge _ _); [|destruct (JS.ge _ _); [|destruct (JS.ge _ _)]];
    reflexivity.
Qed.

(** The numbers of a layout: the clamped height [H] and width [W], the
    panels' height [c], the spacing [s] and the title block [t]. *)
Lemma layout_numbers (w h : Q) :
  exists H W c s t : Q,
    availableHeight (layout (mkViewport (Num w) (Num h))) = Num H /\
    availableWidth (layout (mkViewport (Num w) (Num h))) = Num W /\
    chartWidth (layout (mkViewport (Num w) (Num h))) = Num W /\
    chartHeight (layout (mkViewport (Num w) (Num h))) = Num c /\
    chartSpaceBetween (layout (mkViewport (Num w) (Num h))) = Num s /\
    chartTitleSpace (layout (mkViewport (Num w) (Num h))) = Num t /\
    c + c + s + t == H /\ 33 <= c /\ 90 <= H /\ 220 <= W /\
    0 < s /\ 0 < t.
Proof.
  assert (HW : exists W,
    availableWidth (layout (mkViewport (Num w) (Num h))) = Num W /\
    220 <= W).
  { rewrite (proj2 (layout_available _)). cbn [width JS.lt].
    destruct (JS.Qltb w 220) eqn:Hw.
    - exists 220. split; [reflexivity | discriminate].
    - exists w. split; [reflexivity | now apply Qltb_ge]. }
  destruct HW as (W & HW & HWge).
  assert (HH : exists H c s t : Q,
    availableHeight (layout (mkViewport (Num w) (Num h))) = Num H /\
    chartHeight (layout (mkViewport (Num w) (Num h))) = Num c /\
    chartSpaceBetween (layout (mkViewport (Num w) (Num h))) = Num s /\
    chartTitleSpace (layout (mkViewport (Num w) (Num h))) = Num t /\
    c + c + s + t == H /\ 33 <= c /\ 90 <= H /\ 0 < s /\ 0 < t).
  { unfold layout. cbn [height width JS.lt JS.ge].
    destruct (JS.Qltb h 90) eqn:Hh.
    - cbn. exists 90, ((90 - (6 + 18)) / 2), 6, 18.
      repeat split; try reflexivity; try discriminate.
    - apply Qltb_ge in Hh. cbn [JS.ge].
      destruct (Qle_bool 450 h) eqn:H1;
        [|destruct (Qle_bool 280 h) eqn:H2;
          [|destruct (Qle_bool 120 h) eqn:H3]];
        cbn -[Qdiv Qminus Qplus];
        change (Qeq_bool 2 0) with false; cbn iota;
        eexists h, _, _, _;
        (split; [reflexivity|]); (split; [reflexivity|]);
        (split; [reflexivity|]); (split; [reflexivity|]);
        repeat match goal with
               | H : Qle_bool _ _ = true |- _ => apply Qle_bool_iff in H
               | H : Qle_bool _ _ = false |- _ => apply Qle_bool_false in H
               end;
        (split; [field|]);
        (split; [apply Qle_shift_div_l; lra|]);
        (split; [lra|]); split; reflexivity. }
  destruct HH as (H & c & s & t & HH & Hc & Hs & Ht & Hsum & Hcge & HHge
                  & Hspos & Htpos).
  exists H, W, c, s, t. rewrite layout_chartWidth.
  repeat (split; [assumption|]). assumption.
Qed.

(** X7.  Whatever the viewport, the two panels get the same height, which is at
    least 33, and twice that height plus the spacing and the title block is
    the clamped height of the viewport. *)
Theorem layout_heights_add_up (w h : Q) :
  exists H c s t : Q,
    availableHeight (layout (mkViewport (Num w) (Num h))) = Num H /\
    chartHeight (layout (mkViewport (Num w) (Num h))) = Num c /\
    chartSpaceBetween (layout (mkViewport (Num w) (Num h))) = Num s /\
    chartTitleSpace (layout (mkViewport (Num w) (Num h))) = Num t /\
    c + c + s + t == H /\ 33 <= c /\ 90 <= H.
Proof.
  destruct (layout_numbers w h)
    as (H & W & c & s & t & HH & _ & _ & Hc & Hs & Ht & Hsum & Hcge & HHge
        & _).
  exists H, c, s, t. repeat (split; [assumption|]). assumption.
Qed.

End LayoutHeights.

(** ** The converter's role binding *)

Section RoleBinding.

Local Opaque hasRole getFormatSymbol.

Lemma scanColumn_topChartName (s : ColumnScan) (i : Z)
    (col : DataViewMetadataColumn) :
  topChartName (scanColumn s i col) =
  if hasRole col "topvalues" then displayName col else topChartName s.
Proof.
  unfold scanColumn.
  destruct (hasRole col "axis"), (hasRole col "topvalues"),
    (hasRole col "bottomvalues"), (hasRole col "warningstate"),
    (hasRole col "toppercentdate"), (hasRole col "bottompercentdate");
    reflexivity.
Qed.

Lemma scanColumn_axisCol (s : ColumnScan) (i : Z)
    (col : DataViewMetadataColumn) :
  axisCol (scanColumn s i col) =
  if hasRole col "axis" then i else axisCol s.
Proof.
  unfold scanColumn.
  destruct (hasRole col "axis"), (hasRole col "topvalues"),
    (hasRole col "bottomvalues"), (hasRole col "warningstate"),
    (hasRole col "toppercentdate"), (hasRole col "bottompercentdate");
    reflexivity.
Qed.

Local Transparent hasRole getFormatSymbol.

Lemma scanColumns_topChartName_absent (cols : list DataViewMetadataColumn) :
  forall (i : Z) (s : ColumnScan),
    Forall (fun col => hasRole col "topvalues" = false) cols ->
    topChartName (scanColumns cols i s) = topChartName s.
Proof.
  induction cols as [|col rest IH]; intros i s Hall; [reflexivity|].
  apply Forall_cons in Hall as [Hcol Hrest]. cbn [scanColumns].
  rewrite (IH _ _ Hrest), scanColumn_topChartName, Hcol. reflexivity.
Qed.

Lemma scanColumns_topChartName_last
    (pre post : list DataViewMetadataColumn) (col : DataViewMetadataColumn)
    (s : ColumnScan) :
  hasRole col "topvalues" = true ->
  Forall (fun col => hasRole col "topvalues" = false) post ->
  topChartName (scanColumns (pre ++ col :: post) 0 s) = displayName col.
Proof.
  intros Hcol Hpost. rewrite scanColumns_app. cbn [scanColumns].
  rewrite (scanColumns_topChartName_absent _ _ _ Hpost),
    scanColumn_topChartName, Hcol. reflexivity.
Qed.

Lemma scanColumns_axis_absent (cols : list DataViewMetadataColumn) :
  forall (i : Z) (s : ColumnScan),
    Forall (fun col => hasRole col "axis" = false) cols ->
    axisCol (scanColumns cols i s) = axisCol s.
Proof.
  induction cols as [|col rest IH]; intros i s Hall; [reflexivity|].
  apply Forall_cons in Hall as [Hcol Hrest]. cbn [scanColumns].
  rewrite (IH _ _ Hrest), scanColumn_axisCol, Hcol. reflexivity.
Qed.

(** The values of the top series, row by row. *)
Lemma convertRows_top_values (h : Host) (c : ColumnScan) (tp bp : bool)
    (rows : list (list number)) :
  forall i : nat,
    map value (convertRows h c tp bp i rows).1 =
    map (fun row =>
           let read :=
             ToNumber (if topValuesCol c >? -1
                       then cell row (topValuesCol c)
                       else JNumber (Num 0)) in
           if tp then JS.mul read (Num 100) else read)
        rows.
Proof.
  induction rows as [|row rest IH]; intros i; [reflexivity|].
  cbn [convertRows]. specialize (IH (S i)).
  destruct (convertRows h c tp bp (S i) rest) as [tops bottoms].
  cbn [fst map value] in *. rewrite IH. reflexivity.
Qed.

(** The dates of the top series, row by row. *)
Lemma convertRows_top_dates (h : Host) (c : ColumnScan) (tp bp : bool)
    (rows : list (list number)) :
  forall (i k : nat) (p : IDualKpiDataPoint),
    (convertRows h c tp bp i rows).1 !! k = Some p ->
    exists row,
      rows !! k = Some row /\
      date p =
        if axisCol c >? -1 then newDate (cell row (axisCol c))
        else nowAtRow h (i + k).
Proof.
  induction rows as [|row rest IH]; intros i k p; [discriminate|].
  cbn [convertRows]. specialize (IH (S i)).
  destruct (convertRows h c tp bp (S i) rest) as [tops bottoms].
  cbn [fst] in *. destruct k as [|k]; cbn [lookup list_lookup].
  - intros [= <-]. exists row. split; [reflexivity|]. cbn [date].
    rewrite Nat.add_0_r. reflexivity.
  - intros Hk. destruct (IH k p Hk) as (row' & Hrow & Hdate).
    exists row'. split; [exact Hrow|]. rewrite Hdate.
    replace (i + S k)%nat with (S i + k)%nat by lia. reflexivity.
Qed.

(** What a snapshot the converter returns holds in the fields the column
    scan and the rows fill. *)
Lemma convert_Ok_scan (warningStateBound : Z -> bool) (text : string)
    (h : Host) (dataView : DataView) (md : DataViewMetadata)
    (cols : list DataViewMetadataColumn) (data : IDualKpiData) :
  metadata dataView = Some md -> columns md = Some cols ->
  convert warningStateBound text h dataView = Ok data ->
  d_topChartName data = topChartName (scanColumns cols 0 initialScan) /\
  d_topValueAsPercent data =
    bool_decide
      (topValueFormatSymbol (scanColumns cols 0 initialScan) = Some "%") /\
  d_topValues data =
    (convertRows h (scanColumns cols 0 initialScan)
       (d_topValueAsPercent data) (d_bottomValueAsPercent data) 0
       (tableRows dataView)).1 /\
  d_warningTooltipText data =
    getValue (objects md) dualKpiProperties warningTooltipText text /\
  (if warningStateBound (warningStateCol (scanColumns cols 0 initialScan))
   then exists lastRow,
          last (tableRows dataView) = Some lastRow /\
          d_warningState data =
            cell lastRow (warningStateCol (scanColumns cols 0 initialScan))
   else d_warningState data = JNumber (Num 0)).
Proof.
  unfold convert. intros -> Hcols Hc. cbn [defined bind] in Hc.
  rewrite Hcols in Hc. cbn [defined bind] in Hc.
  destruct (convertRows h (scanColumns cols 0 initialScan) _ _ 0
              (tableRows dataView)) as [tops bottoms] eqn:Erows.
  destruct (warningStateBound (warningStateCol _)) eqn:Eguard.
  - rewrite js_index_last in Hc.
    destruct (last (tableRows dataView)) as [lastRow|];
      cbn [defined bind] in Hc; [|discriminate Hc].
    injection Hc as <-.
    cbn [d_topChartName d_topValueAsPercent d_bottomValueAsPercent
         d_topValues d_warningTooltipText d_warningState].
    rewrite Erows. repeat split. eauto.
  - cbn [bind] in Hc. injection Hc as <-.
    cbn [d_topChartName d_topValueAsPercent d_bottomValueAsPercent
         d_topValues d_warningTooltipText d_warningState].
    rewrite Erows. repeat split.
Qed.

(** The same fields, for either revision's converter. *)
Lemma converter_top_fields (h : Host) (dataView : DataView)
    (md : DataViewMetadata) (cols : list DataViewMetadataColumn)
    (data : IDualKpiData) :
  metadata dataView = Some md -> columns md = Some cols ->
  Visual.converter h dataView = Ok data \/
  Revised.converter h dataView = Ok data ->
  d_topChartName data = topChartName (scanColumns cols 0 initialScan) /\
  d_topValueAsPercent data =
    bool_decide
      (topValueFormatSymbol (scanColumns cols 0 initialScan) = Some "%") /\
  d_topValues data =
    (convertRows h (scanColumns cols 0 initialScan)
       (d_topValueAsPercent data) (d_bottomValueAsPercent data) 0
       (tableRows dataView)).1.
Proof.
  intros Hmd Hcols [Hc|Hc].
  - destruct (convert_Ok_scan (fun c => negb (c =? 0)) "Error" h dataView md
                cols data Hmd Hcols Hc) as (Hn & Hp & Hv & _); auto.
  - destruct (convert_Ok_scan (fun c => c >? -1) "Warning message" h dataView
                md cols data Hmd Hcols Hc) as (Hn & Hp & Hv & _); auto.
Qed.

(** X8.  A role bound to several columns is taken from the last of them.  In
    both revisions the top series gets the display name of the last column
    with the role [topvalues], is flagged as percentages exactly when the
    first symbol of that column's format is the percent sign, and reads
    every row's value at that column's index, times 100 when flagged. *)
Theorem converter_top_series_of_last_column (h : Host) (dataView : DataView)
    (md : DataViewMetadata) (pre post : list DataViewMetadataColumn)
    (col : DataViewMetadataColumn) (data : IDualKpiData) :
  metadata dataView = Some md ->
  columns md = Some (pre ++ col :: post) ->
  hasRole col "topvalues" = true ->
  Forall (fun later => hasRole later "topvalues" = false) post ->
  Visual.converter h dataView = Ok data \/
  Revised.converter h dataView = Ok data ->
  d_topChartName data = displayName col /\
  d_topValueAsPercent data =
    bool_decide (getFormatSymbol (format col) = Some "%") /\
  map value (d_topValues data) =
    map (fun row =>
           let read := ToNumber (cell row (Z.of_nat (length pre))) in
           if d_topValueAsPercent data then JS.mul read (Num 100) else read)
        (tableRows dataView).
Proof.
  intros Hmd Hcols Hcol Hpost Hc.
  destruct (converter_top_fields h dataView md _ data Hmd Hcols Hc)
    as (Hn & Hp & Hv).
  destruct (scanColumns_top_last pre post col initialScan Hcol Hpost)
    as [Hidx Hsym].
  rewrite Hn, Hp, Hsym.
  rewrite (scanColumns_topChartName_last pre post col initialScan Hcol Hpost).
  split; [reflexivity|]. split; [reflexivity|].
  rewrite Hv at 1. rewrite convertRows_top_values, Hidx, Hp, Hsym.
  replace (Z.of_nat (length pre) >? -1) with true
    by (symmetry; apply Z.gtb_lt; lia).
  reflexivity.
Qed.

Lemma converter_top_series_of_last_column_witness :
  exists data,
    Revised.converter sampleHost twoTopColumnsView = Ok data /\
    d_topChartName data = "Actual" /\
    d_topValueAsPercent data = bool_decide (Some "%" = Some "%") /\
    map value (d_topValues data) =
      map (fun row =>
             let read := ToNumber (cell row 2) in
             if d_topValueAsPercent data then JS.mul read (Num 100) else read)
          (tableRows twoTopColumnsView).
Proof.
  destruct (Revised.converter sampleHost twoTopColumnsView) as [data|] eqn:E;
    [|vm_compute in E; discriminate E].
  exists data. split; [reflexivity|].
  apply (converter_top_series_of_last_column sampleHost twoTopColumnsView
           (mkMetadata
              (Some [columnWithRole "axis" None;
                     mkColumn (Some {[ "topvalues" := true ]}) "Plan" None;
                     mkColumn (Some {[ "topvalues" := true ]}) "Actual"
                       (Some "0 %")]) None)
           [columnWithRole "axis" None;
            mkColumn (Some {[ "topvalues" := true ]}) "Plan" None] []
           (mkColumn (Some {[ "topvalues" := true ]}) "Actual" (Some "0 %"))
           data).
  - reflexivity.
  - reflexivity.
  - reflexivity.
  - constructor.
  - right. exact E.
Defined.

(** X9.  Roles that no column carries get the defaults.  In both revisions,
    with no [topvalues] column the top series has the empty name, is not a
    percent series and holds the value 0 at every row; with no [axis] column
    the point of row [i] is dated by the clock when row [i] is read. *)
Theorem converter_defaults_of_missing_roles (h : Host) (dataView : DataView)
    (md : DataViewMetadata) (cols : list DataViewMetadataColumn)
    (data : IDualKpiData) :
  metadata dataView = Some md ->
  columns md = Some cols ->
  Visual.converter h dataView = Ok data \/
  Revised.converter h dataView = Ok data ->
  (Forall (fun col => hasRole col "topvalues" = false) cols ->
   d_topChartName data = "" /\ d_topValueAsPercent data = false /\
   Forall (fun p => value p = Num 0) (d_topValues data)) /\
  (Forall (fun col => hasRole col "axis" = false) cols ->
   forall (i : nat) (p : IDualKpiDataPoint),
     d_topValues data !! i = Some p -> date p = nowAtRow h i).
Proof.
  intros Hmd Hcols Hc.
  destruct (converter_top_fields h dataView md _ data Hmd Hcols Hc)
    as (Hn & Hp & Hv). split.
  - intros Hnone.
    destruct (scanColumns_top_absent cols 0 initialScan Hnone) as [Hidx Hsym].
    rewrite Hn, (scanColumns_topChartName_absent cols 0 initialScan Hnone).
    assert (Hflag : d_topValueAsPercent data = false)
      by (rewrite Hp, Hsym; reflexivity).
    split; [reflexivity|]. split; [exact Hflag|].
    apply Forall_forall. intros p Hin.
    assert (Hval : value p ∈ map value (d_topValues data))
      by (apply list_elem_of_fmap; eauto).
    rewrite Hv, convertRows_top_values, Hidx, Hflag in Hval.
    cbn [initialScan topValuesCol Z.gtb Z.compare ToNumber] in Hval.
    apply list_elem_of_fmap in Hval as (row & -> & _). reflexivity.
  - intros Hnone i p Hp'. rewrite Hv in Hp'.
    destruct (convertRows_top_dates _ _ _ _ _ _ _ _ Hp')
      as (row & _ & Hdate).
    rewrite Hdate, (scanColumns_axis_absent cols 0 initialScan Hnone).
    reflexivity.
Qed.

Lemma converter_defaults_of_missing_roles_witness :
  exists data,
    Visual.converter sampleHost bottomOnlyView = Ok data /\
    (d_topChartName data = "" /\ d_topValueAsPercent data = false /\
     Forall (fun p => value p = Num 0) (d_topValues data)) /\
    (forall (i : nat) (p : IDualKpiDataPoint),
        d_topValues data !! i = Some p -> date p = nowAtRow sampleHost i).
Proof.
  destruct (Visual.converter sampleHost bottomOnlyView) as [data|] eqn:E;
    [|vm_compute in E; discriminate E].
  exists data. split; [reflexivity|].
  assert (Htop : Forall (fun col => hasRole col "topvalues" = false)
                   [columnWithRole "bottomvalues" None])
    by (constructor; [reflexivity | constructor]).
  assert (Haxis : Forall (fun col => hasRole col "axis" = false)
                    [columnWithRole "bottomvalues" None])
    by (constructor; [reflexivity | constructor]).
  destruct (converter_defaults_of_missing_roles sampleHost bottomOnlyView
              (mkMetadata (Some [columnWithRole "bottomvalues" None]) None)
              [columnWithRole "bottomvalues" None] data eq_refl eq_refl
              (or_introl E)) as [Hvalues Hdates].
  split; [exact (Hvalues Htop) | exact (Hdates Haxis)].
Defined.

End RoleBinding.

(** ** How [update] composes *)

Section UpdateInversion.

(** The later revision's [update], read backwards: a rendering comes from
    the converter's snapshot, the layout of the viewport, a panel for each
    series that is not empty and the footer. *)
Lemma Revised_update_Rendered (h : Host) (options : VisualUpdateOptions)
    (l : Layout) (topChart bottomChart : option ChartView)
    (bottomContainer : BottomView) :
  Revised.update h options =
    Ok (Rendered l topChart bottomChart bottomContainer) ->
  exists dataView md cols data,
    dataViews options !! 0%nat = Some dataView /\
    metadata dataView = Some md /\ columns md = Some cols /\
    Revised.converter h dataView = Ok data /\
    l = layout (viewport options) /\
    (d_topValues data = [] /\ topChart = None \/
     d_topValues data <> [] /\
     exists chart, drawTop Revised.drawChart h l data = Ok chart /\
                   topChart = Some chart) /\
    (d_bottomValues data = [] /\ bottomChart = None \/
     d_bottomValues data <> [] /\
     exists chart, drawBottom Revised.drawChart h l data = Ok chart /\
                   bottomChart = Some chart) /\
    drawFooter Revised.drawBottomContainer h l data = Ok bottomContainer.
Proof.
  intros Hu.
  change (Revised.update h options) with
    (match dataViews options !! 0%nat with
     | None => Ok Cleared
     | Some dataView =>
         match metadata dataView with
         | None => Ok Cleared
         | Some md =>
             match columns md with
             | None => Ok Cleared
             | Some _ =>
                 let* data := Revised.converter h dataView in
                 let l := layout (viewport options) in
                 let* topChart :=
                   if (0 <? length (d_topValues data))%nat
                   then let* chart := drawTop Revised.drawChart h l data in
                        Ok (Some chart)
                   else Ok None in
                 let* bottomChart :=
                   if (0 <? length (d_bottomValues data))%nat
                   then let* chart := drawBottom Revised.drawChart h l data in
                        Ok (Some chart)
                   else Ok None in
                 let* bottomContainer :=
                   drawFooter Revised.drawBottomContainer h l data in
                 Ok (Rendered l topChart bottomChart bottomContainer)
             end
         end
     end) in Hu.
  destruct (dataViews options !! 0%nat) as [dataView|]; [|discriminate Hu].
  destruct (metadata dataView) as [md|] eqn:Hmd; [|discriminate Hu].
  destruct (columns md) as [cols|] eqn:Hcols; [|discriminate Hu].
  destruct (Revised.converter h dataView) as [data|] eqn:Hc;
    cbn [bind] in Hu; [|discriminate Hu].
  cbv zeta in Hu.
  set (l0 := layout (viewport options)) in *.
  assert (Htop : exists t0,
    (d_topValues data = [] /\ t0 = None \/
     d_topValues data <> [] /\
     exists chart, drawTop Revised.drawChart h l0 data = Ok chart /\
                   t0 = Some chart) /\
    (let* bottomChart :=
       if (0 <? length (d_bottomValues data))%nat
       then let* chart := drawBottom Revised.drawChart h l0 data in
            Ok (Some chart)
       else Ok None in
     let* bottomContainer :=
       drawFooter Revised.drawBottomContainer h l0 data in
     Ok (Rendered l0 t0 bottomChart bottomContainer)) =
    Ok (Rendered l topChart bottomChart bottomContainer)).
  { destruct (d_topValues data) as [|p0 tops] eqn:Ht.
    - exists None. split; [left; split; reflexivity | exact Hu].
    - cbn [length Nat.ltb Nat.leb] in Hu.
      destruct (drawTop Revised.drawChart h l0 data) as [chart|] eqn:Et;
        cbn [bind] in Hu; [|discriminate Hu].
      exists (Some chart). split; [|exact Hu].
      right. split; [discriminate | exists chart; split; reflexivity]. }
  clear Hu. destruct Htop as (t0 & Htop & Hu).
  assert (Hbot : exists b0,
    (d_bottomValues data = [] /\ b0 = None \/
     d_bottomValues data <> [] /\
     exists chart, drawBottom Revised.drawChart h l0 data = Ok chart /\
                   b0 = Some chart) /\
    (let* bottomContainer :=
       drawFooter Revised.drawBottomContainer h l0 data in
     Ok (Rendered l0 t0 b0 bottomContainer)) =
    Ok (Rendered l topChart bottomChart bottomContainer)).
  { destruct (d_bottomValues data) as [|p0 bottoms] eqn:Hb.
    - exists None. split; [left; split; reflexivity | exact Hu].
    - cbn [length Nat.ltb Nat.leb] in Hu.
      destruct (drawBottom Revised.drawChart h l0 data) as [chart|] eqn:Eb;
        cbn [bind] in Hu; [|discriminate Hu].
      exists (Some chart). split; [|exact Hu].
      right. split; [discriminate | exists chart; split; reflexivity]. }
  clear Hu. destruct Hbot as (b0 & Hbot & Hu).
  destruct (drawFooter Revised.drawBottomContainer h l0 data)
    as [footer|] eqn:Ef; cbn [bind] in Hu; [|discriminate Hu].
  injection Hu as <- <- <- <-.
  exists dataView, md, cols, data.
  repeat (split; [reflexivity || assumption|]). exact Ef.
Qed.

(** [visual.ts]'s [update], read backwards: both panels are drawn. *)
Lemma Visual_update_Rendered (h : Host) (options : VisualUpdateOptions)
    (l : Layout) (topChart bottomChart : option ChartView)
    (bottomContainer : BottomView) :
  Visual.update h options =
    Ok (Rendered l topChart bottomChart bottomContainer) ->
  exists dataView md cols data top bottom,
    dataViews options !! 0%nat = Some dataView /\
    metadata dataView = Some md /\ columns md = Some cols /\
    Visual.converter h dataView = Ok data /\
    l = layout (viewport options) /\
    drawTop Visual.drawChart h l data = Ok top /\ topChart = Some top /\
    drawBottom Visual.drawChart h l data = Ok bottom /\
    bottomChart = Some bottom /\
    drawFooter Visual.drawBottomContainer h l data = Ok bottomContainer.
Proof.
  unfold Visual.update. intros Hu.
  destruct (dataViews options !! 0%nat) as [dataView|]; [|discriminate Hu].
  destruct (metadata dataView) as [md|] eqn:Hmd; [|discriminate Hu].
  destruct (columns md) as [cols|] eqn:Hcols; [|discriminate Hu].
  destruct (Visual.converter h dataView) as [data|] eqn:Hc;
    cbn [bind] in Hu; [|discriminate Hu].
  fold (drawTop Visual.drawChart h (layout (viewport options)) data) in Hu.
  fold (drawBottom Visual.drawChart h (layout (viewport options)) data) in Hu.
  fold (drawFooter Visual.drawBottomContainer h (layout (viewport options))
          data) in Hu.
  destruct (drawTop _ _ _ _) as [top|] eqn:Et;
    cbn [bind] in Hu; [|discriminate Hu].
  destruct (drawBottom _ _ _ _) as [bottom|] eqn:Eb;
    cbn [bind] in Hu; [|discriminate Hu].
  destruct (drawFooter _ _ _ _) as [footer|] eqn:Ef;
    cbn [bind] in Hu; [|discriminate Hu].
  injection Hu as <- <- <- <-.
  exists dataView, md, cols, data, top, bottom.
  repeat (split; [reflexivity || assumption|]). exact Ef.
Qed.

End UpdateInversion.

(** ** What [update] renders *)

Section Renderings.

(** The footer, read backwards, in either revision: the warning icon is
    [warningIconOf]; the info icon and the day range are those of
    [staleAndRange] on the first and last points of the top series, and are
    missing when the series is empty (which only the later revision
    survives). *)
Lemma drawBottomContainer_Ok (h : Host) (size : DualKpiSize)
    (data : IDualKpiData)
    (chartWidth chartHeight chartTitleSpace chartSpaceBetween
       iconOffset : number) (footer : BottomView) :
  Visual.drawBottomContainer h size data chartWidth chartHeight
    chartTitleSpace chartSpaceBetween iconOffset = Ok footer \/
  Revised.drawBottomContainer h size data chartWidth chartHeight
    chartTitleSpace chartSpaceBetween iconOffset = Ok footer ->
  warningIcon footer = warningIconOf data /\
  match d_topValues data with
  | [] => infoIcon footer = None /\ dayRange footer = None
  | first :: _ =>
      exists lastPoint,
        last (d_topValues data) = Some lastPoint /\
        infoIcon footer =
          (staleAndRange h data chartWidth (iconWidth footer) first
             lastPoint).1 /\
        dayRange footer =
          Some (staleAndRange h data chartWidth (iconWidth footer) first
                  lastPoint).2
  end.
Proof.
  unfold Visual.drawBottomContainer, Revised.drawBottomContainer.
  destruct (iconMetrics size chartTitleSpace iconOffset)
    as [[iconWidth0 iconScale] iconY0].
  rewrite js_index_last.
  destruct (d_topValues data) as [|first rest] eqn:Etop.
  - cbn [last defined bind length Nat.ltb Nat.leb].
    intros [Hf|Hf]; [discriminate Hf|]. injection Hf as <-.
    repeat split.
  - cbn [length Nat.ltb Nat.leb].
    destruct (last_is_Some (first :: rest)) as [lastPoint Hlast];
      [discriminate|].
    rewrite Hlast.
    cbn [js_index Z.ltb Z.compare Z.to_nat lookup list_lookup defined bind].
    unfold staleAndRange.
    intros [Hf|Hf]; injection Hf as <-;
      (split; [reflexivity|]); exists lastPoint;
      cbn [infoIcon dayRange iconWidth]; repeat split; reflexivity.
Qed.

(** The geometry of a drawn panel. *)
Lemma drawChartWith_geometry (observed : number -> number) (h : Host)
    (size : DualKpiSize) (data : IDualKpiData) (top width height : number)
    (chartData : list IDualKpiDataPoint) (chartTitle : string)
    (valueAsPercent : bool) (tooltipText : string)
    (axisConfig : IAxisConfig)
    (percentChangeStartPoint : option IDualKpiDataPoint)
    (abbreviateValue : bool) (chartType : string) (showZeroLine : bool)
    (view : ChartView) :
  drawChartWith observed h size data top width height chartData chartTitle
    valueAsPercent tooltipText axisConfig percentChangeStartPoint
    abbreviateValue chartType showZeroLine = Ok view ->
  groupLeft view =
    match size with
    | medium | large => Num 40
    | _ => Num 30
    end /\
  groupTop view = JS.add top (Num 5) /\
  calcWidth view = JS.sub (JS.sub width (Num 0)) (groupLeft view) /\
  calcHeight view = JS.sub (JS.sub height (Num 5)) (Num 0).
Proof.
  unfold drawChartWith. rewrite js_index_last. intros Hd.
  destruct (last chartData) as [lastPoint|];
    cbn [defined bind] in Hd; [|discriminate Hd].
  destruct (bool_decide (chartType = "area"));
    (destruct percentChangeStartPoint as [startPoint|];
     cbn [defined bind] in Hd; [|discriminate Hd]);
    destruct valueAsPercent; injection Hd as <-; repeat split.
Qed.

End Renderings.

(** ** What [update] renders *)

Section RenderingProperties.

(** The series of a snapshot have one point per row. *)
Lemma converter_series_length (h : Host) (dataView : DataView)
    (data : IDualKpiData) :
  Visual.converter h dataView = Ok data \/
  Revised.converter h dataView = Ok data ->
  length (d_topValues data) = length (tableRows dataView) /\
  length (d_bottomValues data) = length (tableRows dataView).
Proof.
  intros Hc.
  assert (Hs : exists c tp bp,
    d_topValues data = (convertRows h c tp bp 0 (tableRows dataView)).1 /\
    d_bottomValues data = (convertRows h c tp bp 0 (tableRows dataView)).2).
  { destruct Hc as [Hc|Hc]; apply convert_Ok in Hc;
      destruct Hc as (md & cols & _ & _ & _ & _ & Ht & Hb & _); eauto. }
  destruct Hs as (c & tp & bp & -> & ->). apply convertRows_length.
Qed.

(** [visual.ts] draws a panel for every series that is not empty. *)
Lemma drawPanels_return (h : Host) (l : Layout) (data : IDualKpiData) :
  d_topValues data <> [] -> d_bottomValues data <> [] ->
  (exists top, drawTop Visual.drawChart h l data = Ok top) /\
  (exists bottom, drawBottom Visual.drawChart h l data = Ok bottom).
Proof.
  intros Ht Hb. unfold drawTop, drawBottom.
  destruct (getPercentChangeStartPoint_Some (d_topValues data)
              (Some (d_topPercentCalcDate data)) Ht) as (p & -> & _).
  destruct (getPercentChangeStartPoint_Some (d_bottomValues data)
              (Some (d_bottomPercentCalcDate data)) Hb) as (q & -> & _).
  split; apply drawChartWith_returns; assumption.
Qed.

(** X10.  [visual.ts]'s [update] renders every table that has a row.  With
    a data view, its metadata and columns present and at least one row,
    [update] returns with both panels and the footer drawn, whatever the
    columns, the cells, the formatting and the viewport. *)
Theorem update_renders_tables_with_rows (h : Host)
    (options : VisualUpdateOptions) (dataView : DataView)
    (md : DataViewMetadata) (cols : list DataViewMetadataColumn) :
  dataViews options !! 0%nat = Some dataView ->
  metadata dataView = Some md -> columns md = Some cols ->
  tableRows dataView <> [] ->
  exists top bottom footer,
    Visual.update h options =
      Ok (Rendered (layout (viewport options)) (Some top) (Some bottom)
            footer).
Proof.
  intros Hdv Hmd Hcols Hrows.
  destruct (convert_returns (fun c => negb (c =? 0)) "Error" h dataView md
              cols Hmd Hcols (or_introl Hrows)) as [data Hc].
  destruct (converter_series_length h dataView data (or_introl Hc))
    as [Hlt Hlb].
  assert (Ht : d_topValues data <> []).
  { intros E. rewrite E in Hlt. cbn [length] in Hlt.
    destruct (tableRows dataView); [contradiction | discriminate]. }
  assert (Hb : d_bottomValues data <> []).
  { intros E. rewrite E in Hlb. cbn [length] in Hlb.
    destruct (tableRows dataView); [contradiction | discriminate]. }
  destruct (drawPanels_return h (layout (viewport options)) data Ht Hb)
    as ([top Htop] & [bottom Hbottom]).
  destruct (Visual_drawBottomContainer_returns h
              (size (layout (viewport options))) data
              (chartWidth (layout (viewport options)))
              (chartHeight (layout (viewport options)))
              (chartTitleSpace (layout (viewport options)))
              (chartSpaceBetween (layout (viewport options)))
              (iconOffset (layout (viewport options))) Ht)
    as [footer Hfooter].
  exists top, bottom, footer.
  exact (Visual_update_Ok h options dataView md cols data top bottom footer
           Hdv Hmd Hcols Hc Htop Hbottom Hfooter).
Qed.

Lemma update_renders_tables_with_rows_witness :
  exists top bottom footer,
    Visual.update sampleHost (optionsOf 300 500 twoTopColumnsView) =
      Ok (Rendered (layout (mkViewport (Num 300) (Num 500))) (Some top)
            (Some bottom) footer).
Proof.
  apply (update_renders_tables_with_rows sampleHost
           (optionsOf 300 500 twoTopColumnsView) twoTopColumnsView
           (mkMetadata
              (Some [columnWithRole "axis" None;
                     mkColumn (Some {[ "topvalues" := true ]}) "Plan" None;
                     mkColumn (Some {[ "topvalues" := true ]}) "Actual"
                       (Some "0 %")]) None)
           [columnWithRole "axis" None;
            mkColumn (Some {[ "topvalues" := true ]}) "Plan" None;
            mkColumn (Some {[ "topvalues" := true ]}) "Actual" (Some "0 %")]).
  - reflexivity.
  - reflexivity.
  - reflexivity.
  - discriminate.
Defined.

End RenderingProperties.

Section PanelGeometry.

Local Open Scope Q_scope.

(** X12.  The two panels fit the viewport and do not overlap.  In a
    rendering with both panels, for any viewport with numeric sides: both
    panels have the same left offset and the same drawable area, at least 180
    wide and 28 high; offset and width add up to the clamped width of the
    viewport; the top panel ends above the bottom panel's start, and the
    bottom panel ends inside the clamped height. *)
Theorem panels_fit_the_viewport (h : Host) (w0 h0 : Q)
    (dataViews : list DataView) (l : Layout) (top bottom : ChartView)
    (footer : BottomView) :
  Visual.update h (mkUpdateOptions (mkViewport (Num w0) (Num h0)) dataViews)
  = Ok (Rendered l (Some top) (Some bottom) footer) \/
  Revised.update h (mkUpdateOptions (mkViewport (Num w0) (Num h0)) dataViews)
  = Ok (Rendered l (Some top) (Some bottom) footer) ->
  exists H W x wd y1 h1 y2 h2 : Q,
    availableHeight l = Num H /\ availableWidth l = Num W /\
    groupLeft top = Num x /\ groupLeft bottom = Num x /\
    calcWidth top = Num wd /\ calcWidth bottom = Num wd /\
    groupTop top = Num y1 /\ calcHeight top = Num h1 /\
    groupTop bottom = Num y2 /\ calcHeight bottom = Num h2 /\
    0 < x /\ 180 <= wd /\ x + wd == W /\
    0 < y1 /\ 28 <= h1 /\ y1 + h1 < y2 /\ h2 == h1 /\ y2 + h2 < H.
Proof.
  intros Hu.
  assert (Hdrawn : exists observed data,
    drawTop (drawChartWith observed) h l data = Ok top /\
    drawBottom (drawChartWith observed) h l data = Ok bottom /\
    l = layout (mkViewport (Num w0) (Num h0))).
  { destruct Hu as [Hu|Hu].
    - apply Visual_update_Rendered in Hu.
      destruct Hu as (dv & md & cols & data & top0 & bottom0 & _ & _ & _ & _
                      & Hl & Ht & [= ->] & Hb & [= ->] & _).
      exists (fun observed => observed), data. auto.
    - apply Revised_update_Rendered in Hu.
      destruct Hu as (dv & md & cols & data & _ & _ & _ & _ & Hl & Ht & Hb
                      & _).
      destruct Ht as [[_ Ht]|(_ & top0 & Ht & [= ->])]; [discriminate Ht|].
      destruct Hb as [[_ Hb]|(_ & bottom0 & Hb & [= ->])];
        [discriminate Hb|].
      exists (fun observed => if JS.truthy observed then observed else Num 0),
        data.
      auto. }
  destruct Hdrawn as (observed & data & Ht & Hb & ->).
  apply drawChartWith_geometry in Ht as (Htx & Hty & Htw & Hth).
  apply drawChartWith_geometry in Hb as (Hbx & Hby & Hbw & Hbh).
  destruct (layout_numbers w0 h0)
    as (H & W & c & s & t & HH & HW & HcW & Hc & Hs & Ht & Hsum & Hcge & HHge
        & HWge & Hspos & Htpos).
  rewrite HcW, Hc in *. rewrite Hs in Hby.
  assert (Hx : exists x : Q,
    groupLeft top = Num x /\ groupLeft bottom = Num x /\ 0 < x /\ x <= 40).
  { rewrite Htx, Hbx.
    destruct (size (layout (mkViewport (Num w0) (Num h0))));
      eexists; (split; [reflexivity|]); (split; [reflexivity|]);
      split; reflexivity || discriminate. }
  destruct Hx as (x & Hx1 & Hx2 & Hxpos & Hxle).
  rewrite Hx1 in Htw. rewrite Hx2 in Hbw.
  cbn [JS.add JS.sub JS.lift2] in Hty, Htw, Hth, Hby, Hbw, Hbh.
  exists H, W, x, (W - 0 - x), (0 + 5), (c - 5 - 0), (c + s + 5), (c - 5 - 0).
  repeat (split; [assumption || lra|]). lra.
Qed.

Lemma panels_fit_the_viewport_witness :
  exists (l : Layout) (top bottom : ChartView) (footer : BottomView),
    Visual.update sampleHost (optionsOf 300 500 percentView)
    = Ok (Rendered l (Some top) (Some bottom) footer) /\
    exists H W x wd y1 h1 y2 h2 : Q,
      availableHeight l = Num H /\ availableWidth l = Num W /\
      groupLeft top = Num x /\ groupLeft bottom = Num x /\
      calcWidth top = Num wd /\ calcWidth bottom = Num wd /\
      groupTop top = Num y1 /\ calcHeight top = Num h1 /\
      groupTop bottom = Num y2 /\ calcHeight bottom = Num h2 /\
      0 < x /\ 180 <= wd /\ x + wd == W /\
      0 < y1 /\ 28 <= h1 /\ y1 + h1 < y2 /\ h2 == h1 /\ y2 + h2 < H.
Proof.
  destruct (Visual.update sampleHost (optionsOf 300 500 percentView))
    as [[|l [top|] [bottom|] footer]|] eqn:E;
    try (vm_compute in E; discriminate E).
  exists l, top, bottom, footer. split; [reflexivity|].
  apply (panels_fit_the_viewport sampleHost 300 500 [percentView] l top
           bottom footer).
  left. exact E.
Defined.

End PanelGeometry.

Section FooterIcons.

(** The snapshot behind a rendering of [visual.ts], and its warning icon. *)
Lemma update_warningIcon (h : Host) (options : VisualUpdateOptions)
    (dataView : DataView) (l : Layout) (topChart bottomChart : option ChartView)
    (footer : BottomView) :
  dataViews options !! 0%nat = Some dataView ->
  Visual.update h options = Ok (Rendered l topChart bottomChart footer) ->
  exists data, Visual.converter h dataView = Ok data /\
               warningIcon footer = warningIconOf data.
Proof.
  intros Hdv Hu. apply Visual_update_Rendered in Hu.
  destruct Hu as (dv & md & cols & data & top0 & bottom0 & Hdv' & _ & _
                  & Hc & _ & _ & _ & _ & _ & Hf).
  rewrite Hdv in Hdv'. injection Hdv' as <-. exists data.
  split; [exact Hc|].
  exact (proj1 (drawBottomContainer_Ok h _ data _ _ _ _ _ footer
                  (or_introl Hf))).
Qed.

(** X13.  Without a warning-state column there is no warning icon: a
    rendering by [visual.ts] of a table none of whose columns carries the
    role [warningstate] has no warning icon, whatever the cells hold (the
    state is read at index -1, which reads as no number). *)
Theorem warning_icon_needs_a_column (h : Host)
    (options : VisualUpdateOptions) (dataView : DataView)
    (md : DataViewMetadata) (cols : list DataViewMetadataColumn)
    (l : Layout) (topChart bottomChart : option ChartView)
    (footer : BottomView) :
  dataViews options !! 0%nat = Some dataView ->
  metadata dataView = Some md -> columns md = Some cols ->
  Forall (fun col => hasRole col "warningstate" = false) cols ->
  Visual.update h options = Ok (Rendered l topChart bottomChart footer) ->
  warningIcon footer = None.
Proof.
  intros Hdv Hmd Hcols Hnone Hu.
  destruct (update_warningIcon h options dataView l topChart bottomChart
              footer Hdv Hu) as (data & Hc & ->).
  destruct (convert_Ok_scan (fun c => negb (c =? 0)) "Error" h dataView md
              cols data Hmd Hcols Hc) as (_ & _ & _ & _ & Hw).
  rewrite (scanColumns_warning_absent cols 0 initialScan Hnone) in Hw.
  cbn [initialScan warningStateCol Z.eqb negb] in Hw.
  destruct Hw as (lastRow & _ & Hw).
  unfold warningIconOf. rewrite Hw. reflexivity.
Qed.

Lemma warning_icon_needs_a_column_witness :
  exists (l : Layout) (topChart bottomChart : option ChartView)
         (footer : BottomView),
    Visual.update sampleHost (optionsOf 300 500 percentView)
    = Ok (Rendered l topChart bottomChart footer) /\
    warningIcon footer = None.
Proof.
  destruct (Visual.update sampleHost (optionsOf 300 500 percentView))
    as [[|l topChart bottomChart footer]|] eqn:E;
    try (vm_compute in E; discriminate E).
  exists l, topChart, bottomChart, footer. split; [reflexivity|].
  apply (warning_icon_needs_a_column sampleHost
           (optionsOf 300 500 percentView) percentView
           (mkMetadata
              (Some [columnWithRole "axis" None;
                     columnWithRole "topvalues"
                       (Some "0.00 %;-0.00 %;0.00 %");
                     columnWithRole "bottomvalues" (Some "#,0")]) None)
           [columnWithRole "axis" None;
            columnWithRole "topvalues" (Some "0.00 %;-0.00 %;0.00 %");
            columnWithRole "bottomvalues" (Some "#,0")]
           l topChart bottomChart footer).
  - reflexivity.
  - reflexivity.
  - reflexivity.
  - repeat (constructor; [reflexivity|]). constructor.
  - exact E.
Defined.

(** X14.  The warning icon follows the last row.  When the last column with
    the role [warningstate] is at an index [k] other than 0, a rendering by
    [visual.ts] shows the warning icon exactly when the last row's cell at
    [k] reads as a number below 0, and the icon's tooltip is the configured
    text, "Error" by default. *)
Theorem warning_icon_of_last_row (h : Host)
    (options : VisualUpdateOptions) (dataView : DataView)
    (md : DataViewMetadata) (pre post : list DataViewMetadataColumn)
    (col : DataViewMetadataColumn)
    (l : Layout) (topChart bottomChart : option ChartView)
    (footer : BottomView) :
  dataViews options !! 0%nat = Some dataView ->
  metadata dataView = Some md -> columns md = Some (pre ++ col :: post) ->
  hasRole col "warningstate" = true ->
  Forall (fun later => hasRole later "warningstate" = false) post ->
  pre <> [] ->
  Visual.update h options = Ok (Rendered l topChart bottomChart footer) ->
  exists lastRow,
    last (tableRows dataView) = Some lastRow /\
    warningIcon footer =
      if JS.lt (ToNumber (cell lastRow (Z.of_nat (length pre)))) (Num 0)
      then Some (getValue (objects md) dualKpiProperties warningTooltipText
                   "Error")
      else None.
Proof.
  intros Hdv Hmd Hcols Hcol Hpost Hpre Hu.
  pose proof (scanColumns_warning_last pre post col initialScan Hcol Hpost)
    as Hk.
  destruct (update_warningIcon h options dataView l topChart bottomChart
              footer Hdv Hu) as (data & Hc & ->).
  destruct (convert_Ok_scan (fun c => negb (c =? 0)) "Error" h dataView
              md _ data Hmd Hcols Hc) as (_ & _ & _ & Htext & Hw).
  rewrite Hk in Hw.
  replace (Z.of_nat (length pre) =? 0) with false in Hw
    by (symmetry; apply Z.eqb_neq; destruct pre;
        [contradiction | cbn [length]; lia]).
  cbn [negb] in Hw.
  destruct Hw as (lastRow & Hlast & Hw). exists lastRow.
  split; [exact Hlast|]. unfold warningIconOf. rewrite Hw, Htext.
  reflexivity.
Qed.

Lemma warning_icon_of_last_row_witness :
  exists (l : Layout) (topChart bottomChart : option ChartView)
         (footer : BottomView),
    Visual.update sampleHost (optionsOf 300 500 warningLastView)
    = Ok (Rendered l topChart bottomChart footer) /\
    exists lastRow,
      last (tableRows warningLastView) = Some lastRow /\
      warningIcon footer =
        if JS.lt (ToNumber (cell lastRow 2)) (Num 0)
        then Some "Error" else None.
Proof.
  destruct (Visual.update sampleHost (optionsOf 300 500 warningLastView))
    as [[|l topChart bottomChart footer]|] eqn:E;
    try (vm_compute in E; discriminate E).
  exists l, topChart, bottomChart, footer. split; [reflexivity|].
  apply (warning_icon_of_last_row sampleHost
           (optionsOf 300 500 warningLastView) warningLastView
           (mkMetadata
              (Some [columnWithRole "axis" None;
                     columnWithRole "topvalues" None;
                     columnWithRole "warningstate" None]) None)
           [columnWithRole "axis" None; columnWithRole "topvalues" None] []
           (columnWithRole "warningstate" None)
           l topChart bottomChart footer).
  - reflexivity.
  - reflexivity.
  - reflexivity.
  - reflexivity.
  - constructor.
  - discriminate.
  - exact E.
Defined.

End FooterIcons.

Section StaleData.

Local Open Scope Q_scope.

(** A day count is rendered by its decimal digits. *)
Lemma toString_of_Z (n : Z) :
  (0 <= n)%Z -> JS.toString (JS.of_Z n) = JS.digits n.
Proof.
  intros Hn. unfold JS.toString, JS.of_Z, JS.Qltb.
  assert (E : Qle_bool 0 (inject_Z n) = true).
  { apply Qle_bool_iff. unfold Qle, inject_Z. cbn [Qnum Qden]. lia. }
  rewrite E. cbn [negb].
  change (Qabs (inject_Z n)) with (inject_Z (Z.abs n)).
  rewrite Qfloor_Z, Z.abs_eq by exact Hn. reflexivity.
Qed.

(** X15.  The footer [visual.ts] draws reports the age of the data.  With
    the last point of the top series dated [tLast], the first [tFirst] and
    the clock at [tNow] (whole milliseconds): the data is [age] days old,
    the nearest whole number of days between [tLast] and [tNow]; the info
    icon is drawn exactly when [age] reaches the threshold and the
    stale-data warning is switched on, with the message
    "Data is [age] days old. " and the configured text; the label reads
    "last [span] days" and stands 8 from the right edge, moved left by the
    icon's width when the icon is drawn. *)
Theorem footer_reports_the_age_of_the_data (h : Host) (size : DualKpiSize)
    (data : IDualKpiData)
    (chartWidth chartHeight chartTitleSpace chartSpaceBetween
       iconOffset : number) (footer : BottomView)
    (first lastPoint : IDualKpiDataPoint) (tFirst tLast tNow : Z)
    (threshold : Q) :
  d_topValues data !! 0%nat = Some first ->
  last (d_topValues data) = Some lastPoint ->
  date first = mkDate (JS.of_Z tFirst) ->
  date lastPoint = mkDate (JS.of_Z tLast) ->
  today h = mkDate (JS.of_Z tNow) ->
  d_staleDataThreshold data = Num threshold ->
  Visual.drawBottomContainer h size data chartWidth chartHeight
    chartTitleSpace chartSpaceBetween iconOffset = Ok footer ->
  let age := ((Z.abs (tLast - tNow) + 43200000) / 86400000)%Z in
  let span := ((Z.abs (tFirst - tLast) + 43200000) / 86400000)%Z in
  let shown :=
    Qle_bool threshold (inject_Z age) && d_showStaleDataWarning data in
  infoIcon footer =
    (if shown
     then Some ("Data is " +:+ JS.digits age +:+ " days old. "
                +:+ d_staleDataTooltipText data)
     else None) /\
  dayRange footer =
    Some ("last " +:+ JS.digits span +:+ " days",
          if shown
          then JS.sub (JS.sub chartWidth (Num 8)) (iconWidth footer)
          else JS.sub chartWidth (Num 8)).
Proof.
  intros Hfirst Hlast Hdf Hdl Hnow Hth Hf age span shown.
  destruct (drawBottomContainer_Ok h size data chartWidth chartHeight
              chartTitleSpace chartSpaceBetween iconOffset footer
              (or_introl Hf)) as [_ Hrest].
  destruct (d_topValues data) as [|first' rest]; [discriminate Hfirst|].
  injection Hfirst as ->.
  destruct Hrest as (lastPoint' & Hlast' & Hinfo & Hrange).
  rewrite Hlast in Hlast'. injection Hlast' as <-.
  rewrite Hinfo, Hrange. unfold staleAndRange.
  rewrite Hdf, Hdl, Hnow, Hth, !getDaysBetween_of_Z.
  fold age. fold span.
  rewrite !toString_of_Z by (apply Z.div_pos; lia).
  change (JS.ge (JS.of_Z age) (Num threshold))
    with (Qle_bool threshold (inject_Z age)).
  fold shown. split; reflexivity.
Qed.

Lemma footer_reports_the_age_of_the_data_witness :
  exists footer : BottomView,
    Visual.drawBottomContainer sampleHost large percentSnapshot (Num 300)
      (Num (429 # 2)) (Num 46) (Num 25) (Num (-1)) = Ok footer /\
    infoIcon footer =
      Some ("Data is " +:+ "10" +:+ " days old. "
            +:+ d_staleDataTooltipText percentSnapshot) /\
    dayRange footer =
      Some ("last " +:+ "1" +:+ " days",
            JS.sub (JS.sub (Num 300) (Num 8)) (iconWidth footer)).
Proof.
  destruct (Visual.drawBottomContainer sampleHost large percentSnapshot
              (Num 300) (Num (429 # 2)) (Num 46) (Num 25) (Num (-1)))
    as [footer|] eqn:F; [|vm_compute in F; discriminate F].
  exists footer. split; [reflexivity|].
  eapply (footer_reports_the_age_of_the_data sampleHost large percentSnapshot
            (Num 300) (Num (429 # 2)) (Num 46) (Num 25) (Num (-1)) footer _ _
            0 86400000 950400000 2).
  - reflexivity.
  - reflexivity.
  - reflexivity.
  - reflexivity.
  - reflexivity.
  - reflexivity.
  - exact F.
Defined.

End StaleData.

(** ** Axis bounds without numbers *)

Section AxisWithoutNumbers.

(** X16.  A series without a number.  When no point of the series holds a
    number and the axis bounds are left to the data, the later revision's
    [drawChart] puts both axis ticks at 0 (its [|| 0]), where [visual.ts]
    passes on what [d3.min] and [d3.max] answer, which is not a number. *)
Theorem drawChart_axis_without_numbers (h : Host) (size : DualKpiSize)
    (data : IDualKpiData) (top width height : number)
    (chartData : list IDualKpiDataPoint) (chartTitle : string)
    (valueAsPercent : bool) (tooltipText : string)
    (percentChangeStartPoint : option IDualKpiDataPoint)
    (abbreviateValue : bool) (chartType : string) (showZeroLine : bool)
    (view : ChartView) :
  Forall (fun p => value p = NaN) chartData ->
  (Revised.drawChart h size data top width height chartData chartTitle
     valueAsPercent tooltipText (mkAxisConfig None None)
     percentChangeStartPoint abbreviateValue chartType showZeroLine = Ok view
   -> tickValues view = [Num 0; Num 0]) /\
  (Visual.drawChart h size data top width height chartData chartTitle
     valueAsPercent tooltipText (mkAxisConfig None None)
     percentChangeStartPoint abbreviateValue chartType showZeroLine = Ok view
   -> tickValues view = [NaN; NaN]).
Proof.
  intros Hnan.
  assert (Hvalues : Forall (fun v => v = NaN) (map value chartData))
    by (apply Forall_fmap; exact Hnan).
  split; intros Hd; apply drawChartWith_Ok in Hd;
    destruct Hd as (_ & Hmin & Hmax & Hticks & _);
    rewrite Hticks, Hmin, Hmax; cbn [min max];
    rewrite (d3_min_no_number _ Hvalues), (d3_max_no_number _ Hvalues);
    reflexivity.
Qed.

Lemma drawChart_axis_without_numbers_witness :
  exists view : ChartView,
    Revised.drawChart sampleHost large defaultData (Num 0) (Num 300)
      (Num (429 # 2)) valuelessSeries "Sales" false ""
      (mkAxisConfig None None) (valuelessSeries !! 0%nat) false "area" false
    = Ok view /\
    tickValues view = [Num 0; Num 0].
Proof.
  destruct (Revised.drawChart sampleHost large defaultData (Num 0) (Num 300)
              (Num (429 # 2)) valuelessSeries "Sales" false ""
              (mkAxisConfig None None) (valuelessSeries !! 0%nat) false
              "area" false) as [view|] eqn:E;
    [|vm_compute in E; discriminate E].
  exists view. split; [reflexivity|].
  apply (drawChart_axis_without_numbers sampleHost large defaultData (Num 0)
           (Num 300) (Num (429 # 2)) valuelessSeries "Sales" false ""
           (valuelessSeries !! 0%nat) false "area" false view).
  - repeat constructor.
  - exact E.
Defined.

End AxisWithoutNumbers.

(** ** The viewport the later revision keeps *)

Section Viewport.

Lemma same_number_of_strict_eq (a b : number) :
  JS.strict_eq a b = true -> same_number a b.
Proof.
  destruct a as [x|], b as [y|]; cbn; try discriminate.
  apply Qeq_bool_iff.
Qed.

Lemma same_number_refl (a : number) : same_number a a.
Proof. destruct a as [x|]; cbn; [reflexivity | exact I]. Qed.

Lemma same_number_trans (a b c : number) :
  same_number a b -> same_number b c -> same_number a c.
Proof.
  destruct a as [x|], b as [y|], c as [z|]; cbn; try tauto.
  intros -> ->. reflexivity.
Qed.

Lemma updateViewport_in_step (st : ViewportState) (viewport : IViewport) :
  viewport_in_step st ->
  viewport_in_step (updateViewport st viewport) /\
  storedViewport (updateViewport st viewport) = Some viewport.
Proof.
  unfold viewport_in_step, updateViewport. intros Hst.
  split; [|reflexivity]. cbn [storedViewport svgAttributes].
  destruct (storedViewport st) as [stored|].
  - destruct (JS.strict_eq (width stored) (width viewport)) eqn:Ew;
      destruct (JS.strict_eq (height stored) (height viewport)) eqn:Eh;
      cbn [negb orb];
      try (exists (width viewport), (height viewport);
           split; [reflexivity|]; split; apply same_number_refl).
    destruct Hst as (w & h & -> & Hw & Hh). exists w, h.
    split; [reflexivity|].
    split; eapply same_number_trans; eauto using same_number_of_strict_eq.
  - exists (width viewport), (height viewport).
    split; [reflexivity|]. split; apply same_number_refl.
Qed.

(** X17.  The svg root follows the viewport.  After any sequence of
    [updateViewport] calls on a fresh instance, the viewport of the last
    call is the stored one and the svg root carries its width and height,
    although a call that finds the stored sides unchanged skips the write;
    before the first call nothing is stored or written. *)
Theorem updateViewport_keeps_svg_in_step (viewports : list IViewport) :
  storedViewport (fold_left updateViewport viewports initialViewportState)
  = last viewports /\
  match last viewports with
  | None =>
      svgAttributes (fold_left updateViewport viewports initialViewportState)
      = None
  | Some v =>
      exists w h,
        svgAttributes
          (fold_left updateViewport viewports initialViewportState)
        = Some (w, h) /\
        same_number w (width v) /\ same_number h (height v)
  end.
Proof.
  assert (Hgen : forall (vs : list IViewport) (st : ViewportState),
    viewport_in_step st ->
    viewport_in_step (fold_left updateViewport vs st) /\
    storedViewport (fold_left updateViewport vs st) =
      match last vs with
      | Some v => Some v
      | None => storedViewport st
      end).
  { induction vs as [|v vs IH]; intros st Hst; [split; [exact Hst|reflexivity]|].
    cbn [fold_left].
    destruct (updateViewport_in_step st v Hst) as [Hstep Hstored].
    destruct (IH _ Hstep) as [Hinv Hlast]. split; [exact Hinv|].
    rewrite Hlast, Hstored. destruct vs as [|v' vs']; [reflexivity|].
    change (last (v :: v' :: vs')) with (last (v' :: vs')).
    destruct (last (v' :: vs')) eqn:E; [reflexivity|].
    apply last_None in E. discriminate E. }
  destruct (Hgen viewports initialViewportState eq_refl) as [Hinv Hlast].
  cbn [initialViewportState storedViewport] in Hlast.
  assert (Hst : storedViewport
                  (fold_left updateViewport viewports initialViewportState)
                = last viewports)
    by (rewrite Hlast; destruct (last viewports); reflexivity).
  split; [exact Hst|]. unfold viewport_in_step in Hinv.
  rewrite Hst in Hinv. exact Hinv.
Qed.

End Viewport.

